(** * Surfactant: the CycloneDX writer ([surfactant/output/cyclonedx_writer.py])

    A shallow embedding of [write_sbom] and of the converters it calls,
    followed by the properties of the projection from the SBOM graph to the
    CycloneDX document.

    Conventions.
    - A Python [str] is a [string]; [str.upper] is modelled on ASCII letters
      (relationship labels are ASCII words).
    - [Optional[str]] is [option string]; Python truthiness of such a value
      is [truthy].
    - A [dict] is a [gmap]; a [list] is a [list].
    - Objects that the code mutates in place ([Software]) are threaded
      through the functions explicitly: a function that may assign to a field
      of its argument returns the argument's final state next to its result.
    - [pathlib.PurePath] is modelled in its POSIX flavour.
    - [bom.components] and the children of a [Dependency] are sorted sets
      of the cyclonedx library. The lists of the model keep, in order, what
      the code hands to their [add] methods; the sets are these lists up to
      order and repetition: [document_components] and the statements by
      membership speak of the sets. [bom.dependencies] is filled from the
      values of a dictionary and is listed in the order of the keys of the
      [gmap].
    - [write_sbom] and [edge_step] follow the text of the source;
      [write_sbom_run] and [edge_step_run] are the run against the cyclonedx
      library, whose [Dependency] class has no [add_scope_dependency]: the
      two agree on graphs whose edges are all labelled Contains, and on
      every other graph the run raises. *)

From Stdlib Require Import Ascii String List Bool Arith Lia Permutation.
From stdpp Require Import base option list strings gmap fin_maps pretty.
Import ListNotations.

Local Open Scope string_scope.
Local Open Scope list_scope.

(** ** Strings and paths *)

(** [bool(x)] for [x : Optional[str]]: [None] and the empty string are falsy. *)
Definition truthy (x : option string) : bool :=
  match x with
  | Some (String _ _) => true
  | _ => false
  end.

(** [str.upper] on one ASCII character. *)
Definition upper_ascii (c : ascii) : ascii :=
  let n := nat_of_ascii c in
  if ((97 <=? n)%nat && (n <=? 122)%nat)%bool then ascii_of_nat (n - 32) else c.

(** [s.upper()]. *)
Fixpoint upper (s : string) : string :=
  match s with
  | EmptyString => EmptyString
  | String c s' => String (upper_ascii c) (upper s')
  end.

(** [s.split("/")]. *)
Fixpoint split_slash (s : string) : list string :=
  match s with
  | EmptyString => [EmptyString]
  | String c s' =>
      if Ascii.eqb c "/" then EmptyString :: split_slash s'
      else match split_slash s' with
           | x :: xs => String c x :: xs
           | [] => [String c EmptyString]
           end
  end.

(** The root of a POSIX path ([posixpath.splitroot]): exactly two leading
    slashes are kept as ["//"], one or at least three collapse to ["/"]. *)
Definition path_root (s : string) : list string :=
  match s with
  | String "/" (String "/" (String "/" _)) => ["/"]
  | String "/" (String "/" _) => ["//"]
  | String "/" _ => ["/"]
  | _ => []
  end.

(** A path component that [pathlib] keeps: neither empty nor ["."]. *)
Definition kept_component (x : string) : bool :=
  negb (String.eqb x EmptyString) && negb (String.eqb x ".").

(** [pathlib.PurePath(s).parts] (POSIX flavour). *)
Definition parts (s : string) : list string :=
  path_root s ++ List.filter kept_component (split_slash s).

(** [sep.join(l)]. *)
Definition join (sep : string) (l : list string) : string :=
  String.concat sep l.

(** ** Data model *)

(** *** Input entities ([surfactant.sbomtypes])

    Modelled from the spec: the dataclasses [System], [Software] and [SBOM]
    are declared in [surfactant/sbomtypes], which is not part of the sources
    at hand. The fields below are the ones the writer reads, with the types
    the spec gives them: optional strings, lists of strings, and a list of
    metadata records, each a mapping from a category name to a mapping from
    field names to values. *)

Module System.
Record t := mk {
  UUID : string;
  name : option string;
  officialName : option string;
  vendor : list string;
  description : option string;
}.
End System.

Module Software.
Record t := mk {
  UUID : string;
  name : option string;
  version : option string;
  vendor : list string;
  description : option string;
  fileName : list string;
  containerPath : list string;
  sha1 : option string;
  sha256 : option string;
  md5 : option string;
  metadata : list (gmap string (gmap string string));
}.

(** [software.description = v]. *)
Definition set_description (v : option string) (s : t) : t :=
  mk (UUID s) (name s) (version s) (vendor s) v (fileName s)
     (containerPath s) (sha1 s) (sha256 s) (md5 s) (metadata s).

(** [software.version = v]. *)
Definition set_version (v : option string) (s : t) : t :=
  mk (UUID s) (name s) v (vendor s) (description s) (fileName s)
     (containerPath s) (sha1 s) (sha256 s) (md5 s) (metadata s).
End Software.

(** The relationship graph: a directed multigraph; [edges] lists the
    triples that [graph.edges(keys=True)] yields, (parent, child, label). *)
Module Graph.
Record t := mk {
  nodes : list string;
  edges : list (string * string * string);
}.
End Graph.

Module SBOM.
Record t := mk {
  systems : list System.t;
  software : list Software.t;
  graph : Graph.t;
}.
End SBOM.

(** *** Output document (the cyclonedx model classes the writer fills in) *)

Inductive ComponentType := CONTAINER | FILE.

Inductive HashAlgorithm := SHA_1 | SHA_256 | MD5.

Record HashType := mkHashType {
  alg : HashAlgorithm;
  content : string;
}.

(** [Component(bom_ref=..., name=..., ...)]; [supplier] is the name of the
    [OrganizationalEntity]. *)
Module Component.
Record t := mk {
  bom_ref : string;
  name : option string;
  version : option string;
  supplier : option string;
  description : option string;
  hashes : option (list HashType);
  copyright : option string;
  type : ComponentType;
}.
End Component.

(** A [Dependency]: its own reference and the children added to it, each
    with the scope it was added under ([None] for the plain
    [dependencies.add], [Some scope] for [add_scope_dependency]). *)
Module Dependency.
Record t := mk {
  ref : string;
  dependencies : list (string * option string);
}.
End Dependency.

Record Tool := mkTool {
  tool_name : string;
  tool_version : string;
}.

Module Bom.
Record t := mk {
  tools : list Tool;
  components : list Component.t;
  dependencies : list Dependency.t;
}.
End Bom.

#[global] Instance ComponentType_eq_dec : EqDecision ComponentType.
Proof. solve_decision. Defined.

#[global] Instance HashAlgorithm_eq_dec : EqDecision HashAlgorithm.
Proof. solve_decision. Defined.

#[global] Instance HashType_eq_dec : EqDecision HashType.
Proof. solve_decision. Defined.

#[global] Instance Component_eq_dec : EqDecision Component.t.
Proof. solve_decision. Defined.

(** *** Children of a node in the graph

    Modelled from the spec: [SBOM.get_children] belongs to
    [surfactant/sbomtypes]; the spec asks of the graph that lookups for the
    children of X under relation R be supported. The writer is embedded over
    an arbitrary such lookup (a section variable below); [graph_children] is
    the instance used to run the writer on concrete graphs: the targets of
    the edges that leave [x] with label [rel]. *)
Definition graph_children (g : Graph.t) (x rel : string) : list string :=
  map (fun e => snd (fst e))
      (List.filter (fun e => String.eqb (fst (fst e)) x && String.eqb (snd e) rel)
                   (Graph.edges g)).

(** ** Example inputs *)

Module Examples.

(** The version string the examples run the writer with. *)
Definition version : string := "1.2.3".

(** A Software entry with the given identifier, file names and container
    paths, and nothing else set. *)
Definition plain (uuid : string) (fileName containerPath : list string) : Software.t :=
  Software.mk uuid None None [] None fileName containerPath None None None [].

(** The scenario of the specification: the system S1 ("Widget OS", vendor
    Acme) contains the file F1 (libfoo.so, SHA-256 abc123). *)
Definition widget_system : System.t :=
  System.mk "S1" None (Some "Widget OS") ["Acme"] None.

Definition libfoo : Software.t :=
  Software.mk "F1" None None [] None ["libfoo.so"] ["S1/libfoo.so"]
              None (Some "abc123") None [].

Definition widget_sbom : SBOM.t :=
  SBOM.mk [widget_system] [libfoo]
          (Graph.mk ["S1"; "F1"] [("S1", "F1", "Contains")]).

(** A file under [parentA], with the explicit Contains edge as well. *)
Definition nested_file : Software.t :=
  plain "F2" ["file.txt"] ["parentA/sub/file.txt"].

Definition parentA : Software.t := plain "parentA" ["a.zip"] [].

Definition nested_sbom : SBOM.t :=
  SBOM.mk [] [parentA; nested_file]
          (Graph.mk ["parentA"; "F2"] [("parentA", "F2", "Contains")]).

(** Two programs and a library, with three differently labelled edges. *)
Definition labelled_sbom : SBOM.t :=
  SBOM.mk []
          [plain "A" ["a.exe"] []; plain "B" ["b.dll"] []; plain "C" ["c.dll"] []]
          (Graph.mk ["A"; "B"; "C"]
                    [("A", "B", "DependsOn"); ("A", "C", "requires");
                     ("B", "C", "Uses")]).

(** A file whose version and description are empty strings. *)
Definition blank_file : Software.t :=
  Software.mk "F3" (Some "tool") (Some EmptyString) ["Acme"] (Some EmptyString) ["tool.bin"] []
              (Some "da39") None None [].

Definition blank_file_sbom : SBOM.t :=
  SBOM.mk [] [blank_file] (Graph.mk ["F3"] []).

(** An archive whose version and description are empty strings, and the
    file it contains. *)
Definition blank_archive : Software.t :=
  Software.mk "C1" None (Some EmptyString) [] (Some EmptyString) ["pkg.zip"] [] None None None [].

Definition archived_file : Software.t := plain "F4" ["inner.txt"] ["C1/inner.txt"].

Definition blank_archive_sbom : SBOM.t :=
  SBOM.mk [] [blank_archive; archived_file]
          (Graph.mk ["C1"; "F4"] [("C1", "F4", "Contains")]).

(** A file known only by a bare file name as its container path. *)
Definition bare_path_file : Software.t := plain "F5" ["file.txt"] ["file.txt"].

Definition bare_path_sbom : SBOM.t :=
  SBOM.mk [] [bare_path_file] (Graph.mk ["F5"] []).

(** An archive listed twice under the same file name, and its content. *)
Definition twice_named_archive : Software.t := plain "C2" ["a.zip"; "a.zip"] [].

Definition twice_named_sbom : SBOM.t :=
  SBOM.mk [] [twice_named_archive; plain "F6" ["x"] ["C2/x"]]
          (Graph.mk ["C2"; "F6"] [("C2", "F6", "Contains")]).

(** A file found in two archives A1 and B1. *)
Definition shared_file : Software.t := plain "F7" ["x.txt"] ["A1/x.txt"; "B1/x.txt"].

Definition shared_file_sbom : SBOM.t :=
  SBOM.mk [] [plain "A1" ["a.zip"] []; plain "B1" ["b.zip"] []; shared_file]
          (Graph.mk ["A1"; "B1"; "F7"]
                    [("A1", "F7", "Contains"); ("B1", "F7", "Contains")]).

(** An archive Z found in two archives A1 and B1, with a file of its own. *)
Definition shared_archive : Software.t := plain "Z" ["z.zip"] ["A1/z.zip"; "B1/z.zip"].

Definition shared_archive_sbom : SBOM.t :=
  SBOM.mk []
          [plain "A1" ["a.zip"] []; plain "B1" ["b.zip"] []; shared_archive;
           plain "F8" ["y.txt"] ["Z/y.txt"]]
          (Graph.mk ["A1"; "B1"; "Z"; "F8"]
                    [("A1", "Z", "Contains"); ("B1", "Z", "Contains");
                     ("Z", "F8", "Contains")]).

End Examples.

(** ** Further example inputs *)

Module Scenarios.

(** A library whose second metadata record holds the copyright. *)
Definition licensed_file : Software.t :=
  Software.mk "F9" None None ["Acme"; "Initech"] None ["a.dll"] [] None None None
    [{["Signature" := {["Signer" := "Acme"]}]};
     {["FileInfo" := {["LegalCopyright" := "(c) Acme"]}]}].

(** A library whose first copyright value is the empty string. *)
Definition blank_copyright_file : Software.t :=
  Software.mk "F10" None None [] None ["b.dll"] [] None None None
    [{["FileInfo" := {["LegalCopyright" := EmptyString]}]};
     {["FileInfo" := {["LegalCopyright" := "(c) Initech"]}]}].

Definition licensed_sbom : SBOM.t :=
  SBOM.mk [] [licensed_file; blank_copyright_file] (Graph.mk ["F9"; "F10"] []).

(** A file whose container path names B1, with a Contains edge from A1
    only. *)
Definition lost_file_sbom : SBOM.t :=
  SBOM.mk []
          [Examples.plain "A1" ["a.zip"] []; Examples.plain "B1" ["b.zip"] [];
           Examples.plain "F7" ["x.txt"] ["B1/x.txt"]]
          (Graph.mk ["A1"; "B1"; "F7"] [("A1", "F7", "Contains")]).

(** An archive with a name of its own, known under two file names, and
    its content. *)
Definition named_archive : Software.t :=
  Software.mk "C3" (Some "pkg") None [] None ["a.zip"; "b.zip"] [] None None None [].

Definition named_archive_sbom : SBOM.t :=
  SBOM.mk [] [named_archive; Examples.plain "F11" ["x"] ["C3/x"]]
          (Graph.mk ["C3"; "F11"] [("C3", "F11", "Contains")]).

End Scenarios.

(** ** The regression script ([scripts/regressions.py])

    [show_diff] and [test_gha] are embedded over the functions they call
    from outside the repository's sources at hand: [str.splitlines] and
    [difflib.unified_diff] for the first, and for the second the SBOM
    generation [generate_sbom_string], given as a function from the folder
    path to either the SBOM text or the text of the traceback of the
    exception that [test_gha] catches. Strings are byte strings (UTF-8), and
    [str.rstrip] strips ASCII whitespace. Calls to the logger are left out:
    they do not change what the functions return. *)

Module Regressions.

(** The newline and the double quote, as strings. *)
Definition newline : string := String (ascii_of_nat 10) EmptyString.

Definition dquote : string := String (ascii_of_nat 34) EmptyString.

(** [str.isspace] on one ASCII character. *)
Definition is_space (c : ascii) : bool :=
  let n := nat_of_ascii c in
  (((9 <=? n)%nat && (n <=? 13)%nat) || ((28 <=? n)%nat && (n <=? 32)%nat))%bool.

(** [s.rstrip()]. *)
Fixpoint rstrip (s : string) : string :=
  match s with
  | EmptyString => EmptyString
  | String c s' =>
      match rstrip s' with
      | EmptyString => if is_space c then EmptyString else String c EmptyString
      | String c' t => String c (String c' t)
      end
  end.

(** [l[:n]]: a negative [n] counts from the end of the list. *)
Definition slice_to {A : Type} (n : Z) (l : list A) : list A :=
  if (0 <=? n)%Z then firstn (Z.to_nat n) l
  else firstn (Z.to_nat (Z.of_nat (length l) + n)) l.

(** [s[:7]]. *)
Definition short_sha (s : string) : string := substring 0 7 s.

(** The list [lines] of [show_diff], built from the list [diff]. *)
Definition shown_lines (diff : list string) (max_lines : Z) : list string :=
  let lines := map rstrip (slice_to max_lines diff) in
  if (max_lines <? Z.of_nat (length diff))%Z
  then lines ++ ["... and " +:+ pretty (Z.of_nat (length diff) - max_lines)%Z
                 +:+ " more lines"]
  else lines.

(** [show_diff]. *)
Definition show_diff (splitlines : string -> list string)
    (unified_diff : list string -> list string -> list string)
    (text1 text2 : string) (max_lines : Z) : string :=
  let lines1 := splitlines text1 in
  let lines2 := splitlines text2 in
  let diff := unified_diff lines1 lines2 in
  join newline (shown_lines diff max_lines).

(** A test data folder: [folder.name] and [str(folder)]. *)
Record Folder := mkFolder {
  name : string;
  path : string;
}.

(** The record kept per folder: [{"sbom": ..., "stacktrace": ...}]. *)
Record FolderData := mkFolderData {
  sbom : string;
  stacktrace : option string;
}.

(** An entry of [results]: [{"diff": ...}] or [{"stacktrace": ...}]. *)
Inductive Result :=
  | DiffResult (diff : string)
  | StacktraceResult (trace : option string).

(** A [dict] with string keys, in insertion order. *)
Definition dict (V : Type) : Type := list (string * V).

(** [d.get(k)]. *)
Fixpoint dict_get {V : Type} (k : string) (d : dict V) : option V :=
  match d with
  | [] => None
  | (k', v) :: rest => if String.eqb k' k then Some v else dict_get k rest
  end.

(** [d[k] = v]: an existing key keeps its place. *)
Fixpoint dict_set {V : Type} (k : string) (v : V) (d : dict V) : dict V :=
  match d with
  | [] => [(k, v)]
  | (k', v') :: rest =>
      if String.eqb k' k then (k', v) :: rest else (k', v') :: dict_set k v rest
  end.

(** [k in d]. *)
Definition dict_mem {V : Type} (k : string) (d : dict V) : bool :=
  match dict_get k d with
  | Some _ => true
  | None => false
  end.

(** The folder names that are new: [created_folders]. *)
Definition created_folders (data_folders : list Folder) (old_folders : dict FolderData)
  : list string :=
  List.filter (fun folder => negb (dict_mem folder old_folders)) (map name data_folders).

(** The folder names that are gone: [removed_folders]. *)
Definition removed_folders (data_folders : list Folder) (old_folders : dict FolderData)
  : list string :=
  List.filter (fun folder => negb (existsb (String.eqb folder) (map name data_folders)))
              (map fst old_folders).

(** Body of the loop of [test_gha] over [data_folders]. *)
Definition folder_step (generate : string -> string + string)
    (splitlines : string -> list string)
    (unified_diff : list string -> list string -> list string)
    (old_folders : dict FolderData)
    (st : dict FolderData * dict Result) (folder : Folder)
  : dict FolderData * dict Result :=
  let '(new_folders, results) := st in
  let old_data :=
    match dict_get (name folder) old_folders with
    | Some d => d
    | None => mkFolderData EmptyString None
    end in
  let new_data :=
    match generate (path folder) with
    | inl text => mkFolderData text None
    | inr trace => mkFolderData (sbom old_data) (Some trace)
    end in
  let new_folders := dict_set (name folder) new_data new_folders in
  if negb (String.eqb (sbom new_data) (sbom old_data))
     && negb (String.eqb (sbom new_data) EmptyString)
  then (new_folders,
        dict_set (name folder)
          (DiffResult (show_diff splitlines unified_diff
                         (sbom old_data) (sbom new_data) 100))
          results)
  else if truthy (stacktrace new_data)
  then (new_folders,
        dict_set (name folder) (StacktraceResult (stacktrace new_data)) results)
  else (new_folders, results).

(** The lines ["- {folder}\n"] of a list of folder names. *)
Definition bullet_list (folders : list string) : string :=
  fold_left (fun summary folder => summary +:+ "- " +:+ folder +:+ newline)
            folders EmptyString.

(** The block of the summary for one entry of [results]. *)
Definition result_block (repo : option string) (current_run : option (string * string))
    (folder_name : string) (result : Result) : string :=
  let summary := "<details>" +:+ newline in
  let summary := summary +:+ "<summary><h3>" in
  let summary :=
    match result with
    | StacktraceResult _ => summary +:+ "❗️ "
    | DiffResult _ => summary
    end in
  let summary := summary +:+ folder_name in
  let summary :=
    match current_run with
    | Some (sha, _) =>
        if truthy repo then
          let href := "https://github.com/" +:+ default EmptyString repo +:+ "/tree/"
                      +:+ sha +:+ "/tests/data/" +:+ folder_name in
          summary +:+ " (<a href=" +:+ dquote +:+ href +:+ dquote +:+ ">Link</a>)"
        else summary
    | None => summary
    end in
  let summary := summary +:+ "</h3></summary>" +:+ newline +:+ newline in
  let summary :=
    match result with
    | StacktraceResult trace =>
        summary +:+ "```" +:+ newline +:+ default "None" trace +:+ newline
                +:+ "```" +:+ newline
    | DiffResult diff =>
        summary +:+ "```diff" +:+ newline +:+ diff +:+ newline +:+ "```" +:+ newline
    end in
  summary +:+ "</details>" +:+ newline.

(** The lines of the summary about the runs that were compared. *)
Definition run_footer (repo : option string) (current_run last_run : option (string * string))
    (requested_last_sha : option string) : string :=
  let summary := EmptyString in
  let summary :=
    match current_run with
    | Some (sha, id) =>
        if truthy repo then
          let run_href := "https://github.com/" +:+ default EmptyString repo
                          +:+ "/actions/runs/" +:+ id in
          summary +:+ newline +:+ "<sub>For commit " +:+ short_sha sha
                  +:+ " (Run <a href='" +:+ run_href +:+ "'>" +:+ id +:+ "</a>)</sub>"
        else summary
    | None => summary
    end in
  match last_run with
  | Some (sha, id) =>
      if truthy repo then
        let run_href := "https://github.com/" +:+ default EmptyString repo
                        +:+ "/actions/runs/" +:+ id in
        let summary :=
          summary +:+ newline +:+ "<sub>Compared against commit " +:+ short_sha sha
                  +:+ " (Run <a href='" +:+ run_href +:+ "'>" +:+ id +:+ "</a>)</sub>" in
        if truthy requested_last_sha
           && negb (String.eqb (default EmptyString requested_last_sha) sha)
        then summary +:+ newline +:+ "<sub>⚠️ Requested SHA "
                     +:+ short_sha (default EmptyString requested_last_sha)
                     +:+ " did not have a matching run. Used " +:+ short_sha sha
                     +:+ " instead.</sub>"
        else summary
      else summary
  | None => summary
  end.

(** The loop of [test_gha] over [data_folders]: [new_folders] and
    [results] after it. *)
Definition folder_loop (generate : string -> string + string)
    (splitlines : string -> list string)
    (unified_diff : list string -> list string -> list string)
    (data_folders : list Folder) (old_folders : dict FolderData)
  : dict FolderData * dict Result :=
  fold_left (folder_step generate splitlines unified_diff old_folders)
            data_folders ([], []).

(** The record that the loop stores for [folder]: the new SBOM text, or the
    previous text and the traceback when the generation failed. *)
Definition stored_data (generate : string -> string + string)
    (old_folders : dict FolderData) (folder : Folder) : FolderData :=
  match generate (path folder) with
  | inl text => mkFolderData text None
  | inr trace =>
      mkFolderData
        match dict_get (name folder) old_folders with
        | Some d => sbom d
        | None => EmptyString
        end
        (Some trace)
  end.

(** The SBOM text that [old_folders] holds for [folder], the empty string
    when it holds none. *)
Definition previous_text (old_folders : dict FolderData) (folder : Folder) : string :=
  match dict_get (name folder) old_folders with
  | Some d => sbom d
  | None => EmptyString
  end.

(** The entry of [results] that the loop makes for [folder], if any. *)
Definition reported (generate : string -> string + string)
    (splitlines : string -> list string)
    (unified_diff : list string -> list string -> list string)
    (old_folders : dict FolderData) (folder : Folder) : option Result :=
  match generate (path folder) with
  | inl text =>
      if negb (String.eqb text (previous_text old_folders folder))
         && negb (String.eqb text EmptyString)
      then Some (DiffResult (show_diff splitlines unified_diff
                               (previous_text old_folders folder) text 100))
      else None
  | inr trace =>
      if truthy (Some trace) then Some (StacktraceResult (Some trace)) else None
  end.

(** [test_gha]: the summary and [new_folders]. *)
Definition test_gha (generate : string -> string + string)
    (splitlines : string -> list string)
    (unified_diff : list string -> list string -> list string)
    (data_folders : list Folder)
    (old_folders : dict FolderData) (repo : option string)
    (current_run last_run : option (string * string))
    (requested_last_sha : option string)
  : string * dict FolderData :=
  let created := created_folders data_folders old_folders in
  let removed := removed_folders data_folders old_folders in
  let summary := EmptyString in
  let summary :=
    match created with
    | [] => summary
    | _ :: _ =>
        summary +:+ "## 🆕 New Folders (" +:+ pretty (length created) +:+ ")" +:+ newline
                +:+ bullet_list created +:+ newline
    end in
  let summary :=
    match removed with
    | [] => summary
    | _ :: _ =>
        summary +:+ "## 🗑️ Removed Folders (" +:+ pretty (length removed) +:+ ")" +:+ newline
                +:+ bullet_list removed +:+ newline
    end in
  match data_folders with
  | [] => (rstrip (summary +:+ "## ❓ No Test Folders Found" +:+ newline), [])
  | _ :: _ =>
      let '(new_folders, results) :=
        fold_left (folder_step generate splitlines unified_diff old_folders)
                  data_folders ([], []) in
      let summary :=
        match results with
        | [] => summary +:+ "## ✅ No SBOM Changes Detected" +:+ newline
        | _ :: _ =>
            fold_left
              (fun summary '(folder_name, result) =>
                 summary +:+ result_block repo current_run folder_name result)
              results
              (summary +:+ "## 🧪 SBOM Results (" +:+ pretty (length results) +:+ "/"
                       +:+ pretty (length data_folders) +:+ ")" +:+ newline +:+ newline)
        end in
      let summary :=
        summary +:+ run_footer repo current_run last_run requested_last_sha in
      (rstrip summary, new_folders)
  end.

End Regressions.

(** ** Example inputs for the regression script *)

Module RegressionScenarios.

(** Stand-ins for the functions the script calls, good for the examples
    only: texts of one line, a diff that lists the lines of the first text
    as removed and those of the second as added, and a generator that fails
    on one folder. *)
Definition one_line (text : string) : list string := [text].

Definition plain_diff (lines1 lines2 : list string) : list string :=
  if decide (lines1 = lines2) then []
  else map (fun l => "-" +:+ l) lines1 ++ map (fun l => "+" +:+ l) lines2.

Definition generate (folder_path : string) : string + string :=
  if String.eqb folder_path "tests/data/broken"
  then inr "RuntimeError: Failed to invoke SBOM generation"
  else inl ("sbom of " +:+ folder_path).

Definition data_folders : list Regressions.Folder :=
  [Regressions.mkFolder "a_out" "tests/data/a_out";
   Regressions.mkFolder "broken" "tests/data/broken"].

Definition old_folders : Regressions.dict Regressions.FolderData :=
  [("broken", Regressions.mkFolderData "sbom of last week" None);
   ("gone", Regressions.mkFolderData "sbom of a removed folder" None)].

End RegressionScenarios.

(** ** The writer *)

Section Writer.

(** [sbom.get_children(uuid, rel_type=...)], as a lookup in the graph. *)
Variable get_children : Graph.t -> string -> string -> list string.

(** [surfactant.__version__]. *)
Variable surfactant_version : string.

(** The supplier of a component: the first vendor, when there is one. *)
Definition first_vendor (vendor : list string) : option string :=
  match vendor with
  | [] => None
  | v :: _ => Some v
  end.

(** [convert_system_to_cyclonedx_component]. *)
Definition convert_system_to_cyclonedx_component (system : System.t)
  : string * Component.t :=
  let name := System.officialName system in
  let name :=
    if negb (truthy name) && truthy (System.name system)
    then System.name system else name in
  let supplier := first_vendor (System.vendor system) in
  let system_component :=
    Component.mk (System.UUID system) name None supplier
                 (System.description system) None None CONTAINER in
  (System.UUID system, system_component).

(** [hashes.append(HashType(alg=a, content=x))] under [if x:]. *)
Definition hash_entry (a : HashAlgorithm) (x : option string) : list HashType :=
  match x with
  | Some h => if truthy x then [mkHashType a h] else []
  | None => []
  end.

(** The hash list both software converters build: the present ones among
    SHA-1, SHA-256 and MD5, and [None] when the list stays empty. *)
Definition software_hashes (software : Software.t) : option (list HashType) :=
  let hashes :=
    hash_entry SHA_1 (Software.sha1 software)
    ++ hash_entry SHA_256 (Software.sha256 software)
    ++ hash_entry MD5 (Software.md5 software) in
  match hashes with
  | [] => None
  | _ :: _ => Some hashes
  end.

(** [convert_software_to_cyclonedx_container_components]. *)
Definition convert_software_to_cyclonedx_container_components (software : Software.t)
  : string * list Component.t :=
  let containers :=
    fold_left
      (fun containers fname =>
         let name := Software.name software in
         let name := if negb (truthy name) then Some fname else name in
         let supplier := first_vendor (Software.vendor software) in
         let hashes := software_hashes software in
         containers ++
           [Component.mk (Software.UUID software) name
                         (Software.version software) supplier
                         (Software.description software) hashes None CONTAINER])
      (Software.fileName software) [] in
  (Software.UUID software, containers).

(** The loop of [get_fileinfo_metadata] over the metadata records. *)
Fixpoint fileinfo_lookup (field : string) (entries : list (gmap string (gmap string string)))
  : option string :=
  match entries with
  | [] => None
  | entry :: rest =>
      match entry !! "FileInfo" with
      | Some info =>
          match info !! field with
          | Some v => Some v
          | None => fileinfo_lookup field rest
          end
      | None => fileinfo_lookup field rest
      end
  end.

(** [get_fileinfo_metadata]. *)
Definition get_fileinfo_metadata (software : Software.t) (field : string) : option string :=
  fileinfo_lookup field (Software.metadata software).

(** [create_cyclonedx_file]: the component, and the software entry as the
    two assignments to [description] and [version] leave it. *)
Definition create_cyclonedx_file (file_path : string) (software : Software.t)
  : Component.t * Software.t :=
  let supplier := first_vendor (Software.vendor software) in
  let hashes := software_hashes software in
  let copyright_text :=
    let cr_text := get_fileinfo_metadata software "LegalCopyright" in
    if truthy cr_text then cr_text else None in
  let software :=
    if decide (Software.description software = Some EmptyString)
    then Software.set_description None software else software in
  let software :=
    if decide (Software.version software = Some EmptyString)
    then Software.set_version None software else software in
  (Component.mk (Software.UUID software) (Some file_path)
                (Software.version software) supplier
                (Software.description software) hashes copyright_text FILE,
   software).

(** One file record: parent container (or [None]), software UUID, component. *)
Definition file_record : Type := option string * string * Component.t.

(** Body of the loop over [software.containerPath]. *)
Definition container_path_step (st : list file_record * Software.t) (cpathstr : string)
  : list file_record * Software.t :=
  let '(files, software) := st in
  let cpath := parts cpathstr in
  if (1 <? length cpath)%nat then
    let parent_uuid := hd EmptyString cpath in
    let file_path := join "/" (tl cpath) in
    let '(file, software) := create_cyclonedx_file file_path software in
    (files ++ [(Some parent_uuid, Software.UUID software, file)], software)
  else (files, software).

(** Body of the loop over [software.fileName]. *)
Definition file_name_step (st : list file_record * Software.t) (fname : string)
  : list file_record * Software.t :=
  let '(files, software) := st in
  let '(file, software) := create_cyclonedx_file fname software in
  (files ++ [(None, Software.UUID software, file)], software).

(** [convert_software_to_cyclonedx_file_components]. *)
Definition convert_software_to_cyclonedx_file_components (software : Software.t)
  : list file_record * Software.t :=
  let st := fold_left container_path_step (Software.containerPath software) ([], software) in
  match Software.containerPath software with
  | [] => fold_left file_name_step (Software.fileName software) st
  | _ :: _ => st
  end.

(** The state of the loop over [sbom.software]: the components added to the
    document so far, the table [container_path_relationships], and the
    software entries already visited, in their final state. *)
Definition software_state : Type :=
  list Component.t * gmap string string * list Software.t.

(** Body of the loop over the file records of one software entry. *)
Definition file_record_step (st : list Component.t * gmap string string) (r : file_record)
  : list Component.t * gmap string string :=
  let '(components, container_path_relationships) := st in
  let '(parent_uuid, _, file) := r in
  let components := components ++ [file] in
  if truthy parent_uuid then
    match parent_uuid with
    | Some p => (components, <[Component.bom_ref file := p]> container_path_relationships)
    | None => (components, container_path_relationships)
    end
  else (components, container_path_relationships).

(** Body of the loop over [sbom.software]. *)
Definition software_step (g : Graph.t) (st : software_state) (software : Software.t)
  : software_state :=
  let '(components, container_path_relationships, visited) := st in
  match get_children g (Software.UUID software) "Contains" with
  | _ :: _ =>
      let '(_, container_list) :=
        convert_software_to_cyclonedx_container_components software in
      (fold_left (fun components container => components ++ [container])
                 container_list components,
       container_path_relationships, visited ++ [software])
  | [] =>
      let '(files, software) :=
        convert_software_to_cyclonedx_file_components software in
      let '(components, container_path_relationships) :=
        fold_left file_record_step files (components, container_path_relationships) in
      (components, container_path_relationships, visited ++ [software])
  end.

(** [rel_type in ("USES", "DEPENDS_ON", "REQUIRES")]. *)
Definition runtime_labels : list string := ["USES"; "DEPENDS_ON"; "REQUIRES"].

(** The test that makes the edge loop [continue]. *)
Definition skip_edge (container_path_relationships : gmap string string)
    (parent_uuid child_uuid rel_type : string) : bool :=
  String.eqb rel_type "CONTAINS"
  && match container_path_relationships !! child_uuid with
     | Some recorded => negb (String.eqb parent_uuid recorded)
     | None => false
     end.

(** The child entry that an edge adds to its parent's [Dependency], the
    two calls of [add_scope_dependency] read as their name and arguments
    say: the child with the given scope.  [edge_step_run] below has what
    these calls do when they are run. *)
Definition edge_entry (child_uuid rel_type : string) : string * option string :=
  if String.eqb rel_type "CONTAINS" then (child_uuid, None)
  else if existsb (String.eqb rel_type) runtime_labels then (child_uuid, Some "runtime")
  else (child_uuid, Some "unknown").

(** Body of the loop over [sbom.graph.edges(keys=True)], as the source
    reads. The [Dependency] of the parent is created on first use and
    updated in the dictionary; its children are kept in the order in which
    they are added. *)
Definition edge_step (container_path_relationships : gmap string string)
    (cdx_rels : gmap string Dependency.t) (e : string * string * string)
  : gmap string Dependency.t :=
  let '(parent_uuid, child_uuid, rel_type) := e in
  let rel_type := upper rel_type in
  if skip_edge container_path_relationships parent_uuid child_uuid rel_type
  then cdx_rels
  else
    let cdx_rels :=
      match cdx_rels !! parent_uuid with
      | None => <[parent_uuid := Dependency.mk parent_uuid []]> cdx_rels
      | Some _ => cdx_rels
      end in
    match cdx_rels !! parent_uuid with
    | Some parent_dep =>
        <[parent_uuid :=
            Dependency.mk (Dependency.ref parent_dep)
              (Dependency.dependencies parent_dep ++ [edge_entry child_uuid rel_type])]>
          cdx_rels
    | None => cdx_rels
    end.

(** The first two loops of [write_sbom]: system components, then software
    components together with the parent-lookup table. *)
Definition build_components (sbom : SBOM.t) : software_state :=
  let components :=
    fold_left
      (fun components system =>
         let '(_, comp) := convert_system_to_cyclonedx_component system in
         components ++ [comp])
      (SBOM.systems sbom) [] in
  fold_left (software_step (SBOM.graph sbom)) (SBOM.software sbom)
            (components, ∅, []).

(** The dictionary [cdx_rels] after the loop over the edges. *)
Definition build_dependencies (container_path_relationships : gmap string string)
    (g : Graph.t) : gmap string Dependency.t :=
  fold_left (edge_step container_path_relationships) (Graph.edges g) ∅.

(** [write_sbom] as the source reads: the document handed to the cyclonedx
    outputter, and the SBOM as the call leaves it.  [write_sbom_run] below
    is the call as it runs. *)
Definition write_sbom (sbom : SBOM.t) : Bom.t * SBOM.t :=
  let surfactant_tool := mkTool "Surfactant" surfactant_version in
  let '(components, container_path_relationships, software) := build_components sbom in
  let cdx_rels := build_dependencies container_path_relationships (SBOM.graph sbom) in
  (Bom.mk [surfactant_tool] components (map snd (map_to_list cdx_rels)),
   SBOM.mk (SBOM.systems sbom) software (SBOM.graph sbom)).

(** The children recorded for [parent_uuid] in a dictionary of dependencies. *)
Definition children_of (cdx_rels : gmap string Dependency.t) (parent_uuid : string)
  : list (string * option string) :=
  match cdx_rels !! parent_uuid with
  | Some d => Dependency.dependencies d
  | None => []
  end.

(** ** Views of the writer's result used by the properties *)

(** The table [container_path_relationships] when the edge loop starts. *)
Definition container_path_table (sbom : SBOM.t) : gmap string string :=
  snd (fst (build_components sbom)).

(** The components that one pass of the software loop adds for [software]. *)
Definition projected_components (g : Graph.t) (software : Software.t) : list Component.t :=
  fst (fst (software_step g ([], ∅, []) software)).

(** The state in which one pass of the software loop leaves [software]. *)
Definition software_after (g : Graph.t) (software : Software.t) : list Software.t :=
  snd (software_step g ([], ∅, []) software).

(** The children listed in the document under [parent_uuid], with scopes. *)
Definition dependency_entries (bom : Bom.t) (parent_uuid : string)
  : list (string * option string) :=
  flat_map
    (fun d => if String.eqb (Dependency.ref d) parent_uuid
              then Dependency.dependencies d else [])
    (Bom.dependencies bom).

(** What the edge [e] adds under [parent_uuid], given the lookup table. *)
Definition emitted (tbl : gmap string string) (parent_uuid : string)
    (e : string * string * string) : list (string * option string) :=
  let '(p, c, r) := e in
  if String.eqb p parent_uuid && negb (skip_edge tbl p c (upper r))
  then [edge_entry c (upper r)] else [].

(** A container path with more than one part. *)
Definition multi_segment (cpathstr : string) : bool :=
  (1 <? length (parts cpathstr))%nat.

(** The parent named by the last multi-segment container path, if any. *)
Definition last_path_parent (software : Software.t) : option string :=
  last (map (fun cpathstr => hd EmptyString (parts cpathstr))
            (List.filter multi_segment (Software.containerPath software))).

(** A Contains-labelled edge from [p] to [c]: the label, upper-cased, is
    [CONTAINS]. *)
Definition is_contains_edge (p c : string) (e : string * string * string) : bool :=
  let '(p', c', r) := e in
  String.eqb p' p && String.eqb c' c && String.eqb (upper r) "CONTAINS".

(** [s'] is [s] except that an empty-string [version] or [description] may
    have become [None]. *)
Definition only_emptied (s s' : Software.t) : Prop :=
  Software.UUID s' = Software.UUID s
  /\ Software.name s' = Software.name s
  /\ Software.vendor s' = Software.vendor s
  /\ Software.fileName s' = Software.fileName s
  /\ Software.containerPath s' = Software.containerPath s
  /\ Software.sha1 s' = Software.sha1 s
  /\ Software.sha256 s' = Software.sha256 s
  /\ Software.md5 s' = Software.md5 s
  /\ Software.metadata s' = Software.metadata s
  /\ (Software.version s' = Software.version s
      \/ (Software.version s = Some EmptyString /\ Software.version s' = None))
  /\ (Software.description s' = Software.description s
      \/ (Software.description s = Some EmptyString /\ Software.description s' = None)).

(** The hash value of [software] for algorithm [a]. *)
Definition hash_field (a : HashAlgorithm) (software : Software.t) : option string :=
  match a with
  | SHA_1 => Software.sha1 software
  | SHA_256 => Software.sha256 software
  | MD5 => Software.md5 software
  end.

(** [x] is an endpoint of some edge of [g]. *)
Definition edge_endpoint (g : Graph.t) (x : string) : Prop :=
  exists p c r, In (p, c, r) (Graph.edges g) /\ (x = p \/ x = c).

(** The software entry as [create_cyclonedx_file] leaves it. *)
Definition normalized (software : Software.t) : Software.t :=
  snd (create_cyclonedx_file EmptyString software).

(** The file component that [create_cyclonedx_file] returns. *)
Definition file_component (software : Software.t) (file_path : string) : Component.t :=
  fst (create_cyclonedx_file file_path software).

(** The record appended for a multi-segment container path. *)
Definition path_record (software : Software.t) (cpathstr : string) : file_record :=
  (Some (hd EmptyString (parts cpathstr)), Software.UUID software,
   file_component software (join "/" (tl (parts cpathstr)))).

(** The record appended for a file name. *)
Definition name_record (software : Software.t) (fname : string) : file_record :=
  (None, Software.UUID software, file_component software fname).

(** The component appended for a file name of a container. *)
Definition container_component (software : Software.t) (fname : string) : Component.t :=
  Component.mk (Software.UUID software)
    (if negb (truthy (Software.name software)) then Some fname else Software.name software)
    (Software.version software) (first_vendor (Software.vendor software))
    (Software.description software) (software_hashes software) None CONTAINER.

(** The parent that the software loop records for [software]: none for a
    container, the parent of the last multi-segment path otherwise. *)
Definition recorded_parent (g : Graph.t) (software : Software.t) : option string :=
  match get_children g (Software.UUID software) "Contains" with
  | _ :: _ => None
  | [] => last_path_parent software
  end.

(** The lookup table after one pass of the software loop. *)
Definition table_after (g : Graph.t) (tbl : gmap string string) (software : Software.t)
  : gmap string string :=
  match recorded_parent g software with
  | Some q => <[Software.UUID software := q]> tbl
  | None => tbl
  end.

(** Every record is filed under its own reference, and that reference is
    the parent of an edge of [E]. *)
Definition well_keyed (E : list (string * string * string))
    (cdx_rels : gmap string Dependency.t) : Prop :=
  forall k d, cdx_rels !! k = Some d ->
    Dependency.ref d = k /\ exists c r, In (k, c, r) E.

(** What [write_sbom] may have changed in one software entry. *)
Definition frame_of (g : Graph.t) (s s' : Software.t) : Prop :=
  only_emptied s s'
  /\ (get_children g (Software.UUID s) "Contains" <> [] -> s' = s)
  /\ (projected_components g s = [] -> s' = s)
  /\ (Software.version s <> Some EmptyString -> Software.description s <> Some EmptyString -> s' = s)
  /\ (get_children g (Software.UUID s) "Contains" = [] ->
      projected_components g s <> [] ->
      Software.version s'
      = (if decide (Software.version s = Some EmptyString)
         then None else Software.version s)
      /\ Software.description s'
         = (if decide (Software.description s = Some EmptyString)
            then None else Software.description s)).

(** The number of entries of [l] for algorithm [a]. *)
Definition count_alg (a : HashAlgorithm) (l : list HashType) : nat :=
  length (List.filter (fun e => bool_decide (alg e = a)) l).

(** ** Further views: metadata, dependency records, repeated runs *)

(** The metadata record [entry] has a ["FileInfo"] mapping with [field]. *)
Definition has_fileinfo_field (field : string) (entry : gmap string (gmap string string))
  : bool :=
  match entry !! "FileInfo" with
  | Some info => bool_decide (is_Some (info !! field))
  | None => false
  end.

(** The edge [e] leaves [parent_uuid] and is not skipped by the edge loop. *)
Definition kept_edge (tbl : gmap string string) (parent_uuid : string)
    (e : string * string * string) : bool :=
  let '(p, c, r) := e in
  String.eqb p parent_uuid && negb (skip_edge tbl p c (upper r)).

(** The entry that the edge [e] adds to its parent's record. *)
Definition entry_of_edge (e : string * string * string) : string * option string :=
  let '(_, c, r) := e in edge_entry c (upper r).

(** The string [s] holds no slash. *)
Fixpoint slash_free (s : string) : bool :=
  match s with
  | EmptyString => true
  | String c s' => negb (Ascii.eqb c "/") && slash_free s'
  end.

(** ** The writer against the cyclonedx library

    [edge_step] and [write_sbom] above follow the text of the source, with
    the call [parent_dep.add_scope_dependency(dep, scope=...)] read as its
    name and arguments say. The class [cyclonedx.model.dependency.Dependency]
    offers [ref] and [dependencies] and no method [add_scope_dependency]:
    when the edge loop reaches one of the two scoped branches, the attribute
    lookup raises, and the exception leaves [write_sbom] before anything is
    written. The definitions below are the run as it happens. *)

(** An exception that leaves [write_sbom]. *)
Inductive Raised :=
  | AttributeError (class_name attribute : string).

(** Body of the edge loop: a skipped edge and a CONTAINS edge do what
    [edge_step] does; every other edge reaches [add_scope_dependency]. *)
Definition edge_step_run (container_path_relationships : gmap string string)
    (cdx_rels : gmap string Dependency.t) (e : string * string * string)
  : Raised + gmap string Dependency.t :=
  let '(parent_uuid, child_uuid, rel_type) := e in
  let rel_type := upper rel_type in
  if skip_edge container_path_relationships parent_uuid child_uuid rel_type
  then inr cdx_rels
  else if String.eqb rel_type "CONTAINS"
  then inr (edge_step container_path_relationships cdx_rels e)
  else inl (AttributeError "Dependency" "add_scope_dependency").

(** The loop over the edges, left at the first exception. *)
Fixpoint edge_loop_run (container_path_relationships : gmap string string)
    (edges : list (string * string * string)) (cdx_rels : gmap string Dependency.t)
  : Raised + gmap string Dependency.t :=
  match edges with
  | [] => inr cdx_rels
  | e :: rest =>
      match edge_step_run container_path_relationships cdx_rels e with
      | inl raised => inl raised
      | inr cdx_rels => edge_loop_run container_path_relationships rest cdx_rels
      end
  end.

(** [write_sbom] as it runs: the exception or the document handed to the
    outputter, and the SBOM as the call leaves it in either case (the loop
    over the software entries is over when the edge loop starts). *)
Definition write_sbom_run (sbom : SBOM.t) : (Raised + Bom.t) * SBOM.t :=
  let surfactant_tool := mkTool "Surfactant" surfactant_version in
  let '(components, container_path_relationships, software) := build_components sbom in
  let state := SBOM.mk (SBOM.systems sbom) software (SBOM.graph sbom) in
  match edge_loop_run container_path_relationships (Graph.edges (SBOM.graph sbom)) ∅ with
  | inl raised => (inl raised, state)
  | inr cdx_rels =>
      (inr (Bom.mk [surfactant_tool] components (map snd (map_to_list cdx_rels))), state)
  end.

(** The label of the edge [e] reads CONTAINS. *)
Definition contains_label (e : string * string * string) : bool :=
  String.eqb (upper (snd e)) "CONTAINS".

(** [bom.components] is a set of the library: the components of the
    document are the components added, each once (components that agree in
    every field are one element); their order is the library's. *)
Definition document_components (bom : Bom.t) : list Component.t :=
  remove_dups (Bom.components bom).

(** The components of the document that were made from [software]. *)
Definition made_from (g : Graph.t) (software : Software.t) (bom : Bom.t)
  : list Component.t :=
  List.filter (fun c => bool_decide (c ∈ projected_components g software))
              (document_components bom).

(** The name of the container component made for the file name [fname]. *)
Definition container_name (software : Software.t) (fname : string) : option string :=
  if truthy (Software.name software) then Software.name software else Some fname.

(** The path below the parent container in a container path. *)
Definition path_below_parent (cpathstr : string) : string :=
  join "/" (tl (parts cpathstr)).

(** ** Auxiliary facts *)

(** *** Paths *)

Lemma path_root_truthy (s x : string) : In x (path_root s) -> x <> EmptyString.
Proof.
  unfold path_root.
  repeat (match goal with
          | |- context [match ?t with _ => _ end] => destruct t
          end; simpl; try tauto);
    intuition (subst; discriminate).
Qed.

Lemma parts_truthy (s x : string) : In x (parts s) -> x <> EmptyString.
Proof.
  unfold parts. rewrite in_app_iff. intros [H | H].
  - eapply path_root_truthy; eauto.
  - apply filter_In in H as [_ H]. unfold kept_component in H.
    apply andb_prop in H as [H _]. intros ->. discriminate.
Qed.

Lemma multi_segment_parent_truthy (cpathstr : string) :
  multi_segment cpathstr = true -> truthy (Some (hd EmptyString (parts cpathstr))) = true.
Proof.
  unfold multi_segment. intros H.
  pose proof (parts_truthy cpathstr) as Hp.
  destruct (parts cpathstr) as [|x xs]; [discriminate|].
  simpl. specialize (Hp x (or_introl eq_refl)).
  destruct x; [congruence | reflexivity].
Qed.

(** *** Loops that append *)

Lemma fold_left_append {A B : Type} (f : B -> A) (l : list B) (acc : list A) :
  fold_left (fun acc x => acc ++ [f x]) l acc = acc ++ map f l.
Proof.
  revert acc. induction l as [|x l IH]; intros acc; simpl.
  - by rewrite app_nil_r.
  - rewrite IH. by rewrite <- app_assoc.
Qed.

(** *** [create_cyclonedx_file] and the software entry *)

(** Unfold [create_cyclonedx_file] and split on its two tests. *)
Ltac unfold_create :=
  unfold normalized, file_component, create_cyclonedx_file,
    Software.set_description, Software.set_version;
  cbn in *;
  repeat (case_decide; cbn in *; subst; try congruence).

Lemma create_cyclonedx_file_snd (file_path : string) (software : Software.t) :
  snd (create_cyclonedx_file file_path software) = normalized software.
Proof. reflexivity. Qed.

Lemma normalized_only_emptied (software : Software.t) :
  only_emptied software (normalized software).
Proof.
  destruct software as [u n v ve d fn cp h1 h2 h5 md].
  unfold only_emptied. unfold_create; intuition auto.
Qed.

Lemma normalized_idem (software : Software.t) :
  normalized (normalized software) = normalized software.
Proof.
  destruct software as [u n v ve d fn cp h1 h2 h5 md].
  unfold_create; reflexivity.
Qed.

Lemma normalized_UUID (software : Software.t) :
  Software.UUID (normalized software) = Software.UUID software.
Proof. apply normalized_only_emptied. Qed.

Lemma normalized_unchanged (software : Software.t) :
  Software.version software <> Some EmptyString ->
  Software.description software <> Some EmptyString ->
  normalized software = software.
Proof.
  destruct software as [u n v ve d fn cp h1 h2 h5 md]; simpl.
  intros Hv Hd. unfold_create; reflexivity.
Qed.

Lemma file_component_normalized (software : Software.t) (file_path : string) :
  file_component (normalized software) file_path = file_component software file_path.
Proof.
  destruct software as [u n v ve d fn cp h1 h2 h5 md].
  unfold_create; reflexivity.
Qed.

Lemma path_record_normalized (software : Software.t) (cpathstr : string) :
  path_record (normalized software) cpathstr = path_record software cpathstr.
Proof.
  unfold path_record. by rewrite normalized_UUID, file_component_normalized.
Qed.

Lemma name_record_normalized (software : Software.t) (fname : string) :
  name_record (normalized software) fname = name_record software fname.
Proof.
  unfold name_record. by rewrite normalized_UUID, file_component_normalized.
Qed.

(** *** The converters as maps over the lists they walk *)

Lemma container_components_map (software : Software.t) :
  snd (convert_software_to_cyclonedx_container_components software)
  = map (container_component software) (Software.fileName software).
Proof.
  unfold convert_software_to_cyclonedx_container_components; simpl.
  by rewrite (fold_left_append (container_component software)).
Qed.

Lemma container_path_step_eq (files : list file_record) (software : Software.t) (p : string) :
  container_path_step (files, software) p
  = if multi_segment p
    then (files ++ [path_record software p], normalized software)
    else (files, software).
Proof.
  unfold container_path_step, multi_segment, path_record, file_component.
  destruct (1 <? length (parts p))%nat; [|reflexivity].
  rewrite (surjective_pairing (create_cyclonedx_file _ software)).
  by rewrite create_cyclonedx_file_snd, normalized_UUID.
Qed.

Lemma file_name_step_eq (files : list file_record) (software : Software.t) (fname : string) :
  file_name_step (files, software) fname
  = (files ++ [name_record software fname], normalized software).
Proof.
  unfold file_name_step, name_record, file_component.
  rewrite (surjective_pairing (create_cyclonedx_file _ software)).
  by rewrite create_cyclonedx_file_snd, normalized_UUID.
Qed.

Lemma container_path_loop (l : list string) (files : list file_record) (software : Software.t) :
  fold_left container_path_step l (files, software)
  = (files ++ map (path_record software) (List.filter multi_segment l),
     match List.filter multi_segment l with
     | [] => software
     | _ :: _ => normalized software
     end).
Proof.
  revert files software.
  induction l as [|p l IH]; intros files software; cbn [fold_left List.filter].
  - simpl. by rewrite app_nil_r.
  - rewrite container_path_step_eq.
    destruct (multi_segment p) eqn:Hp; [| apply IH].
    rewrite IH. simpl. rewrite <- app_assoc. simpl.
    rewrite normalized_idem.
    f_equal.
    + do 2 f_equal. apply map_ext. intros q. apply path_record_normalized.
    + by destruct (List.filter multi_segment l).
Qed.

Lemma file_name_loop (l : list string) (files : list file_record) (software : Software.t) :
  fold_left file_name_step l (files, software)
  = (files ++ map (name_record software) l,
     match l with
     | [] => software
     | _ :: _ => normalized software
     end).
Proof.
  revert files software.
  induction l as [|p l IH]; intros files software; cbn [fold_left].
  - simpl. by rewrite app_nil_r.
  - rewrite file_name_step_eq, IH. rewrite <- app_assoc. simpl.
    rewrite normalized_idem.
    f_equal.
    + do 2 f_equal. apply map_ext. intros q. apply name_record_normalized.
    + by destruct l.
Qed.

(** The records of [convert_software_to_cyclonedx_file_components]. *)
Lemma file_components_records (software : Software.t) :
  fst (convert_software_to_cyclonedx_file_components software)
  = match Software.containerPath software with
    | [] => map (name_record software) (Software.fileName software)
    | _ :: _ =>
        map (path_record software)
            (List.filter multi_segment (Software.containerPath software))
    end.
Proof.
  unfold convert_software_to_cyclonedx_file_components.
  destruct (Software.containerPath software) as [|p l] eqn:Hcp.
  - simpl. by rewrite file_name_loop.
  - by rewrite container_path_loop.
Qed.

(** The software entry after [convert_software_to_cyclonedx_file_components]:
    normalized as soon as one file component was created. *)
Lemma file_components_software (software : Software.t) :
  snd (convert_software_to_cyclonedx_file_components software)
  = match fst (convert_software_to_cyclonedx_file_components software) with
    | [] => software
    | _ :: _ => normalized software
    end.
Proof.
  rewrite file_components_records.
  unfold convert_software_to_cyclonedx_file_components.
  destruct (Software.containerPath software) as [|p l] eqn:Hcp.
  - simpl. rewrite file_name_loop. simpl.
    by destruct (Software.fileName software).
  - rewrite container_path_loop. cbn [snd app].
    by destruct (List.filter multi_segment (p :: l)).
Qed.

(** *** The software loop *)

Lemma file_component_bom_ref (software : Software.t) (file_path : string) :
  Component.bom_ref (file_component software file_path) = Software.UUID software.
Proof. destruct software. unfold_create; reflexivity. Qed.

Lemma file_record_step_name (software : Software.t) (fname : string)
    (components : list Component.t) (tbl : gmap string string) :
  file_record_step (components, tbl) (name_record software fname)
  = (components ++ [file_component software fname], tbl).
Proof. reflexivity. Qed.

Lemma file_record_step_path (software : Software.t) (cpathstr : string)
    (components : list Component.t) (tbl : gmap string string) :
  multi_segment cpathstr = true ->
  file_record_step (components, tbl) (path_record software cpathstr)
  = (components ++ [snd (path_record software cpathstr)],
     <[Software.UUID software := hd EmptyString (parts cpathstr)]> tbl).
Proof.
  intros H. unfold file_record_step, path_record.
  rewrite (multi_segment_parent_truthy _ H).
  by rewrite file_component_bom_ref.
Qed.

Lemma name_records_loop (software : Software.t) (l : list string)
    (components : list Component.t) (tbl : gmap string string) :
  fold_left file_record_step (map (name_record software) l) (components, tbl)
  = (components ++ map snd (map (name_record software) l), tbl).
Proof.
  revert components. induction l as [|x l IH]; intros components; cbn [map fold_left].
  - by rewrite app_nil_r.
  - rewrite file_record_step_name, IH. by rewrite <- app_assoc.
Qed.

Lemma path_records_loop (software : Software.t) (l : list string)
    (components : list Component.t) (tbl : gmap string string) :
  Forall (fun p => multi_segment p = true) l ->
  fold_left file_record_step (map (path_record software) l) (components, tbl)
  = (components ++ map snd (map (path_record software) l),
     match last (map (fun p => hd EmptyString (parts p)) l) with
     | Some q => <[Software.UUID software := q]> tbl
     | None => tbl
     end).
Proof.
  intros Hl. revert components tbl.
  induction Hl as [|x l Hx Hl IH]; intros components tbl; cbn [map fold_left].
  - by rewrite app_nil_r.
  - rewrite (file_record_step_path _ _ _ _ Hx), IH. rewrite <- app_assoc.
    f_equal. destruct l as [|y l]; [reflexivity|].
    rewrite last_cons. cbn [map].
    destruct (last (hd EmptyString (parts y) :: map _ l)) as [q|] eqn:Hq.
    + by rewrite insert_insert_eq.
    + by rewrite last_cons in Hq; destruct (last (map _ l)).
Qed.

Lemma filter_multi_segment_Forall (l : list string) :
  Forall (fun p => multi_segment p = true) (List.filter multi_segment l).
Proof. apply List.Forall_forall. intros p Hp. by apply filter_In in Hp as [_ Hp]. Qed.

Lemma software_step_eq (g : Graph.t) (components : list Component.t)
    (tbl : gmap string string) (visited : list Software.t) (software : Software.t) :
  software_step g (components, tbl, visited) software
  = (components ++ projected_components g software,
     table_after g tbl software,
     visited ++ software_after g software).
Proof.
  unfold projected_components, software_after, table_after, recorded_parent, software_step.
  destruct (get_children g (Software.UUID software) "Contains") as [|c cs].
  - rewrite (surjective_pairing (convert_software_to_cyclonedx_file_components software)).
    rewrite file_components_records, file_components_software, file_components_records.
    unfold last_path_parent.
    destruct (Software.containerPath software) as [|p l] eqn:Hcp.
    + rewrite !name_records_loop. simpl. reflexivity.
    + rewrite !path_records_loop by apply filter_multi_segment_Forall.
      reflexivity.
  - rewrite (surjective_pairing
               (convert_software_to_cyclonedx_container_components software)).
    rewrite !(fold_left_append (fun c => c)), !map_id. reflexivity.
Qed.

Lemma software_loop_eq (g : Graph.t) (l : list Software.t) (components : list Component.t)
    (tbl : gmap string string) (visited : list Software.t) :
  fold_left (software_step g) l (components, tbl, visited)
  = (components ++ flat_map (projected_components g) l,
     fold_left (table_after g) l tbl,
     visited ++ flat_map (software_after g) l).
Proof.
  revert components tbl visited.
  induction l as [|s l IH]; intros components tbl visited; cbn [fold_left flat_map].
  - by rewrite !app_nil_r.
  - rewrite software_step_eq, IH. by rewrite <- !app_assoc.
Qed.

Lemma build_components_eq (sbom : SBOM.t) :
  build_components sbom
  = (map (fun system => snd (convert_system_to_cyclonedx_component system))
         (SBOM.systems sbom)
     ++ flat_map (projected_components (SBOM.graph sbom)) (SBOM.software sbom),
     fold_left (table_after (SBOM.graph sbom)) (SBOM.software sbom) ∅,
     flat_map (software_after (SBOM.graph sbom)) (SBOM.software sbom)).
Proof.
  unfold build_components.
  rewrite (fold_left_append
             (fun system => snd (convert_system_to_cyclonedx_component system))).
  by rewrite software_loop_eq.
Qed.

(** *** The lookup table *)

Lemma table_loop_other (g : Graph.t) (l : list Software.t) (tbl : gmap string string)
    (k : string) :
  ~ In k (map Software.UUID l) ->
  fold_left (table_after g) l tbl !! k = tbl !! k.
Proof.
  revert tbl. induction l as [|s l IH]; intros tbl Hk; cbn [fold_left]; [done|].
  cbn [map] in Hk. rewrite IH by (intros H; apply Hk; by right).
  unfold table_after. destruct (recorded_parent g s); [|done].
  apply lookup_insert_ne. intros E. apply Hk. by left.
Qed.

Lemma table_loop_lookup (g : Graph.t) (l : list Software.t) (tbl : gmap string string)
    (s : Software.t) :
  List.NoDup (map Software.UUID l) -> In s l ->
  fold_left (table_after g) l tbl !! Software.UUID s
  = match recorded_parent g s with
    | Some q => Some q
    | None => tbl !! Software.UUID s
    end.
Proof.
  revert tbl. induction l as [|a l IH]; intros tbl Hnd Hs; [destruct Hs|].
  cbn [map] in Hnd. apply List.NoDup_cons_iff in Hnd as [Ha Hnd].
  cbn [fold_left]. destruct Hs as [-> | Hs].
  - rewrite table_loop_other by done. unfold table_after.
    destruct (recorded_parent g s); [apply lookup_insert_eq | done].
  - rewrite IH by done. destruct (recorded_parent g s); [done|].
    unfold table_after. destruct (recorded_parent g a); [|done].
    apply lookup_insert_ne. intros E. apply Ha. rewrite E. by apply in_map.
Qed.

Lemma container_path_table_lookup (sbom : SBOM.t) (s : Software.t) :
  List.NoDup (map Software.UUID (SBOM.software sbom)) ->
  In s (SBOM.software sbom) ->
  container_path_table sbom !! Software.UUID s = recorded_parent (SBOM.graph sbom) s.
Proof.
  intros Hnd Hs. unfold container_path_table. rewrite build_components_eq. cbn [fst snd].
  rewrite (table_loop_lookup _ _ _ _ Hnd Hs).
  by destruct (recorded_parent _ s).
Qed.

(** *** The edge loop *)

Lemma edge_step_children (tbl : gmap string string) (cdx_rels : gmap string Dependency.t)
    (e : string * string * string) (p : string) :
  children_of (edge_step tbl cdx_rels e) p = children_of cdx_rels p ++ emitted tbl p e.
Proof.
  destruct e as [[p' c] r]. unfold edge_step, emitted.
  destruct (skip_edge tbl p' c (upper r)).
  { rewrite andb_false_r. by rewrite app_nil_r. }
  rewrite andb_true_r. unfold children_of.
  destruct (String.eqb_spec p' p) as [-> | Hne].
  - destruct (cdx_rels !! p) as [d|] eqn:Hd.
    + rewrite Hd. by rewrite lookup_insert_eq.
    + rewrite lookup_insert_eq. by rewrite lookup_insert_eq.
  - destruct (cdx_rels !! p') as [d|] eqn:Hd.
    + rewrite Hd. by rewrite lookup_insert_ne, app_nil_r.
    + rewrite lookup_insert_eq. by rewrite !lookup_insert_ne, app_nil_r.
Qed.

Lemma edge_loop_children (tbl : gmap string string) (l : list (string * string * string))
    (cdx_rels : gmap string Dependency.t) (p : string) :
  children_of (fold_left (edge_step tbl) l cdx_rels) p
  = children_of cdx_rels p ++ flat_map (emitted tbl p) l.
Proof.
  revert cdx_rels. induction l as [|e l IH]; intros cdx_rels; cbn [fold_left flat_map].
  - by rewrite app_nil_r.
  - rewrite IH, edge_step_children. by rewrite <- app_assoc.
Qed.

Lemma edge_step_well_keyed (E : list (string * string * string)) (tbl : gmap string string)
    (cdx_rels : gmap string Dependency.t) (e : string * string * string) :
  In e E -> well_keyed E cdx_rels -> well_keyed E (edge_step tbl cdx_rels e).
Proof.
  destruct e as [[p c] r]. intros He Hwk k d. unfold edge_step.
  destruct (skip_edge tbl p c (upper r)); [apply Hwk|].
  destruct (cdx_rels !! p) as [d0|] eqn:Hd0.
  - rewrite Hd0. destruct (decide (p = k)) as [-> | Hne].
    + rewrite lookup_insert_eq. intros [= <-]. cbn.
      split; [by apply (Hwk k d0) | eauto].
    + rewrite lookup_insert_ne by done. apply Hwk.
  - rewrite lookup_insert_eq. destruct (decide (p = k)) as [-> | Hne].
    + rewrite lookup_insert_eq. intros [= <-]. cbn. eauto.
    + rewrite !lookup_insert_ne by done. apply Hwk.
Qed.

Lemma edge_loop_well_keyed (E : list (string * string * string)) (tbl : gmap string string)
    (l : list (string * string * string)) (cdx_rels : gmap string Dependency.t) :
  (forall e, In e l -> In e E) -> well_keyed E cdx_rels ->
  well_keyed E (fold_left (edge_step tbl) l cdx_rels).
Proof.
  revert cdx_rels. induction l as [|e l IH]; intros cdx_rels Hl Hwk; cbn [fold_left]; [done|].
  apply IH; [intros; apply Hl; by right|].
  apply edge_step_well_keyed; [apply Hl; by left | done].
Qed.

Lemma build_dependencies_well_keyed (tbl : gmap string string) (g : Graph.t) :
  well_keyed (Graph.edges g) (build_dependencies tbl g).
Proof.
  apply edge_loop_well_keyed; [done|]. intros k d Hk. by rewrite lookup_empty in Hk.
Qed.

(** *** From the dictionary to the document *)

Lemma map_fmap {A B : Type} (f : A -> B) (l : list A) : map f l = f <$> l.
Proof. induction l as [|x l IH]; [done|]. cbn. by rewrite IH. Qed.

Lemma keyed_entries (p : string) (l : list (string * Dependency.t)) :
  List.NoDup (map fst l) ->
  (forall k d, In (k, d) l -> Dependency.ref d = k) ->
  let entries :=
    flat_map (fun d => if String.eqb (Dependency.ref d) p
                       then Dependency.dependencies d else [])
             (map snd l) in
  (forall d, In (p, d) l -> entries = Dependency.dependencies d)
  /\ ((forall d, ~ In (p, d) l) -> entries = []).
Proof.
  induction l as [|[k d0] l IH]; intros Hnd Hk; cbn [map flat_map snd].
  - split; [intros d [] | done].
  - cbn [map fst] in Hnd. apply List.NoDup_cons_iff in Hnd as [Hfresh Hnd].
    assert (Hk' : forall k d, In (k, d) l -> Dependency.ref d = k)
      by (intros; apply Hk; by right).
    destruct (IH Hnd Hk') as [IH1 IH2]. clear IH.
    rewrite (Hk k d0) by (by left).
    split.
    + intros d [[= -> ->] | Hd].
      * rewrite String.eqb_refl, IH2; [by rewrite app_nil_r|].
        intros d' Hd'. apply Hfresh. by apply (in_map fst) in Hd'.
      * destruct (String.eqb_spec k p) as [-> | Hne].
        { exfalso. apply Hfresh. by apply (in_map fst) in Hd. }
        by apply IH1.
    + intros Hno. destruct (String.eqb_spec k p) as [-> | Hne].
      { exfalso. apply (Hno d0). by left. }
      apply IH2. intros d Hd. apply (Hno d). by right.
Qed.

Lemma dependency_entries_children (E : list (string * string * string))
    (tools : list Tool) (components : list Component.t)
    (cdx_rels : gmap string Dependency.t) (p : string) :
  well_keyed E cdx_rels ->
  dependency_entries (Bom.mk tools components (map snd (map_to_list cdx_rels))) p
  = children_of cdx_rels p.
Proof.
  intros Hwk. unfold dependency_entries, children_of. cbn [Bom.dependencies].
  destruct (keyed_entries p (map_to_list cdx_rels)) as [H1 H2].
  - rewrite map_fmap. apply NoDup_ListNoDup, NoDup_fst_map_to_list.
  - intros k d Hin. apply list_elem_of_In, elem_of_map_to_list in Hin. by apply Hwk.
  - destruct (cdx_rels !! p) as [d|] eqn:Hd.
    + apply H1. by apply list_elem_of_In, elem_of_map_to_list.
    + apply H2. intros d Hin. apply list_elem_of_In, elem_of_map_to_list in Hin. congruence.
Qed.

(** The document of [write_sbom], part by part. *)
Lemma write_sbom_components (sbom : SBOM.t) :
  Bom.components (fst (write_sbom sbom))
  = map (fun system => snd (convert_system_to_cyclonedx_component system))
        (SBOM.systems sbom)
    ++ flat_map (projected_components (SBOM.graph sbom)) (SBOM.software sbom).
Proof. unfold write_sbom. by rewrite build_components_eq. Qed.

Lemma write_sbom_dependencies (sbom : SBOM.t) :
  Bom.dependencies (fst (write_sbom sbom))
  = map snd (map_to_list (build_dependencies (container_path_table sbom) (SBOM.graph sbom))).
Proof.
  unfold write_sbom, container_path_table.
  by destruct (build_components sbom) as [[components tbl] software].
Qed.

Lemma write_sbom_entries (sbom : SBOM.t) (p : string) :
  dependency_entries (fst (write_sbom sbom)) p
  = flat_map (emitted (container_path_table sbom) p) (Graph.edges (SBOM.graph sbom)).
Proof.
  unfold write_sbom, container_path_table.
  destruct (build_components sbom) as [[components tbl] software]. cbn [fst snd].
  rewrite (dependency_entries_children (Graph.edges (SBOM.graph sbom)))
    by apply build_dependencies_well_keyed.
  unfold build_dependencies. rewrite edge_loop_children.
  unfold children_of. by rewrite lookup_empty.
Qed.

Lemma write_sbom_state (sbom : SBOM.t) :
  snd (write_sbom sbom)
  = SBOM.mk (SBOM.systems sbom)
            (flat_map (software_after (SBOM.graph sbom)) (SBOM.software sbom))
            (SBOM.graph sbom).
Proof. unfold write_sbom. by rewrite build_components_eq. Qed.

(** *** What one edge contributes *)

Lemma skip_edge_not_contains (tbl : gmap string string) (p c R : string) :
  R <> "CONTAINS" -> skip_edge tbl p c R = false.
Proof.
  intros H. unfold skip_edge. apply String.eqb_neq in H. by rewrite H.
Qed.

Lemma edge_entry_child (c R : string) : fst (edge_entry c R) = c.
Proof.
  unfold edge_entry. destruct (String.eqb R "CONTAINS"); [done|].
  by destruct (existsb _ _).
Qed.

Lemma in_emitted (tbl : gmap string string) (p : string) (e : string * string * string)
    (x : string * option string) :
  In x (emitted tbl p e) <->
  exists c r, e = (p, c, r) /\ skip_edge tbl p c (upper r) = false
              /\ x = edge_entry c (upper r).
Proof.
  destruct e as [[p' c] r]. unfold emitted. split.
  - destruct (String.eqb_spec p' p) as [-> | Hne]; [|intros []].
    destruct (skip_edge tbl p c (upper r)) eqn:Hs; [intros []|].
    intros [<- | []]. by exists c, r.
  - intros (c' & r' & [= -> -> ->] & Hs & ->).
    rewrite String.eqb_refl, Hs. by left.
Qed.

Lemma in_write_sbom_entries (sbom : SBOM.t) (p : string) (x : string * option string) :
  In x (dependency_entries (fst (write_sbom sbom)) p) <->
  exists c r, In (p, c, r) (Graph.edges (SBOM.graph sbom))
              /\ skip_edge (container_path_table sbom) p c (upper r) = false
              /\ x = edge_entry c (upper r).
Proof.
  rewrite write_sbom_entries, in_flat_map. split.
  - intros (e & He & Hx). apply in_emitted in Hx as (c & r & -> & Hs & ->). eauto.
  - intros (c & r & He & Hs & ->). exists (p, c, r). split; [done|].
    apply in_emitted. eauto.
Qed.

Lemma edge_entry_runtime (c R : string) :
  In R runtime_labels -> edge_entry c R = (c, Some "runtime").
Proof.
  unfold runtime_labels. cbn [In]. intros [<- | [<- | [<- | []]]]; reflexivity.
Qed.

Lemma edge_entry_unknown (c R : string) :
  ~ In R ("CONTAINS" :: runtime_labels) -> edge_entry c R = (c, Some "unknown").
Proof.
  unfold edge_entry, runtime_labels. cbn [In existsb]. intros H.
  destruct (String.eqb_spec R "CONTAINS") as [-> | _]; [tauto|].
  destruct (String.eqb_spec R "USES") as [-> | _]; [tauto|].
  destruct (String.eqb_spec R "DEPENDS_ON") as [-> | _]; [tauto|].
  destruct (String.eqb_spec R "REQUIRES") as [-> | _]; [tauto|].
  reflexivity.
Qed.

Lemma edge_entry_runtime_inv (c c' R : string) :
  edge_entry c R = (c', Some "runtime") -> c = c' /\ In R runtime_labels.
Proof.
  unfold edge_entry. destruct (String.eqb R "CONTAINS"); [discriminate|].
  destruct (existsb (String.eqb R) runtime_labels) eqn:Hex; [|discriminate].
  intros [= ->]. split; [done|].
  apply existsb_exists in Hex as (l & Hl & Heq).
  apply String.eqb_eq in Heq. by subst.
Qed.

(** ** Properties of the projection *)

(** *** One software entry *)

Lemma projected_components_eq (g : Graph.t) (s : Software.t) :
  projected_components g s
  = match get_children g (Software.UUID s) "Contains" with
    | _ :: _ => map (container_component s) (Software.fileName s)
    | [] =>
        match Software.containerPath s with
        | [] => map (file_component s) (Software.fileName s)
        | _ :: _ =>
            map (fun cpathstr => file_component s (join "/" (tl (parts cpathstr))))
                (List.filter multi_segment (Software.containerPath s))
        end
    end.
Proof.
  unfold projected_components, software_step.
  destruct (get_children g (Software.UUID s) "Contains") as [|c cs].
  - rewrite (surjective_pairing (convert_software_to_cyclonedx_file_components s)).
    rewrite file_components_records.
    destruct (Software.containerPath s) as [|p l] eqn:Hcp.
    + rewrite name_records_loop. cbn [fst app]. by rewrite map_map.
    + rewrite path_records_loop by apply filter_multi_segment_Forall.
      cbn [fst app]. by rewrite map_map.
  - rewrite (surjective_pairing (convert_software_to_cyclonedx_container_components s)).
    rewrite (fold_left_append (fun c => c)), map_id. cbn [fst app].
    apply container_components_map.
Qed.

Lemma software_after_eq (g : Graph.t) (s : Software.t) :
  software_after g s
  = [match get_children g (Software.UUID s) "Contains" with
     | _ :: _ => s
     | [] => match projected_components g s with
             | [] => s
             | _ :: _ => normalized s
             end
     end].
Proof.
  rewrite projected_components_eq.
  unfold software_after, software_step.
  destruct (get_children g (Software.UUID s) "Contains") as [|c cs].
  - rewrite (surjective_pairing (convert_software_to_cyclonedx_file_components s)).
    rewrite file_components_software, file_components_records.
    destruct (fold_left file_record_step _ _) as [components tbl]. cbn [snd app].
    f_equal.
    destruct (Software.containerPath s) as [|p l].
    + by destruct (Software.fileName s).
    + by destruct (List.filter multi_segment (p :: l)).
  - by rewrite (surjective_pairing (convert_software_to_cyclonedx_container_components s)).
Qed.

Lemma only_emptied_refl (s : Software.t) : only_emptied s s.
Proof. unfold only_emptied. intuition auto. Qed.

Lemma normalized_version_description (s : Software.t) :
  Software.version (normalized s)
  = (if decide (Software.version s = Some EmptyString) then None else Software.version s)
  /\ Software.description (normalized s)
     = (if decide (Software.description s = Some EmptyString)
        then None else Software.description s).
Proof. destruct s. unfold_create; done. Qed.

Lemma software_after_frame (g : Graph.t) (l : list Software.t) :
  Forall2 (frame_of g) l (flat_map (software_after g) l).
Proof.
  induction l as [|s l IH]; cbn [flat_map]; [constructor|].
  rewrite software_after_eq. cbn [app]. constructor; [|exact IH].
  unfold frame_of.
  destruct (get_children g (Software.UUID s) "Contains") as [|c cs].
  - destruct (projected_components g s) as [|x xs].
    + split; [apply only_emptied_refl | done].
    + split; [apply normalized_only_emptied|].
      split; [done|]. split; [done|].
      split; [intros; by apply normalized_unchanged|].
      intros _ _. apply normalized_version_description.
  - split; [apply only_emptied_refl | done].
Qed.

(** C4. A Software node with at least one child under Contains is projected
    as container-type components only, and a node without such children as
    file-type components only; these components are the ones the document
    holds for the node. *)
Theorem container_file_partition (sbom : SBOM.t) (s : Software.t) :
  In s (SBOM.software sbom) ->
  let comps := projected_components (SBOM.graph sbom) s in
  (get_children (SBOM.graph sbom) (Software.UUID s) "Contains" <> [] ->
   Forall (fun c => Component.type c = CONTAINER) comps)
  /\ (get_children (SBOM.graph sbom) (Software.UUID s) "Contains" = [] ->
      Forall (fun c => Component.type c = FILE) comps)
  /\ (forall c, In c comps -> In c (Bom.components (fst (write_sbom sbom)))).
Proof.
  intros Hs comps. subst comps. split; [|split].
  - intros Hc. rewrite projected_components_eq.
    destruct (get_children _ _ _); [done|].
    apply List.Forall_forall. intros c Hin. apply in_map_iff in Hin as (f & <- & _).
    reflexivity.
  - intros Hc. rewrite projected_components_eq, Hc.
    destruct (Software.containerPath s);
      apply List.Forall_forall; intros c Hin; apply in_map_iff in Hin as (f & <- & _);
      reflexivity.
  - intros c Hc. rewrite write_sbom_components. apply in_or_app. right.
    apply in_flat_map. eauto.
Qed.

(** C9. A Software node without Contains-children whose [containerPath] is
    not empty and holds only paths of exactly one part yields no component
    at all: every such path is skipped, and the file names are not used
    because [containerPath] is not empty. The node is left untouched. *)
Theorem single_segment_paths_yield_nothing (g : Graph.t) (s : Software.t) :
  get_children g (Software.UUID s) "Contains" = [] ->
  Software.containerPath s <> [] ->
  Forall (fun cpathstr => length (parts cpathstr) = 1) (Software.containerPath s) ->
  projected_components g s = [] /\ software_after g s = [s].
Proof.
  intros Hc Hne Hone.
  assert (Hnone : List.filter multi_segment (Software.containerPath s) = []).
  { clear Hne. induction Hone as [|p l Hp _ IH]; [done|]. cbn [List.filter].
    unfold multi_segment at 1. rewrite Hp. exact IH. }
  assert (Hp : projected_components g s = []).
  { rewrite projected_components_eq, Hc.
    destruct (Software.containerPath s); [done|]. by rewrite Hnone. }
  split; [done|]. by rewrite software_after_eq, Hc, Hp.
Qed.

(** The calls of [Component(...)] for one node: one per entry of [fileName]
    for a Contains-parent; for a node without Contains-children one per
    entry of [containerPath] that has more than one part, named by the path
    below the first part, or, when [containerPath] is empty, one per entry
    of [fileName], named by it. *)
Lemma components_per_entry (g : Graph.t) (s : Software.t) :
  let comps := projected_components g s in
  (get_children g (Software.UUID s) "Contains" <> [] ->
   length comps = length (Software.fileName s)
   /\ map Component.name comps
      = map (fun fname => if truthy (Software.name s) then Software.name s else Some fname)
            (Software.fileName s)
   /\ Forall (fun c => Component.type c = CONTAINER) comps)
  /\ (get_children g (Software.UUID s) "Contains" = [] ->
      Software.containerPath s = [] ->
      length comps = length (Software.fileName s)
      /\ map Component.name comps = map Some (Software.fileName s)
      /\ Forall (fun c => Component.type c = FILE) comps)
  /\ (get_children g (Software.UUID s) "Contains" = [] ->
      Software.containerPath s <> [] ->
      length comps = length (List.filter multi_segment (Software.containerPath s))
      /\ map Component.name comps
         = map (fun cpathstr => Some (join "/" (tl (parts cpathstr))))
               (List.filter multi_segment (Software.containerPath s))
      /\ Forall (fun c => Component.type c = FILE) comps).
Proof.
  cbn zeta. rewrite projected_components_eq. split; [|split].
  - intros Hc. destruct (get_children _ _ _); [done|].
    split; [by rewrite length_map|]. split.
    + rewrite map_map. apply map_ext. intros fname. cbn.
      by destruct (truthy (Software.name s)).
    + apply List.Forall_forall. intros c Hin.
      by apply in_map_iff in Hin as (f & <- & _).
  - intros -> ->. split; [by rewrite length_map|]. split.
    + rewrite map_map. apply map_ext. intros fname. by destruct s.
    + apply List.Forall_forall. intros c Hin.
      by apply in_map_iff in Hin as (f & <- & _).
  - intros -> Hne. destruct (Software.containerPath s) as [|p l]; [done|].
    split; [by rewrite length_map|]. split.
    + rewrite map_map. apply map_ext. intros q. by destruct s.
    + apply List.Forall_forall. intros c Hin.
      by apply in_map_iff in Hin as (f & <- & _).
Qed.

(** *** Hashes and references of the components *)

Lemma projected_component_fields (g : Graph.t) (s : Software.t) (c : Component.t) :
  In c (projected_components g s) ->
  Component.bom_ref c = Software.UUID s
  /\ Component.hashes c = software_hashes s
  /\ Component.supplier c = first_vendor (Software.vendor s).
Proof.
  rewrite projected_components_eq.
  destruct (get_children _ _ _).
  - destruct (Software.containerPath s);
      intros Hin; apply in_map_iff in Hin as (f & <- & _);
      destruct s; unfold_create; done.
  - intros Hin. by apply in_map_iff in Hin as (f & <- & _).
Qed.

Lemma software_hashes_spec (s : Software.t) :
  (truthy (Software.sha1 s) = false -> truthy (Software.sha256 s) = false ->
   truthy (Software.md5 s) = false -> software_hashes s = None)
  /\ (truthy (Software.sha1 s) || truthy (Software.sha256 s) || truthy (Software.md5 s) = true ->
      exists l, software_hashes s = Some l
        /\ (forall a, count_alg a l = if truthy (hash_field a s) then 1 else 0)
        /\ (forall e, In e l -> hash_field (alg e) s = Some (content e))).
Proof.
  destruct s as [u n v ve d fn cp h1 h2 h5 md].
  unfold software_hashes, hash_entry; cbn.
  destruct h1 as [[|a1 s1]|], h2 as [[|a2 s2]|], h5 as [[|a5 s5]|]; cbn;
    (split; [try discriminate; done|]); try discriminate; intros _;
    (eexists; split; [reflexivity|]; split;
     [intros []; reflexivity
     | cbn; intros e He; intuition (subst; reflexivity)]).
Qed.

(** C7. Every component made from a Software node that has none of SHA-1,
    SHA-256 and MD5 set carries no hash list ([None], not an empty list);
    when some are set, the hash list holds exactly one entry for each hash
    that is set and none for the others, each entry with the node's value. *)
Theorem hash_list_of_component (g : Graph.t) (s : Software.t) (c : Component.t) :
  In c (projected_components g s) ->
  (truthy (Software.sha1 s) = false -> truthy (Software.sha256 s) = false ->
   truthy (Software.md5 s) = false -> Component.hashes c = None)
  /\ (truthy (Software.sha1 s) || truthy (Software.sha256 s) || truthy (Software.md5 s) = true ->
      exists l, Component.hashes c = Some l
        /\ (forall a, count_alg a l = if truthy (hash_field a s) then 1 else 0)
        /\ (forall e, In e l -> hash_field (alg e) s = Some (content e))).
Proof.
  intros Hc. apply projected_component_fields in Hc as (_ & -> & _).
  apply software_hashes_spec.
Qed.

(** C8. Every component of the document comes from a System or a Software
    entity of the input and its [bom_ref] is that entity's UUID; every
    dependency record is filed under the parent of an edge of the graph, and
    each of its children is the child of an edge from that parent. *)
Theorem identifier_integrity (sbom : SBOM.t) :
  let out := fst (write_sbom sbom) in
  (forall c, In c (Bom.components out) ->
     (exists system, In system (SBOM.systems sbom)
        /\ c = snd (convert_system_to_cyclonedx_component system)
        /\ Component.bom_ref c = System.UUID system)
     \/ (exists s, In s (SBOM.software sbom)
           /\ In c (projected_components (SBOM.graph sbom) s)
           /\ Component.bom_ref c = Software.UUID s))
  /\ (forall d, In d (Bom.dependencies out) ->
        edge_endpoint (SBOM.graph sbom) (Dependency.ref d)
        /\ forall c sc, In (c, sc) (Dependency.dependencies d) ->
             edge_endpoint (SBOM.graph sbom) c
             /\ exists r, In (Dependency.ref d, c, r) (Graph.edges (SBOM.graph sbom))).
Proof.
  cbn zeta. split.
  - intros c. rewrite write_sbom_components, in_app_iff, in_map_iff, in_flat_map.
    intros [(system & <- & Hsys) | (s & Hs & Hc)].
    + left. by exists system.
    + right. exists s. split; [done|]. split; [done|].
      by apply projected_component_fields in Hc as (-> & _).
  - intros d. rewrite write_sbom_dependencies, in_map_iff.
    intros ([k d'] & <- & Hin). cbn [snd].
    apply list_elem_of_In, elem_of_map_to_list in Hin.
    pose proof (build_dependencies_well_keyed (container_path_table sbom)
                  (SBOM.graph sbom) k d' Hin) as [Href (c0 & r0 & He0)].
    rewrite Href. split; [exists k, c0, r0; tauto|].
    intros c sc Hc.
    assert (Hch : In (c, sc)
                     (children_of (build_dependencies (container_path_table sbom)
                                                      (SBOM.graph sbom)) k)).
    { unfold children_of. by rewrite Hin. }
    unfold build_dependencies in Hch. rewrite edge_loop_children in Hch.
    unfold children_of at 1 in Hch. rewrite lookup_empty in Hch. cbn [app] in Hch.
    apply in_flat_map in Hch as (e & He & Hx).
    apply in_emitted in Hx as (c1 & r1 & -> & _ & Hx).
    assert (c1 = c) as ->.
    { pose proof (edge_entry_child c1 (upper r1)) as Hf. rewrite <- Hx in Hf. done. }
    split; [exists k, c, r1; tauto | eauto].
Qed.

(** *** Suppression of Contains edges *)

Lemma skip_edge_contains (tbl : gmap string string) (p c : string) :
  skip_edge tbl p c "CONTAINS" = true <-> exists q, tbl !! c = Some q /\ q <> p.
Proof.
  unfold skip_edge. cbn [String.eqb Ascii.eqb Bool.eqb andb].
  change (String.eqb "CONTAINS" "CONTAINS") with true. cbn [andb].
  destruct (tbl !! c) as [q|].
  - destruct (String.eqb_spec p q) as [-> | Hne]; cbn.
    + split; [discriminate|]. intros (q' & [= <-] & Hq). done.
    + split; [|done]. intros _. exists q. split; [done|]. congruence.
  - split; [discriminate|]. intros (q & Hq & _). discriminate.
Qed.

Lemma edge_step_skipped (tbl : gmap string string) (cdx_rels : gmap string Dependency.t)
    (p c r : string) :
  skip_edge tbl p c (upper r) = true -> edge_step tbl cdx_rels (p, c, r) = cdx_rels.
Proof. intros H. unfold edge_step. by rewrite H. Qed.

(** The entries [(c, None)] under [p] are as many as the Contains edges from
    [p] to [c], when the table does not name another parent for [c]. *)
Lemma unsuppressed_contains_count (tbl : gmap string string) (p c : string)
    (l : list (string * string * string)) :
  skip_edge tbl p c "CONTAINS" = false ->
  length (List.filter (fun x => bool_decide (x = (c, None : option string)))
                      (flat_map (emitted tbl p) l))
  = length (List.filter (is_contains_edge p c) l).
Proof.
  intros Hs. induction l as [|[[p' c'] r'] l IH]; [done|].
  cbn [flat_map List.filter]. rewrite List.filter_app, length_app, IH. clear IH.
  unfold emitted, is_contains_edge.
  destruct (String.eqb_spec p' p) as [-> | Hp]; cbn [andb]; [|done].
  destruct (String.eqb_spec c' c) as [-> | Hc]; cbn [andb].
  - destruct (String.eqb_spec (upper r') "CONTAINS") as [-> | Hr].
    + rewrite Hs. cbn [negb List.filter edge_entry].
      change (edge_entry c "CONTAINS") with (c, None : option string).
      by rewrite bool_decide_eq_true_2.
    + rewrite skip_edge_not_contains by done. cbn [negb List.filter].
      unfold edge_entry. apply String.eqb_neq in Hr. rewrite Hr.
      by destruct (existsb _ _); rewrite bool_decide_eq_false_2.
  - destruct (skip_edge tbl p c' (upper r')); cbn [negb List.filter]; [done|].
    rewrite bool_decide_eq_false_2; [done|].
    intros E. apply Hc. by rewrite <- (edge_entry_child c' (upper r')), E.
Qed.

(** C3. For a Contains-labelled edge (parent, child): the loop skips the
    edge exactly when the lookup table built during the projection of the
    file components holds, for the child, a parent other than this edge's
    parent; a skipped edge leaves the dependency records as they are, and
    an edge that is not skipped appends an unscoped entry for the child to
    the parent's record. Consequently, for a Software node whose
    [containerPath] is ["parentA/sub/file.txt"] (identifiers being unique),
    a graph with exactly one Contains edge from [parentA] to the node gives
    exactly one unscoped entry for it under [parentA]. *)
Theorem contains_edge_suppression (sbom : SBOM.t) (p c r : string) :
  upper r = "CONTAINS" ->
  let tbl := container_path_table sbom in
  let out := fst (write_sbom sbom) in
  (skip_edge tbl p c (upper r) = true <-> exists q, tbl !! c = Some q /\ q <> p)
  /\ (skip_edge tbl p c (upper r) = true ->
      forall cdx_rels, edge_step tbl cdx_rels (p, c, r) = cdx_rels)
  /\ (skip_edge tbl p c (upper r) = false ->
      forall cdx_rels,
        children_of (edge_step tbl cdx_rels (p, c, r)) p
        = children_of cdx_rels p ++ [(c, None)])
  /\ (forall s,
        In s (SBOM.software sbom) ->
        List.NoDup (map Software.UUID (SBOM.software sbom)) ->
        Software.containerPath s = ["parentA/sub/file.txt"] ->
        length (List.filter (is_contains_edge "parentA" (Software.UUID s))
                            (Graph.edges (SBOM.graph sbom))) = 1 ->
        length (List.filter
                  (fun x => bool_decide (x = (Software.UUID s, None : option string)))
                  (dependency_entries out "parentA")) = 1).
Proof.
  intros Hr tbl out. rewrite Hr. split; [apply skip_edge_contains|]. split.
  { intros Hs cdx_rels. apply edge_step_skipped. by rewrite Hr. }
  split.
  { intros Hs cdx_rels. rewrite edge_step_children. unfold emitted.
    by rewrite Hr, Hs, String.eqb_refl. }
  intros s Hin Hnd Hcp Hone. subst out. rewrite write_sbom_entries.
  rewrite unsuppressed_contains_count; [done|].
  apply not_true_is_false. intros Hs.
  apply skip_edge_contains in Hs as (q & Hq & Hne).
  rewrite (container_path_table_lookup _ _ Hnd Hin) in Hq.
  unfold recorded_parent in Hq.
  destruct (get_children _ _ _); [|discriminate].
  unfold last_path_parent in Hq. rewrite Hcp in Hq. cbn in Hq. congruence.
Qed.

(** C10 (as amended). The lookup table is keyed by the software's UUID
    alone (identifiers being unique). For a Software node without
    Contains-children that has multi-segment container paths, the table
    holds a single parent for it, the one named by the last such path; every
    Contains edge to the node from another parent, the parents named by its
    other paths among them, is skipped and leaves no unscoped entry for the
    node under that parent. For a Software node with Contains-children no
    parent is recorded, whatever its container paths, and no edge to it is
    skipped: every Contains edge to it leaves its unscoped entry. *)
Theorem last_container_path_wins (sbom : SBOM.t) (s : Software.t) (q : string) :
  In s (SBOM.software sbom) ->
  List.NoDup (map Software.UUID (SBOM.software sbom)) ->
  let tbl := container_path_table sbom in
  let out := fst (write_sbom sbom) in
  (get_children (SBOM.graph sbom) (Software.UUID s) "Contains" = [] ->
   last_path_parent s = Some q ->
   tbl !! Software.UUID s = Some q
   /\ (forall p r, p <> q -> upper r = "CONTAINS" ->
         skip_edge tbl p (Software.UUID s) (upper r) = true)
   /\ (forall p, p <> q -> ~ In (Software.UUID s, None) (dependency_entries out p))
   /\ (forall cpathstr,
         In cpathstr (Software.containerPath s) -> multi_segment cpathstr = true ->
         hd EmptyString (parts cpathstr) <> q ->
         ~ In (Software.UUID s, None)
              (dependency_entries out (hd EmptyString (parts cpathstr)))))
  /\ (get_children (SBOM.graph sbom) (Software.UUID s) "Contains" <> [] ->
      tbl !! Software.UUID s = None
      /\ (forall p r, skip_edge tbl p (Software.UUID s) (upper r) = false)
      /\ (forall p r,
            In (p, Software.UUID s, r) (Graph.edges (SBOM.graph sbom)) ->
            upper r = "CONTAINS" ->
            In (Software.UUID s, None) (dependency_entries out p))).
Proof.
  intros Hin Hnd tbl out. split.
  - intros Hc Hq.
    assert (Htbl : tbl !! Software.UUID s = Some q).
    { subst tbl. rewrite (container_path_table_lookup _ _ Hnd Hin).
      unfold recorded_parent. by rewrite Hc. }
    assert (Hskip : forall p r, p <> q -> upper r = "CONTAINS" ->
                      skip_edge tbl p (Software.UUID s) (upper r) = true).
    { intros p r Hp ->. apply skip_edge_contains. exists q. split; [done|]. congruence. }
    assert (Hno : forall p, p <> q ->
                    ~ In (Software.UUID s, None) (dependency_entries out p)).
    { intros p Hp Hx. apply in_write_sbom_entries in Hx as (c & r & He & Hs & Hx).
      assert (c = Software.UUID s) as ->.
      { pose proof (edge_entry_child c (upper r)) as Hf. rewrite <- Hx in Hf. done. }
      assert (upper r = "CONTAINS") as Hr.
      { unfold edge_entry in Hx.
        destruct (String.eqb_spec (upper r) "CONTAINS"); [done|].
        by destruct (existsb _ _). }
      fold tbl in Hs. rewrite (Hskip p r Hp Hr) in Hs. discriminate. }
    split; [done|]. split; [done|]. split; [done|].
    intros cpathstr _ _ Hp. by apply Hno.
  - intros Hc.
    assert (Htbl : tbl !! Software.UUID s = None).
    { subst tbl. rewrite (container_path_table_lookup _ _ Hnd Hin).
      unfold recorded_parent. by destruct (get_children _ _ _). }
    assert (Hskip : forall p r, skip_edge tbl p (Software.UUID s) (upper r) = false).
    { intros p r. unfold skip_edge. rewrite Htbl. apply andb_false_r. }
    split; [done|]. split; [done|].
    intros p r He Hr. apply in_write_sbom_entries.
    exists (Software.UUID s), r. split; [done|]. split; [apply Hskip|].
    by rewrite Hr.
Qed.

(** Container components take [version] and [description] as they are;
    file components never carry an empty string there. *)
Lemma version_description_of_component (g : Graph.t) (s : Software.t) (c : Component.t) :
  In c (projected_components g s) ->
  (get_children g (Software.UUID s) "Contains" <> [] ->
   Component.version c = Software.version s
   /\ Component.description c = Software.description s)
  /\ (get_children g (Software.UUID s) "Contains" = [] ->
      Component.version c <> Some EmptyString /\ Component.description c <> Some EmptyString).
Proof.
  rewrite projected_components_eq.
  destruct (get_children _ _ _) as [|x xs].
  - intros Hin. split; [done|]. intros _.
    destruct (Software.containerPath s);
      apply in_map_iff in Hin as (f & <- & _);
      destruct s; unfold_create; done.
  - intros Hin. apply in_map_iff in Hin as (f & <- & _). by split.
Qed.

(** ** Further properties of the writer *)

(** *** Metadata lookup and copyright *)

Lemma fileinfo_lookup_none (field : string) (entries : list (gmap string (gmap string string))) :
  fileinfo_lookup field entries = None
  <-> Forall (fun e => has_fileinfo_field field e = false) entries.
Proof.
  induction entries as [|e l IH]; cbn [fileinfo_lookup].
  - split; [constructor | done].
  - rewrite List.Forall_cons_iff, <- IH. unfold has_fileinfo_field.
    destruct (e !! "FileInfo") as [info|]; [|tauto].
    destruct (info !! field) as [v|] eqn:Hv.
    + split; [discriminate|]. intros [H _].
      apply bool_decide_eq_false in H. exfalso. apply H. by exists v.
    + split; [|tauto]. intros H. split; [|done].
      apply bool_decide_eq_false. by intros [v Hv'].
Qed.

Lemma fileinfo_lookup_first (field : string)
    (pre post : list (gmap string (gmap string string)))
    (e : gmap string (gmap string string)) (info : gmap string string) (v : string) :
  Forall (fun x => has_fileinfo_field field x = false) pre ->
  e !! "FileInfo" = Some info -> info !! field = Some v ->
  fileinfo_lookup field (pre ++ e :: post) = Some v.
Proof.
  intros Hpre He Hv. induction Hpre as [|x pre Hx _ IH]; cbn [app fileinfo_lookup].
  - by rewrite He, Hv.
  - unfold has_fileinfo_field in Hx.
    destruct (x !! "FileInfo") as [xi|]; [|exact IH].
    destruct (xi !! field) as [w|]; [|exact IH].
    apply bool_decide_eq_false in Hx. exfalso. apply Hx. by exists w.
Qed.

(** X1. [get_fileinfo_metadata] returns [None] exactly when no metadata
    record has a ["FileInfo"] mapping that holds the field (an empty
    metadata list included); otherwise it returns the value of the first
    record that has one, whatever the later records hold. *)
Theorem get_fileinfo_metadata_first_match (software : Software.t) (field : string) :
  (get_fileinfo_metadata software field = None
   <-> Forall (fun e => has_fileinfo_field field e = false) (Software.metadata software))
  /\ (forall pre e post info v,
        Software.metadata software = pre ++ e :: post ->
        Forall (fun x => has_fileinfo_field field x = false) pre ->
        e !! "FileInfo" = Some info -> info !! field = Some v ->
        get_fileinfo_metadata software field = Some v).
Proof.
  unfold get_fileinfo_metadata. split; [apply fileinfo_lookup_none|].
  intros pre e post info v -> Hpre He Hv. by apply (fileinfo_lookup_first _ _ _ _ info).
Qed.

Lemma file_component_copyright (software : Software.t) (file_path : string) :
  Component.copyright (file_component software file_path)
  = if truthy (get_fileinfo_metadata software "LegalCopyright")
    then get_fileinfo_metadata software "LegalCopyright" else None.
Proof. destruct software. unfold_create; reflexivity. Qed.

(** X2. Copyright of the components of a Software node. A container
    component never carries one. A file component carries the
    ["LegalCopyright"] value of the first metadata record that has one under
    ["FileInfo"], unless that value is the empty string: then, and when no
    record has such a value, the component has no copyright, even if a
    later record holds a non-empty one. *)
Theorem component_copyright (g : Graph.t) (s : Software.t) (c : Component.t) :
  In c (projected_components g s) ->
  (get_children g (Software.UUID s) "Contains" <> [] -> Component.copyright c = None)
  /\ (get_children g (Software.UUID s) "Contains" = [] ->
      (Forall (fun e => has_fileinfo_field "LegalCopyright" e = false) (Software.metadata s) ->
       Component.copyright c = None)
      /\ (forall pre e post info v,
            Software.metadata s = pre ++ e :: post ->
            Forall (fun x => has_fileinfo_field "LegalCopyright" x = false) pre ->
            e !! "FileInfo" = Some info -> info !! "LegalCopyright" = Some v ->
            Component.copyright c = if String.eqb v EmptyString then None else Some v)
      /\ Component.copyright c <> Some EmptyString).
Proof.
  rewrite projected_components_eq. intros Hin. split.
  - intros Hc. destruct (get_children _ _ _); [done|].
    by apply in_map_iff in Hin as (f & <- & _).
  - intros Hc. rewrite Hc in Hin.
    assert (Hcr : Component.copyright c
                  = if truthy (get_fileinfo_metadata s "LegalCopyright")
                    then get_fileinfo_metadata s "LegalCopyright" else None).
    { destruct (Software.containerPath s);
        apply in_map_iff in Hin as (f & <- & _); apply file_component_copyright. }
    rewrite Hcr. split; [|split].
    + intros Hnone. apply fileinfo_lookup_none in Hnone.
      unfold get_fileinfo_metadata. by rewrite Hnone.
    + intros pre e post info v Hmd Hpre He Hv.
      unfold get_fileinfo_metadata. rewrite Hmd.
      rewrite (fileinfo_lookup_first _ _ _ _ info v Hpre He Hv).
      by destruct v.
    + destruct (get_fileinfo_metadata s "LegalCopyright") as [[|a v]|]; cbn; congruence.
Qed.

(** *** Systems and suppliers *)

Lemma system_component_fields (system : System.t) :
  let c := snd (convert_system_to_cyclonedx_component system) in
  Component.bom_ref c = System.UUID system
  /\ Component.type c = CONTAINER
  /\ Component.supplier c = head (System.vendor system)
  /\ Component.description c = System.description system
  /\ Component.version c = None /\ Component.hashes c = None
  /\ Component.copyright c = None.
Proof. cbn. repeat split; try reflexivity. Qed.

(** X4. Every component of the document has as supplier the first vendor
    of the System or Software entity it was made from, and no supplier when
    that entity lists no vendor; further vendors are dropped. *)
Theorem supplier_is_first_vendor (sbom : SBOM.t) (c : Component.t) :
  In c (Bom.components (fst (write_sbom sbom))) ->
  (exists system, In system (SBOM.systems sbom)
      /\ Component.bom_ref c = System.UUID system
      /\ Component.supplier c = head (System.vendor system))
  \/ (exists s, In s (SBOM.software sbom)
        /\ Component.bom_ref c = Software.UUID s
        /\ Component.supplier c = head (Software.vendor s)).
Proof.
  rewrite write_sbom_components, in_app_iff, in_map_iff, in_flat_map.
  intros [(system & <- & Hsys) | (s & Hs & Hc)].
  - left. exists system. split; [done|].
    by destruct (system_component_fields system) as (? & _ & ? & _).
  - right. exists s. split; [done|].
    apply projected_component_fields in Hc as (-> & _ & ->).
    split; [done|]. by destruct (Software.vendor s).
Qed.

(** *** Dependency records *)

Lemma emitted_kept (tbl : gmap string string) (p : string) (e : string * string * string) :
  emitted tbl p e = if kept_edge tbl p e then [entry_of_edge e] else [].
Proof. by destruct e as [[p' c] r]. Qed.

Lemma flat_map_emitted (tbl : gmap string string) (p : string)
    (l : list (string * string * string)) :
  flat_map (emitted tbl p) l = map entry_of_edge (List.filter (kept_edge tbl p) l).
Proof.
  induction l as [|e l IH]; [done|]. cbn [flat_map List.filter].
  rewrite emitted_kept, IH. by destruct (kept_edge tbl p e).
Qed.

Lemma edge_step_is_Some (tbl : gmap string string) (cdx_rels : gmap string Dependency.t)
    (e : string * string * string) (p : string) :
  is_Some (edge_step tbl cdx_rels e !! p)
  <-> is_Some (cdx_rels !! p) \/ kept_edge tbl p e = true.
Proof.
  destruct e as [[p' c] r]. unfold edge_step, kept_edge.
  destruct (skip_edge tbl p' c (upper r)).
  { rewrite andb_false_r. split; [tauto | intros [H | H]; [done | discriminate]]. }
  rewrite andb_true_r.
  destruct (String.eqb_spec p' p) as [-> | Hne].
  - destruct (cdx_rels !! p) as [d|] eqn:Hd.
    + rewrite Hd, lookup_insert_eq. split; eauto.
    + rewrite lookup_insert_eq, lookup_insert_eq. split; eauto.
  - destruct (cdx_rels !! p') as [d|] eqn:Hd.
    + rewrite Hd, lookup_insert_ne by done.
      split; [tauto | intros [H | H]; [done | discriminate]].
    + rewrite lookup_insert_eq, !lookup_insert_ne by done.
      split; [tauto | intros [H | H]; [done | discriminate]].
Qed.

Lemma edge_loop_is_Some (tbl : gmap string string) (l : list (string * string * string))
    (cdx_rels : gmap string Dependency.t) (p : string) :
  is_Some (fold_left (edge_step tbl) l cdx_rels !! p)
  <-> is_Some (cdx_rels !! p) \/ exists e, In e l /\ kept_edge tbl p e = true.
Proof.
  revert cdx_rels. induction l as [|e l IH]; intros cdx_rels; cbn [fold_left].
  - split; [tauto | intros [H | (e & [] & _)]; done].
  - rewrite IH, edge_step_is_Some. split.
    + intros [[H | H] | (e' & He' & Hk)]; [tauto | | ].
      * right. exists e. split; [by left | done].
      * right. exists e'. split; [by right | done].
    + intros [H | (e' & [<- | He'] & Hk)]; [tauto | tauto |].
      right. eauto.
Qed.

(** The records that the loop over [cdx_rels.values()] hands over, as
    [edge_step] builds them: one per parent of an edge that is not skipped,
    none empty. *)
Lemma build_dependencies_grouped (sbom : SBOM.t) :
  let out := fst (write_sbom sbom) in
  let tbl := container_path_table sbom in
  List.NoDup (map Dependency.ref (Bom.dependencies out))
  /\ (forall p,
        (exists d, In d (Bom.dependencies out) /\ Dependency.ref d = p)
        <-> exists e, In e (Graph.edges (SBOM.graph sbom)) /\ kept_edge tbl p e = true)
  /\ (forall d, In d (Bom.dependencies out) ->
        Dependency.dependencies d <> []
        /\ Dependency.dependencies d = dependency_entries out (Dependency.ref d)).
Proof.
  cbn zeta.
  set (rels := build_dependencies (container_path_table sbom) (SBOM.graph sbom)).
  assert (Hwk : well_keyed (Graph.edges (SBOM.graph sbom)) rels)
    by apply build_dependencies_well_keyed.
  assert (Hin : forall d, In d (Bom.dependencies (fst (write_sbom sbom)))
                  <-> exists k, rels !! k = Some d).
  { intros d. rewrite write_sbom_dependencies. fold rels. rewrite in_map_iff. split.
    - intros ([k d'] & <- & H). exists k. by apply list_elem_of_In, elem_of_map_to_list in H.
    - intros (k & H). exists (k, d). split; [done|].
      by apply list_elem_of_In, elem_of_map_to_list. }
  assert (Hsome : forall p, is_Some (rels !! p)
                    <-> exists e, In e (Graph.edges (SBOM.graph sbom))
                                  /\ kept_edge (container_path_table sbom) p e = true).
  { intros p. unfold rels, build_dependencies. rewrite edge_loop_is_Some.
    rewrite lookup_empty. split; [intros [[x Hx] | H]; [done | exact H] | tauto]. }
  split; [|split].
  - rewrite write_sbom_dependencies. fold rels.
    assert (Heq : map Dependency.ref (map snd (map_to_list rels))
                  = map fst (map_to_list rels)).
    { rewrite map_map. apply map_ext_in. intros [k d] Hkd. cbn.
      apply list_elem_of_In, elem_of_map_to_list in Hkd. by apply Hwk. }
    rewrite Heq, map_fmap. apply NoDup_ListNoDup, NoDup_fst_map_to_list.
  - intros p. rewrite <- Hsome. split.
    + intros (d & Hd & Href). apply Hin in Hd as (k & Hk).
      destruct (Hwk k d Hk) as [Hr _]. rewrite <- Href, Hr. by exists d.
    + intros [d Hd]. exists d. split; [apply Hin; eauto | by apply (Hwk p d)].
  - intros d Hd. apply Hin in Hd as (k & Hk).
    destruct (Hwk k d Hk) as [Hr _]. rewrite Hr.
    assert (Hch : Dependency.dependencies d = dependency_entries (fst (write_sbom sbom)) k).
    { rewrite write_sbom_entries. unfold rels, build_dependencies in Hk.
      pose proof (edge_loop_children (container_path_table sbom)
                    (Graph.edges (SBOM.graph sbom)) ∅ k) as Hc.
      unfold children_of in Hc. rewrite Hk, lookup_empty in Hc. exact Hc. }
    split; [|exact Hch].
    rewrite Hch, write_sbom_entries, flat_map_emitted.
    destruct (proj1 (Hsome k) (ex_intro _ d Hk)) as (e & He & Hkept).
    intros Hnil. apply (f_equal (@length _)) in Hnil. rewrite length_map in Hnil.
    assert (Hf : In e (List.filter (kept_edge (container_path_table sbom) k)
                                   (Graph.edges (SBOM.graph sbom))))
      by (apply filter_In; done).
    destruct (List.filter _ _); [destruct Hf | discriminate].
Qed.

(** *** Running the writer again *)

Lemma normalized_fields (s : Software.t) :
  Software.fileName (normalized s) = Software.fileName s
  /\ Software.containerPath (normalized s) = Software.containerPath s.
Proof. destruct (normalized_only_emptied s) as (_ & _ & _ & ? & ? & _). done. Qed.

Lemma projected_components_normalized (g : Graph.t) (s : Software.t) :
  get_children g (Software.UUID s) "Contains" = [] ->
  projected_components g (normalized s) = projected_components g s.
Proof.
  intros Hc. rewrite !projected_components_eq, normalized_UUID, Hc.
  destruct (normalized_fields s) as [-> ->].
  destruct (Software.containerPath s); apply map_ext; intros x;
    apply file_component_normalized.
Qed.

Lemma software_after_again (g : Graph.t) (s : Software.t) :
  flat_map (projected_components g) (software_after g s) = projected_components g s
  /\ flat_map (software_after g) (software_after g s) = software_after g s
  /\ (forall tbl, fold_left (table_after g) (software_after g s) tbl = table_after g tbl s).
Proof.
  rewrite software_after_eq. cbn [flat_map fold_left]. rewrite !app_nil_r.
  destruct (get_children g (Software.UUID s) "Contains") as [|x xs] eqn:Hc.
  - destruct (projected_components g s) as [|c cs] eqn:Hp.
    + rewrite Hp, software_after_eq, Hc, Hp. done.
    + rewrite (projected_components_normalized _ _ Hc), Hp.
      rewrite software_after_eq, normalized_UUID, Hc.
      rewrite (projected_components_normalized _ _ Hc), Hp, normalized_idem.
      split; [done|]. split; [done|]. intros tbl.
      unfold table_after, recorded_parent, last_path_parent.
      rewrite normalized_UUID, Hc. by destruct (normalized_fields s) as [_ ->].
  - rewrite software_after_eq, Hc. done.
Qed.

Lemma software_loop_again (g : Graph.t) (l : list Software.t) :
  flat_map (projected_components g) (flat_map (software_after g) l)
  = flat_map (projected_components g) l
  /\ flat_map (software_after g) (flat_map (software_after g) l)
     = flat_map (software_after g) l
  /\ (forall tbl, fold_left (table_after g) (flat_map (software_after g) l) tbl
                  = fold_left (table_after g) l tbl).
Proof.
  induction l as [|s l (IH1 & IH2 & IH3)]; [done|]. cbn [flat_map fold_left].
  destruct (software_after_again g s) as (H1 & H2 & H3).
  rewrite !flat_map_app, H1, H2, IH1, IH2. split; [done|]. split; [done|].
  intros tbl. by rewrite fold_left_app, H3, IH3.
Qed.

(** X7. Running [write_sbom] on the SBOM as a first run left it gives the
    same document as the first run and leaves that SBOM unchanged: the
    assignments to [version] and [description] are made once and do not
    change what is written. *)
Theorem write_sbom_again (sbom : SBOM.t) :
  let sbom' := snd (write_sbom sbom) in
  fst (write_sbom sbom') = fst (write_sbom sbom)
  /\ snd (write_sbom sbom') = sbom'.
Proof.
  cbn zeta. rewrite (write_sbom_state sbom).
  destruct (software_loop_again (SBOM.graph sbom) (SBOM.software sbom)) as (H1 & H2 & H3).
  split.
  - unfold write_sbom. rewrite !build_components_eq. cbn [SBOM.systems SBOM.graph
      SBOM.software fst snd]. by rewrite H1, H3.
  - rewrite write_sbom_state. cbn [SBOM.systems SBOM.graph SBOM.software]. by rewrite H2.
Qed.

(** *** Where the entries of the lookup table come from *)

Lemma table_loop_provenance (g : Graph.t) (l : list Software.t) (tbl : gmap string string)
    (k q : string) :
  fold_left (table_after g) l tbl !! k = Some q ->
  tbl !! k = Some q
  \/ exists s, In s l /\ Software.UUID s = k /\ recorded_parent g s = Some q.
Proof.
  revert tbl. induction l as [|s l IH]; intros tbl; cbn [fold_left]; [tauto|].
  intros H. apply IH in H as [H | (s' & Hs' & Hk & Hq)].
  - unfold table_after in H. destruct (recorded_parent g s) as [q'|] eqn:Hr; [|tauto].
    destruct (decide (Software.UUID s = k)) as [<- | Hne].
    + rewrite lookup_insert_eq in H. injection H as ->. right. exists s.
      split; [by left | done].
    + rewrite lookup_insert_ne in H by done. tauto.
  - right. exists s'. split; [by right | done].
Qed.

Lemma last_path_parent_Some (s : Software.t) (q : string) :
  last_path_parent s = Some q ->
  exists cpathstr, In cpathstr (Software.containerPath s)
    /\ multi_segment cpathstr = true /\ hd EmptyString (parts cpathstr) = q.
Proof.
  unfold last_path_parent. intros H. apply last_Some in H as (l' & Hl).
  assert (Hin : In q (map (fun cpathstr => hd EmptyString (parts cpathstr))
                          (List.filter multi_segment (Software.containerPath s)))).
  { rewrite Hl. apply in_or_app. right. by left. }
  apply in_map_iff in Hin as (cpathstr & Hq & Hf).
  apply filter_In in Hf as [Hin Hm]. by exists cpathstr.
Qed.

Lemma table_lookup_provenance (sbom : SBOM.t) (k q : string) :
  container_path_table sbom !! k = Some q ->
  exists s cpathstr,
    In s (SBOM.software sbom) /\ Software.UUID s = k
    /\ get_children (SBOM.graph sbom) k "Contains" = []
    /\ In cpathstr (Software.containerPath s)
    /\ multi_segment cpathstr = true
    /\ hd EmptyString (parts cpathstr) = q.
Proof.
  unfold container_path_table. rewrite build_components_eq. cbn [fst snd].
  intros H. apply table_loop_provenance in H as [H | (s & Hs & Hk & Hq)].
  { by rewrite lookup_empty in H. }
  unfold recorded_parent in Hq. rewrite Hk in Hq.
  destruct (get_children (SBOM.graph sbom) k "Contains") eqn:Hc; [|discriminate].
  apply last_path_parent_Some in Hq as (cpathstr & Hin & Hm & Hhd).
  by exists s, cpathstr.
Qed.

(** X8. Every entry of the lookup table comes from a container path: if
    the table holds the parent [q] for the identifier [k], then [k] is the
    UUID of a Software node without Contains-children, one of whose
    container paths has more than one part and names [q] as its first part;
    [q] is never the empty string. *)
Theorem lookup_table_provenance (sbom : SBOM.t) (k q : string) :
  container_path_table sbom !! k = Some q ->
  q <> EmptyString
  /\ exists s cpathstr,
       In s (SBOM.software sbom) /\ Software.UUID s = k
       /\ get_children (SBOM.graph sbom) k "Contains" = []
       /\ In cpathstr (Software.containerPath s)
       /\ multi_segment cpathstr = true
       /\ hd EmptyString (parts cpathstr) = q.
Proof.
  unfold container_path_table. rewrite build_components_eq. cbn [fst snd].
  intros H. apply table_loop_provenance in H as [H | (s & Hs & Hk & Hq)].
  { by rewrite lookup_empty in H. }
  unfold recorded_parent in Hq. rewrite Hk in Hq.
  destruct (get_children (SBOM.graph sbom) k "Contains") eqn:Hc; [|discriminate].
  apply last_path_parent_Some in Hq as (cpathstr & Hin & Hm & Hhd).
  split.
  - pose proof (multi_segment_parent_truthy _ Hm) as Ht. rewrite Hhd in Ht.
    intros ->. discriminate.
  - by exists s, cpathstr.
Qed.

(** X10. Suppression does not add the containment it prefers: when the
    lookup table names [q] as the parent of [c] and the graph has no
    Contains edge from [q] to [c], the document lists [c] as an unscoped
    child of no parent at all. *)
Theorem suppressed_without_replacement (sbom : SBOM.t) (c q : string) :
  container_path_table sbom !! c = Some q ->
  (forall r, In (q, c, r) (Graph.edges (SBOM.graph sbom)) -> upper r <> "CONTAINS") ->
  forall p, ~ In (c, None) (dependency_entries (fst (write_sbom sbom)) p).
Proof.
  intros Hq Hno p Hin.
  apply in_write_sbom_entries in Hin as (c' & r & He & Hs & Hx).
  assert (c' = c) as ->.
  { pose proof (edge_entry_child c' (upper r)) as Hf. rewrite <- Hx in Hf. done. }
  assert (Hr : upper r = "CONTAINS").
  { unfold edge_entry in Hx.
    destruct (String.eqb_spec (upper r) "CONTAINS"); [done|].
    by destruct (existsb _ _). }
  rewrite Hr in Hs.
  destruct (decide (p = q)) as [-> | Hne].
  - by apply (Hno r).
  - assert (Ht : skip_edge (container_path_table sbom) p c "CONTAINS" = true).
    { apply skip_edge_contains. exists q. split; [done | congruence]. }
    congruence.
Qed.

(** *** Paths and the names of file components *)

Lemma split_slash_slash_free (s : string) :
  Forall (fun x => slash_free x = true) (split_slash s).
Proof.
  induction s as [|c s IH]; cbn [split_slash]; [by repeat constructor|].
  destruct (Ascii.eqb c "/") eqn:Hc; [by constructor|].
  destruct (split_slash s) as [|x xs].
  - repeat constructor. cbn. by rewrite Hc.
  - apply List.Forall_cons_iff in IH as [Hx Hxs]. constructor; [|done].
    cbn. by rewrite Hc, Hx.
Qed.

Lemma split_slash_of_slash_free (s : string) :
  slash_free s = true -> split_slash s = [s].
Proof.
  induction s as [|c s IH]; cbn [split_slash slash_free]; [done|].
  intros H. apply andb_prop in H as [Hc Hs]. apply negb_true_iff in Hc.
  by rewrite Hc, (IH Hs).
Qed.

Lemma append_cons (c : ascii) (x s : string) : String c x +:+ s = String c (x +:+ s).
Proof. reflexivity. Qed.

Lemma append_empty_l (s : string) : EmptyString +:+ s = s.
Proof. reflexivity. Qed.

Lemma append_empty_r (x : string) : x +:+ EmptyString = x.
Proof. induction x as [|c x IH]; [done|]. by rewrite append_cons, IH. Qed.

Lemma split_slash_not_nil (s : string) : split_slash s <> [].
Proof.
  destruct s as [|c s]; cbn [split_slash]; [done|].
  destruct (Ascii.eqb c "/"); [done|]. by destruct (split_slash s).
Qed.

Lemma split_slash_app (x s : string) :
  slash_free x = true ->
  split_slash (x +:+ s)
  = match split_slash s with
    | y :: ys => (x +:+ y) :: ys
    | [] => [x]
    end.
Proof.
  induction x as [|c x IH].
  - intros _. rewrite append_empty_l.
    pose proof (split_slash_not_nil s) as Hs.
    destruct (split_slash s) as [|y ys]; [done|]. by rewrite append_empty_l.
  - cbn [slash_free]. intros H. apply andb_prop in H as [Hc Hx].
    apply negb_true_iff in Hc.
    rewrite append_cons. cbn [split_slash]. rewrite Hc, (IH Hx).
    pose proof (split_slash_not_nil s) as Hs.
    destruct (split_slash s) as [|y ys]; [done|]. by rewrite append_cons.
Qed.

Lemma concat_cons_cons (sep x y : string) (ys : list string) :
  String.concat sep (x :: y :: ys) = x +:+ sep +:+ String.concat sep (y :: ys).
Proof. reflexivity. Qed.

Lemma split_slash_join (l : list string) :
  l <> [] -> Forall (fun x => slash_free x = true) l ->
  split_slash (join "/" l) = l.
Proof.
  unfold join. intros Hne Hl. induction Hl as [|x l Hx Hl IH]; [done|].
  destruct l as [|y ys].
  - cbn [String.concat]. by apply split_slash_of_slash_free.
  - rewrite concat_cons_cons, (split_slash_app _ _ Hx).
    rewrite (append_cons "/" EmptyString), append_empty_l.
    cbn [split_slash]. change (Ascii.eqb "/" "/") with true. cbn iota.
    rewrite append_empty_r. f_equal. by apply IH.
Qed.

Lemma parts_tail (s : string) :
  Forall (fun x => slash_free x = true /\ kept_component x = true) (tl (parts s)).
Proof.
  assert (Hf : Forall (fun x => slash_free x = true /\ kept_component x = true)
                      (List.filter kept_component (split_slash s))).
  { apply List.Forall_forall. intros x Hx. apply filter_In in Hx as [Hin Hk].
    split; [|done]. pose proof (split_slash_slash_free s) as Hs.
    by apply (proj1 (List.Forall_forall _ _) Hs). }
  unfold parts.
  assert (Hroot : path_root s = [] \/ exists r, path_root s = [r]).
  { unfold path_root.
    repeat (match goal with
            | |- context [match ?t with _ => _ end] => destruct t
            end; eauto). }
  destruct Hroot as [-> | [r ->]]; cbn [app tl]; [|done].
  destruct (List.filter kept_component (split_slash s)); [constructor|].
  by apply List.Forall_cons_iff in Hf as [_ Hf].
Qed.

Lemma join_relative (l : list string) :
  l <> [] -> Forall (fun x => slash_free x = true /\ kept_component x = true) l ->
  path_root (join "/" l) = [] /\ join "/" l <> EmptyString.
Proof.
  intros Hne Hl. destruct l as [|x l]; [done|].
  apply List.Forall_cons_iff in Hl as [[Hx Hk] _].
  destruct x as [|c x]; [discriminate|].
  cbn [slash_free] in Hx. apply andb_prop in Hx as [Hc _].
  unfold join. assert (Hj : exists t, String.concat "/" (String c x :: l) = String c t).
  { destruct l; cbn [String.concat String.append]; eauto. }
  destruct Hj as [t ->]. split; [|discriminate].
  unfold path_root.
  destruct c as [[] [] [] [] [] [] [] []]; try reflexivity. discriminate.
Qed.

(** The path below the parent of a container path of more than one part is
    a normalised relative path: parsing it again gives the parts of the
    container path after the first. *)
Lemma relative_path_normal_form (cpathstr : string) :
  multi_segment cpathstr = true ->
  let name := join "/" (tl (parts cpathstr)) in
  parts name = tl (parts cpathstr)
  /\ name <> EmptyString
  /\ path_root name = []
  /\ length (parts name) = length (parts cpathstr) - 1.
Proof.
  intros Hm name. subst name.
  assert (Hne : tl (parts cpathstr) <> []).
  { unfold multi_segment in Hm. destruct (parts cpathstr) as [|x [|y l]]; done. }
  pose proof (parts_tail cpathstr) as Ht.
  destruct (join_relative _ Hne Ht) as [Hroot Hnonempty].
  assert (Hparts : parts (join "/" (tl (parts cpathstr))) = tl (parts cpathstr)).
  { unfold parts at 1. rewrite Hroot. cbn [app].
    rewrite split_slash_join; [|done|].
    - apply List.forallb_filter_id, forallb_forall. intros x Hx.
      by apply (proj1 (List.Forall_forall _ _) Ht).
    - apply List.Forall_forall. intros x Hx.
      by apply (proj1 (List.Forall_forall _ _) Ht). }
  split; [done|]. split; [done|]. split; [done|].
  rewrite Hparts. destruct (parts cpathstr); cbn; lia.
Qed.

Lemma slash_free_path_root (s : string) : slash_free s = true -> path_root s = [].
Proof.
  destruct s as [|c s]; [done|]. cbn [slash_free]. intros H.
  apply andb_prop in H as [Hc _]. unfold path_root.
  destruct c as [[] [] [] [] [] [] [] []]; try reflexivity. discriminate.
Qed.

Lemma slash_free_not_multi_segment (s : string) :
  slash_free s = true -> multi_segment s = false.
Proof.
  intros H. unfold multi_segment, parts.
  rewrite (slash_free_path_root _ H), (split_slash_of_slash_free _ H). cbn.
  by destruct (kept_component s).
Qed.

(** X12. A container path without a slash never yields a component: a
    Software node without Contains-children whose [containerPath] is not
    empty and holds only such paths (bare file names, bare identifiers, the
    empty string) is projected to nothing, and the writer leaves it
    unchanged. *)
Theorem slash_free_paths_yield_nothing (g : Graph.t) (s : Software.t) :
  get_children g (Software.UUID s) "Contains" = [] ->
  Software.containerPath s <> [] ->
  Forall (fun cpathstr => slash_free cpathstr = true) (Software.containerPath s) ->
  projected_components g s = [] /\ software_after g s = [s].
Proof.
  intros Hc Hne Hall.
  assert (Hnone : List.filter multi_segment (Software.containerPath s) = []).
  { clear Hne. induction Hall as [|p l Hp _ IH]; [done|]. cbn [List.filter].
    by rewrite (slash_free_not_multi_segment _ Hp). }
  assert (Hp : projected_components g s = []).
  { rewrite projected_components_eq, Hc.
    destruct (Software.containerPath s); [done|]. by rewrite Hnone. }
  split; [done|]. by rewrite software_after_eq, Hc, Hp.
Qed.

(** X13. Version and description of the components of a Software node. A
    container component takes both exactly as the node has them, the empty
    string included. A file component never carries an empty string: it has
    [None] where the node has the empty string and the node's value
    otherwise. *)
Theorem component_version_description (g : Graph.t) (s : Software.t) (c : Component.t) :
  In c (projected_components g s) ->
  (get_children g (Software.UUID s) "Contains" <> [] ->
   Component.version c = Software.version s
   /\ Component.description c = Software.description s)
  /\ (get_children g (Software.UUID s) "Contains" = [] ->
      Component.version c
      = (if decide (Software.version s = Some EmptyString) then None else Software.version s)
      /\ Component.description c
         = (if decide (Software.description s = Some EmptyString)
            then None else Software.description s)).
Proof.
  rewrite projected_components_eq.
  destruct (get_children _ _ _) as [|x xs].
  - intros Hin. split; [done|]. intros _.
    destruct (Software.containerPath s);
      apply in_map_iff in Hin as (f & <- & _);
      destruct s; unfold_create; done.
  - intros Hin. apply in_map_iff in Hin as (f & <- & _). by split.
Qed.

(** ** The run against the cyclonedx library *)

Lemma edge_step_run_contains (tbl : gmap string string)
    (cdx_rels : gmap string Dependency.t) (p c r : string) :
  upper r = "CONTAINS" ->
  edge_step_run tbl cdx_rels (p, c, r) = inr (edge_step tbl cdx_rels (p, c, r)).
Proof.
  intros Hr. unfold edge_step_run. rewrite Hr.
  destruct (skip_edge tbl p c "CONTAINS") eqn:Hs; [|reflexivity].
  rewrite edge_step_skipped; [done | by rewrite Hr].
Qed.

Lemma edge_step_run_scoped (tbl : gmap string string)
    (cdx_rels : gmap string Dependency.t) (p c r : string) :
  upper r <> "CONTAINS" ->
  edge_step_run tbl cdx_rels (p, c, r)
  = inl (AttributeError "Dependency" "add_scope_dependency").
Proof.
  intros Hr. unfold edge_step_run.
  rewrite skip_edge_not_contains by done.
  apply String.eqb_neq in Hr. by rewrite Hr.
Qed.

Lemma edge_loop_run_contains (tbl : gmap string string)
    (l : list (string * string * string)) (cdx_rels : gmap string Dependency.t) :
  forallb contains_label l = true ->
  edge_loop_run tbl l cdx_rels = inr (fold_left (edge_step tbl) l cdx_rels).
Proof.
  revert cdx_rels. induction l as [|[[p c] r] l IH]; intros cdx_rels; [done|].
  cbn [forallb edge_loop_run fold_left]. intros H.
  apply andb_prop in H as [Hr Hl]. unfold contains_label in Hr. cbn [snd] in Hr.
  apply String.eqb_eq in Hr. rewrite (edge_step_run_contains _ _ _ _ _ Hr).
  by apply IH.
Qed.

Lemma edge_loop_run_scoped (tbl : gmap string string)
    (l : list (string * string * string)) (cdx_rels : gmap string Dependency.t) :
  forallb contains_label l = false ->
  edge_loop_run tbl l cdx_rels = inl (AttributeError "Dependency" "add_scope_dependency").
Proof.
  revert cdx_rels. induction l as [|[[p c] r] l IH]; intros cdx_rels; [done|].
  cbn [forallb edge_loop_run]. unfold contains_label at 1. cbn [snd].
  destruct (String.eqb_spec (upper r) "CONTAINS") as [Hr | Hr]; cbn [andb].
  - intros Hl. rewrite (edge_step_run_contains _ _ _ _ _ Hr). by apply IH.
  - intros _. by rewrite edge_step_run_scoped.
Qed.

Lemma write_sbom_run_state (sbom : SBOM.t) :
  snd (write_sbom_run sbom) = snd (write_sbom sbom).
Proof.
  unfold write_sbom_run, write_sbom.
  destruct (build_components sbom) as [[components tbl] software].
  by destruct (edge_loop_run tbl _ _).
Qed.

Lemma write_sbom_run_contains (sbom : SBOM.t) :
  forallb contains_label (Graph.edges (SBOM.graph sbom)) = true ->
  write_sbom_run sbom = (inr (fst (write_sbom sbom)), snd (write_sbom sbom)).
Proof.
  intros H. unfold write_sbom_run, write_sbom, build_dependencies.
  destruct (build_components sbom) as [[components tbl] software].
  by rewrite edge_loop_run_contains.
Qed.

Lemma write_sbom_run_scoped (sbom : SBOM.t) :
  forallb contains_label (Graph.edges (SBOM.graph sbom)) = false ->
  fst (write_sbom_run sbom) = inl (AttributeError "Dependency" "add_scope_dependency").
Proof.
  intros H. unfold write_sbom_run.
  destruct (build_components sbom) as [[components tbl] software].
  by rewrite edge_loop_run_scoped.
Qed.

Lemma write_sbom_run_document (sbom : SBOM.t) (out : Bom.t) :
  fst (write_sbom_run sbom) = inr out ->
  out = fst (write_sbom sbom)
  /\ forallb contains_label (Graph.edges (SBOM.graph sbom)) = true.
Proof.
  intros H.
  destruct (forallb contains_label (Graph.edges (SBOM.graph sbom))) eqn:Hall.
  - rewrite (write_sbom_run_contains _ Hall) in H. cbn [fst] in H. by injection H as <-.
  - rewrite (write_sbom_run_scoped _ Hall) in H. discriminate.
Qed.

(** C1. The claim does not hold of the code. For every edge whose label,
    upper-cased, is not CONTAINS (Uses, DependsOn and Requires in any case
    among them), the loop reaches the call of [add_scope_dependency], which
    the [Dependency] class of the library does not have: [write_sbom] raises
    [AttributeError] and produces no document, hence no runtime-scoped and
    no unknown-scoped dependency. *)
Theorem scoped_edge_raises (sbom : SBOM.t) (p c r : string) :
  In (p, c, r) (Graph.edges (SBOM.graph sbom)) ->
  upper r <> "CONTAINS" ->
  fst (write_sbom_run sbom) = inl (AttributeError "Dependency" "add_scope_dependency")
  /\ (forall out, fst (write_sbom_run sbom) <> inr out)
  /\ (forall tbl cdx_rels,
        edge_step_run tbl cdx_rels (p, c, r)
        = inl (AttributeError "Dependency" "add_scope_dependency")).
Proof.
  intros He Hr.
  assert (Hall : forallb contains_label (Graph.edges (SBOM.graph sbom)) = false).
  { apply not_true_is_false. intros Hall.
    pose proof (proj1 (forallb_forall _ _) Hall (p, c, r) He) as H.
    unfold contains_label in H. cbn [snd] in H. by apply String.eqb_eq in H. }
  pose proof (write_sbom_run_scoped sbom Hall) as Hrun.
  split; [exact Hrun|]. split.
  - intros out Hout. rewrite Hrun in Hout. discriminate.
  - intros tbl cdx_rels. by apply edge_step_run_scoped.
Qed.

(** C2 (as amended). [write_sbom] leaves the graph and the System entities
    as they were, and of a Software entity it changes nothing but [version]
    and [description]: in an entity without Contains-children for which a
    file component is created, each of the two that is the empty string
    becomes [None]; an entity with Contains-children, one for which no
    component is created, and one whose version and description are not
    empty strings are left exactly as they were. The SBOM is left in this
    state also when the call raises. *)
Theorem write_sbom_frame (sbom : SBOM.t) :
  let sbom' := snd (write_sbom sbom) in
  SBOM.systems sbom' = SBOM.systems sbom
  /\ SBOM.graph sbom' = SBOM.graph sbom
  /\ Forall2 (frame_of (SBOM.graph sbom)) (SBOM.software sbom) (SBOM.software sbom')
  /\ snd (write_sbom_run sbom) = sbom'.
Proof.
  cbn zeta. rewrite write_sbom_run_state, write_sbom_state.
  cbn [SBOM.systems SBOM.graph SBOM.software].
  split; [done|]. split; [done|]. split; [apply software_after_frame | done].
Qed.

(** ** The components of the document as a set *)

Lemma remove_dups_map_inj_on {A B : Type} `{EqDecision A} `{EqDecision B}
    (h : A -> B) (l : list A) :
  (forall x y, In x l -> In y l -> h x = h y -> x = y) ->
  remove_dups (map h l) = map h (remove_dups l).
Proof.
  induction l as [|x l IH]; [done|]. intros Hinj. cbn [map remove_dups].
  assert (IH' : remove_dups (map h l) = map h (remove_dups l)).
  { apply IH. intros a b Ha Hb. apply Hinj; by right. }
  destruct (decide_rel elem_of x l) as [Hx | Hx].
  - destruct (decide_rel elem_of (h x) (map h l)) as [_ | Hhx]; [exact IH'|].
    exfalso. apply Hhx. apply list_elem_of_In, in_map. by apply list_elem_of_In.
  - destruct (decide_rel elem_of (h x) (map h l)) as [Hhx | _].
    + exfalso. apply Hx. apply list_elem_of_In, in_map_iff in Hhx as (y & Hy & Hin).
      assert (y = x) as -> by (apply Hinj; [by right | by left | done]).
      by apply list_elem_of_In.
    + cbn [map]. by rewrite IH'.
Qed.

Lemma made_from_permutation (sbom : SBOM.t) (s : Software.t) :
  In s (SBOM.software sbom) ->
  Permutation (made_from (SBOM.graph sbom) s (fst (write_sbom sbom)))
              (remove_dups (projected_components (SBOM.graph sbom) s)).
Proof.
  intros Hs. apply NoDup_Permutation.
  - apply NoDup_ListNoDup, List.NoDup_filter, NoDup_ListNoDup, NoDup_remove_dups.
  - apply NoDup_remove_dups.
  - intros c. unfold made_from, document_components.
    rewrite (list_elem_of_In (List.filter _ _)), filter_In, bool_decide_eq_true.
    rewrite <- list_elem_of_In, !elem_of_remove_dups.
    split; [tauto|]. intros Hc. split; [|done].
    apply list_elem_of_In. rewrite write_sbom_components. apply in_or_app. right.
    apply in_flat_map. exists s. split; [done|]. by apply list_elem_of_In.
Qed.

Lemma file_component_name (s : Software.t) (file_path : string) :
  Component.name (file_component s file_path) = Some file_path.
Proof. destruct s. unfold_create; reflexivity. Qed.

Lemma container_component_name (s : Software.t) (fname : string) :
  Component.name (container_component s fname) = container_name s fname.
Proof.
  unfold container_component, container_name. cbn.
  by destruct (truthy (Software.name s)).
Qed.

Lemma file_component_names (s : Software.t) (l : list string) :
  map Component.name (map (fun p => file_component s p) l) = map Some l.
Proof.
  induction l as [|p l IH]; [done|]. cbn [map].
  by rewrite IH, (file_component_name s p).
Qed.

(** The names of the components of the document made from one node: each
    distinct name created for the node, once. *)
Lemma made_from_names (sbom : SBOM.t) (s : Software.t) (names : list (option string))
    (mk : option string -> Component.t) :
  In s (SBOM.software sbom) ->
  projected_components (SBOM.graph sbom) s = map mk names ->
  (forall n, Component.name (mk n) = n) ->
  Permutation (map Component.name (made_from (SBOM.graph sbom) s (fst (write_sbom sbom))))
              (remove_dups names).
Proof.
  intros Hs Hp Hmk.
  rewrite (Permutation_map Component.name (made_from_permutation sbom s Hs)), Hp.
  rewrite <- (remove_dups_map_inj_on Component.name).
  - rewrite map_map. erewrite map_ext; [by rewrite map_id | exact Hmk].
  - intros x y Hx Hy Hxy. apply in_map_iff in Hx as (n1 & <- & _).
    apply in_map_iff in Hy as (n2 & <- & _). rewrite !Hmk in Hxy. by subst.
Qed.

Lemma remove_dups_map_Some (l : list string) :
  remove_dups (map Some l) = map Some (remove_dups l).
Proof. apply remove_dups_map_inj_on. intros x y _ _ H. by injection H. Qed.

(** C6 (as amended). [bom.components] holds each component once, so
    repeated entries of [fileName] or [containerPath] give no repeated
    component; the document of a run that does not raise has these
    components.
    For a Contains-parent it holds exactly one container-type component per
    distinct component name made for the node, the name being the software's
    name when it has one and the file name otherwise: one per distinct file
    name for a node without a name, a single component for a named node.
    For a node without Contains-children it holds exactly one file-type
    component per distinct path below the parent among the container paths
    of more than one part (paths of one part or none give nothing, and paths
    that differ in the parent only give one component), or, when
    [containerPath] is empty, one per distinct file name. *)
Theorem components_per_distinct_name (sbom : SBOM.t) (s : Software.t) :
  In s (SBOM.software sbom) ->
  let g := SBOM.graph sbom in
  let made := made_from g s (fst (write_sbom sbom)) in
  List.NoDup made
  /\ (forall c, In c made <-> In c (projected_components g s))
  /\ (get_children g (Software.UUID s) "Contains" <> [] ->
      Forall (fun c => Component.type c = CONTAINER) made
      /\ Permutation (map Component.name made)
                     (remove_dups (map (container_name s) (Software.fileName s)))
      /\ (truthy (Software.name s) = false ->
          Permutation (map Component.name made)
                      (map Some (remove_dups (Software.fileName s))))
      /\ (truthy (Software.name s) = true -> Software.fileName s <> [] ->
          length made = 1))
  /\ (get_children g (Software.UUID s) "Contains" = [] ->
      Software.containerPath s = [] ->
      Forall (fun c => Component.type c = FILE) made
      /\ Permutation (map Component.name made)
                     (map Some (remove_dups (Software.fileName s))))
  /\ (get_children g (Software.UUID s) "Contains" = [] ->
      Software.containerPath s <> [] ->
      Forall (fun c => Component.type c = FILE) made
      /\ Permutation (map Component.name made)
           (map Some (remove_dups
                        (map path_below_parent
                             (List.filter multi_segment (Software.containerPath s))))))
  /\ (forall out, fst (write_sbom_run sbom) = inr out -> made_from g s out = made).
Proof.
  intros Hs g made. subst made. set (made := made_from g s _).
  assert (Hmem : forall c, In c made <-> In c (projected_components g s)).
  { intros c. rewrite <- !list_elem_of_In. unfold made, g.
    rewrite (made_from_permutation sbom s Hs). apply elem_of_remove_dups. }
  assert (Htype : forall t, Forall (fun c => Component.type c = t) (projected_components g s) ->
                    Forall (fun c => Component.type c = t) made).
  { intros t Ht. apply List.Forall_forall. intros c Hc. apply Hmem in Hc.
    by apply (proj1 (List.Forall_forall _ _) Ht). }
  split. { apply List.NoDup_filter, NoDup_ListNoDup, NoDup_remove_dups. }
  split; [exact Hmem|].
  destruct (components_per_entry g s) as (Hcont & Hfile0 & Hfile1).
  subst made g.
  split; [|split; [|split]];
    [| | | intros out Hrun; by destruct (write_sbom_run_document _ _ Hrun) as [-> _]].
  - intros Hc. destruct (Hcont Hc) as (_ & _ & Ht).
    assert (Hp : projected_components (SBOM.graph sbom) s
                 = map (fun n => Component.mk (Software.UUID s) n (Software.version s)
                                   (first_vendor (Software.vendor s))
                                   (Software.description s) (software_hashes s)
                                   None CONTAINER)
                       (map (container_name s) (Software.fileName s))).
    { rewrite projected_components_eq. destruct (get_children _ _ _); [done|].
      rewrite map_map. apply map_ext. intros fname.
      unfold container_component, container_name.
      by destruct (truthy (Software.name s)). }
    pose proof (made_from_names sbom s _ _ Hs Hp (fun n => eq_refl)) as Hperm.
    split; [by apply Htype|]. split; [exact Hperm|]. split.
    + intros Hn. rewrite Hperm, <- remove_dups_map_Some.
      unfold container_name. by rewrite Hn.
    + intros Hn Hne. apply Permutation_length in Hperm.
      rewrite length_map in Hperm. rewrite Hperm. unfold container_name. rewrite Hn.
      destruct (Software.fileName s) as [|f l]; [done|]. clear.
      induction l as [|f' l IH]; [done|].
      cbn [map] in *. cbn [remove_dups] in *.
      destruct (decide_rel elem_of _ (_ :: map _ l)) as [_ | Hno].
      * destruct (decide_rel elem_of _ (map _ l)) as [_ | Hno'] in IH |- *; [exact IH|].
        cbn [length] in *. by destruct l.
      * exfalso. apply Hno. by left.
  - intros Hc Hcp. destruct (Hfile0 Hc Hcp) as (_ & _ & Ht).
    assert (Hp : projected_components (SBOM.graph sbom) s
                 = map (fun p => file_component s p) (Software.fileName s)).
    { by rewrite projected_components_eq, Hc, Hcp. }
    split; [by apply Htype|].
    rewrite <- remove_dups_map_Some.
    apply Permutation_trans with
      (remove_dups (map Component.name (projected_components (SBOM.graph sbom) s))).
    + rewrite (Permutation_map Component.name (made_from_permutation sbom s Hs)).
      rewrite (remove_dups_map_inj_on Component.name); [done|].
      intros x y Hx Hy Hxy. rewrite Hp in Hx, Hy.
      apply in_map_iff in Hx as (n1 & <- & _). apply in_map_iff in Hy as (n2 & <- & _).
      cbn beta in Hxy.
      rewrite (file_component_name s n1), (file_component_name s n2) in Hxy.
      by injection Hxy as ->.
    + by rewrite Hp, file_component_names.
  - intros Hc Hcp. destruct (Hfile1 Hc Hcp) as (_ & _ & Ht).
    assert (Hp : projected_components (SBOM.graph sbom) s
                 = map (fun p => file_component s p)
                       (map path_below_parent
                            (List.filter multi_segment (Software.containerPath s)))).
    { rewrite projected_components_eq, Hc.
      destruct (Software.containerPath s); [done|]. by rewrite map_map. }
    split; [by apply Htype|].
    rewrite <- remove_dups_map_Some.
    apply Permutation_trans with
      (remove_dups (map Component.name (projected_components (SBOM.graph sbom) s))).
    + rewrite (Permutation_map Component.name (made_from_permutation sbom s Hs)).
      rewrite (remove_dups_map_inj_on Component.name); [done|].
      intros x y Hx Hy Hxy. rewrite Hp in Hx, Hy.
      apply in_map_iff in Hx as (n1 & <- & _). apply in_map_iff in Hy as (n2 & <- & _).
      cbn beta in Hxy.
      rewrite (file_component_name s n1), (file_component_name s n2) in Hxy.
      by injection Hxy as ->.
    + by rewrite Hp, file_component_names.
Qed.

(** ** Documents of runs that do not raise *)

Lemma run_labels (sbom : SBOM.t) (out : Bom.t) (p c r : string) :
  fst (write_sbom_run sbom) = inr out ->
  In (p, c, r) (Graph.edges (SBOM.graph sbom)) ->
  upper r = "CONTAINS".
Proof.
  intros Hrun He. apply write_sbom_run_document in Hrun as [_ Hall].
  pose proof (proj1 (forallb_forall _ _) Hall (p, c, r) He) as H.
  unfold contains_label in H. cbn [snd] in H. by apply String.eqb_eq in H.
Qed.

Lemma skip_edge_contains_false (tbl : gmap string string) (p c : string) :
  skip_edge tbl p c "CONTAINS" = false <-> tbl !! c = None \/ tbl !! c = Some p.
Proof.
  rewrite <- not_true_iff_false, skip_edge_contains. split.
  - intros H. destruct (tbl !! c) as [q|]; [|by left]. right.
    destruct (decide (q = p)) as [-> | Hne]; [done|]. exfalso. apply H. eauto.
  - intros [H | H] (q & Hq & Hne); congruence.
Qed.

Lemma in_run_entries (sbom : SBOM.t) (out : Bom.t) (p : string)
    (x : string * option string) :
  fst (write_sbom_run sbom) = inr out ->
  In x (dependency_entries out p) <->
  exists c r, In (p, c, r) (Graph.edges (SBOM.graph sbom))
              /\ skip_edge (container_path_table sbom) p c "CONTAINS" = false
              /\ x = (c, None).
Proof.
  intros Hrun. destruct (write_sbom_run_document _ _ Hrun) as [-> _].
  rewrite in_write_sbom_entries. split.
  - intros (c & r & He & Hs & ->). rewrite (run_labels _ _ _ _ _ Hrun He) in Hs |- *.
    by exists c, r.
  - intros (c & r & He & Hs & ->). exists c, r.
    rewrite (run_labels _ _ _ _ _ Hrun He). done.
Qed.

(** X3. When the run produces a document, it holds a component for every
    system: of container type, with the system's UUID as reference, named by
    [officialName] when that is a non-empty string, else by [name] when
    that is a non-empty string, and else keeping [officialName] as it is
    ([None] or the empty string).  Every component of the document is the
    component of a system or one of the components made from a software
    entry. *)
Theorem system_components_of_document (sbom : SBOM.t) (out : Bom.t) (system : System.t) :
  fst (write_sbom_run sbom) = inr out ->
  In system (SBOM.systems sbom) ->
  let c := snd (convert_system_to_cyclonedx_component system) in
  In c (document_components out)
  /\ Component.bom_ref c = System.UUID system
  /\ Component.type c = CONTAINER
  /\ (truthy (System.officialName system) = true ->
      Component.name c = System.officialName system)
  /\ (truthy (System.officialName system) = false ->
      truthy (System.name system) = true ->
      Component.name c = System.name system)
  /\ (truthy (System.officialName system) = false ->
      truthy (System.name system) = false ->
      Component.name c = System.officialName system)
  /\ (forall c', In c' (document_components out) ->
        (exists system', In system' (SBOM.systems sbom)
                         /\ c' = snd (convert_system_to_cyclonedx_component system'))
        \/ (exists s, In s (SBOM.software sbom)
                      /\ In c' (projected_components (SBOM.graph sbom) s))).
Proof.
  intros Hrun Hin c. destruct (write_sbom_run_document _ _ Hrun) as [-> _].
  assert (Hdoc : forall x, In x (document_components (fst (write_sbom sbom)))
                   <-> In x (Bom.components (fst (write_sbom sbom)))).
  { intros x. unfold document_components.
    by rewrite <- !list_elem_of_In, elem_of_remove_dups. }
  split.
  { apply Hdoc. rewrite write_sbom_components. apply in_or_app. left.
    by apply (in_map (fun system => snd (convert_system_to_cyclonedx_component system))). }
  split; [reflexivity|]. split; [reflexivity|].
  subst c. unfold convert_system_to_cyclonedx_component. cbn.
  split; [by intros ->|]. split; [by intros -> ->|]. split; [by intros -> ->|].
  intros c' Hc'. apply Hdoc in Hc'. rewrite write_sbom_components in Hc'.
  apply in_app_or in Hc' as [Hc' | Hc'].
  - left. apply in_map_iff in Hc' as (system' & <- & Hs'). by exists system'.
  - right. apply in_flat_map in Hc' as (s & Hs & Hc'). by exists s.
Qed.

(** X5. When the run produces a document, every dependency listed under a
    parent is unscoped, and [c] is listed under [p] exactly when the graph
    has an edge from [p] to [c] and the lookup table names no parent other
    than [p] for [c]. *)
Theorem contains_children_of_document (sbom : SBOM.t) (out : Bom.t) (p c : string) :
  fst (write_sbom_run sbom) = inr out ->
  let tbl := container_path_table sbom in
  (forall x, In x (dependency_entries out p) -> snd x = None)
  /\ (In (c, None) (dependency_entries out p)
      <-> (exists r, In (p, c, r) (Graph.edges (SBOM.graph sbom)))
          /\ (tbl !! c = None \/ tbl !! c = Some p)).
Proof.
  intros Hrun tbl. split.
  - intros x Hx. apply (in_run_entries _ _ _ _ Hrun) in Hx as (c' & r & _ & _ & ->).
    reflexivity.
  - rewrite (in_run_entries _ _ _ _ Hrun). split.
    + intros (c' & r & He & Hs & [= <-]). split; [by exists r|].
      by apply skip_edge_contains_false.
    + intros [[r He] Ht]. exists c, r. split; [done|]. split; [|done].
      by apply skip_edge_contains_false.
Qed.

(** X6. When the run produces a document, the dependency records that
    [write_sbom] adds to it are grouped by parent: no two of them have the
    same reference; a parent has such a record exactly when some edge that
    leaves it is not skipped; none of these records is empty, and the
    record of a parent holds the dependencies listed under it.  (The
    outputter of the library, which turns the document into text, is not
    part of this code.) *)
Theorem dependency_records_of_document (sbom : SBOM.t) (out : Bom.t) :
  fst (write_sbom_run sbom) = inr out ->
  let tbl := container_path_table sbom in
  List.NoDup (map Dependency.ref (Bom.dependencies out))
  /\ (forall p,
        (exists d, In d (Bom.dependencies out) /\ Dependency.ref d = p)
        <-> exists c r, In (p, c, r) (Graph.edges (SBOM.graph sbom))
                        /\ skip_edge tbl p c (upper r) = false)
  /\ (forall d, In d (Bom.dependencies out) ->
        Dependency.dependencies d <> []
        /\ forall x, In x (Dependency.dependencies d)
                     <-> In x (dependency_entries out (Dependency.ref d))).
Proof.
  intros Hrun tbl. subst tbl. destruct (write_sbom_run_document _ _ Hrun) as [-> _].
  destruct (build_dependencies_grouped sbom) as (Hnd & Hrec & Hd).
  split; [exact Hnd|]. split.
  - intros p. rewrite (Hrec p). split.
    + intros ([[p' c] r] & He & Hk). unfold kept_edge in Hk.
      apply andb_prop in Hk as [Hp Hs]. apply String.eqb_eq in Hp as ->.
      apply negb_true_iff in Hs. by exists c, r.
    + intros (c & r & He & Hs). exists (p, c, r). split; [done|].
      unfold kept_edge. by rewrite String.eqb_refl, Hs.
  - intros d Hin. destruct (Hd d Hin) as [Hne Heq]. split; [exact Hne|].
    intros x. by rewrite <- Heq.
Qed.

(** X9. An edge is skipped only if its child is a Software node without
    Contains-children that has a container path of more than one part: an
    edge whose child is anything else (a System, a Software node with
    Contains-children, a node known by file names or bare paths only) is
    never skipped, whatever its label, and when the run produces a document
    the child of every such edge is listed under the parent of the edge. *)
Theorem edges_to_other_nodes_never_skipped (sbom : SBOM.t) (p c r : string) :
  (forall s, In s (SBOM.software sbom) -> Software.UUID s = c ->
     get_children (SBOM.graph sbom) c "Contains" <> []
     \/ List.filter multi_segment (Software.containerPath s) = []) ->
  skip_edge (container_path_table sbom) p c (upper r) = false
  /\ (forall out, fst (write_sbom_run sbom) = inr out ->
      In (p, c, r) (Graph.edges (SBOM.graph sbom)) ->
      In (c, None) (dependency_entries out p)).
Proof.
  intros Hno.
  assert (Hnone : container_path_table sbom !! c = None).
  { destruct (container_path_table sbom !! c) as [q|] eqn:Hq; [|done].
    apply table_lookup_provenance in Hq
      as (s & cpathstr & Hs & Hk & Hc & Hin & Hm & _).
    destruct (Hno s Hs Hk) as [H | H]; [done|].
    assert (Hf : In cpathstr (List.filter multi_segment (Software.containerPath s)))
      by (by apply filter_In).
    rewrite H in Hf. destruct Hf. }
  assert (Hs : forall R, skip_edge (container_path_table sbom) p c R = false).
  { intros R. unfold skip_edge. rewrite Hnone. apply andb_false_r. }
  split; [apply Hs|]. intros out Hrun He.
  apply (in_run_entries _ _ _ _ Hrun). exists c, r. by rewrite Hs.
Qed.

(** X11. The name of a file component made from a container path is a
    normalised relative path.  Every component made from a Software node
    without Contains-children that has container paths is named by the path
    below the parent of one of its container paths of more than one part:
    the name is not empty, it has no root, and parsing it again gives
    exactly the parts of the container path after the parent (no empty and
    no ["."] segments, no trailing slash). *)
Theorem file_component_name_normal_form (g : Graph.t) (s : Software.t) (c : Component.t) :
  get_children g (Software.UUID s) "Contains" = [] ->
  Software.containerPath s <> [] ->
  In c (projected_components g s) ->
  exists cpathstr name,
    In cpathstr (Software.containerPath s)
    /\ multi_segment cpathstr = true
    /\ Component.name c = Some name
    /\ name = join "/" (tl (parts cpathstr))
    /\ parts name = tl (parts cpathstr)
    /\ name <> EmptyString
    /\ path_root name = []
    /\ length (parts name) = length (parts cpathstr) - 1.
Proof.
  intros Hc Hne Hin. rewrite projected_components_eq, Hc in Hin.
  destruct (Software.containerPath s) as [|p0 l] eqn:Hcp; [done|].
  apply in_map_iff in Hin as (cpathstr & <- & Hf).
  apply filter_In in Hf as [Hin Hm].
  destruct (relative_path_normal_form cpathstr Hm) as (Hparts & Hnonempty & Hroot & Hlen).
  exists cpathstr, (join "/" (tl (parts cpathstr))).
  split; [done|]. split; [done|]. split; [apply file_component_name|]. done.
Qed.

End Writer.

(** ** The writer on the example inputs *)

Example parts_relative : parts "parentA/sub/file.txt" = ["parentA"; "sub"; "file.txt"].
Proof. reflexivity. Qed.

Example parts_absolute : parts "/a//b/./c/" = ["/"; "a"; "b"; "c"].
Proof. reflexivity. Qed.

Example parts_two_slashes : parts "//a" = ["//"; "a"].
Proof. reflexivity. Qed.

Example parts_short : parts "." = [] /\ parts EmptyString = [] /\ parts "file.txt" = ["file.txt"].
Proof. repeat split; reflexivity. Qed.

Example upper_labels : upper "DependsOn" = "DEPENDSON" /\ upper "requires" = "REQUIRES".
Proof. split; reflexivity. Qed.

(** The scenario of the specification: one container component for the
    system, one file component for the file, and one dependency record that
    lists the file as an unscoped child of the system. *)
Example widget_document :
  fst (write_sbom graph_children Examples.version Examples.widget_sbom)
  = Bom.mk [mkTool "Surfactant" "1.2.3"]
      [Component.mk "S1" (Some "Widget OS") None (Some "Acme") None None None CONTAINER;
       Component.mk "F1" (Some "libfoo.so") None None None
                    (Some [mkHashType SHA_256 "abc123"]) None FILE]
      [Dependency.mk "S1" [("F1", None)]].
Proof. vm_compute. reflexivity. Qed.

(** C2, as stated, fails: the file of the example has an empty version and
    an empty description, and [write_sbom] leaves it with [None] in both. *)
Lemma write_sbom_changes_software :
  SBOM.software (snd (write_sbom graph_children Examples.version Examples.blank_file_sbom))
  = [Software.mk "F3" (Some "tool") None ["Acme"] None ["tool.bin"] []
                 (Some "da39") None None []]
  /\ snd (write_sbom graph_children Examples.version Examples.blank_file_sbom)
     <> Examples.blank_file_sbom.
Proof.
  split; [vm_compute; reflexivity|].
  intros H. apply (f_equal SBOM.software) in H. vm_compute in H. discriminate.
Qed.

(** The file F2 of the example, with container path parentA/sub/file.txt
    and one Contains edge from parentA, is listed once under parentA. *)
Lemma contains_edge_suppression_witness :
  upper "Contains" = "CONTAINS"
  /\ length (List.filter
               (fun x => bool_decide (x = ("F2", None : option string)))
               (dependency_entries
                  (fst (write_sbom graph_children Examples.version Examples.nested_sbom))
                  "parentA")) = 1.
Proof.
  split; [reflexivity|].
  destruct (contains_edge_suppression graph_children Examples.version
              Examples.nested_sbom "parentA" "F2" "Contains" eq_refl)
    as (_ & _ & _ & H).
  apply (H Examples.nested_file).
  - cbn; tauto.
  - repeat constructor; cbn; intuition discriminate.
  - reflexivity.
  - reflexivity.
Defined.

(** The archive C1 of the example has a Contains-child and is projected as
    container components only. *)
Lemma container_file_partition_witness :
  In Examples.blank_archive (SBOM.software Examples.blank_archive_sbom)
  /\ Forall (fun c => Component.type c = CONTAINER)
            (projected_components graph_children
               (SBOM.graph Examples.blank_archive_sbom) Examples.blank_archive).
Proof.
  assert (H : In Examples.blank_archive (SBOM.software Examples.blank_archive_sbom))
    by (cbn; tauto).
  split; [exact H|].
  destruct (container_file_partition graph_children Examples.version
              Examples.blank_archive_sbom Examples.blank_archive H) as (Hc & _).
  apply Hc. vm_compute. discriminate.
Defined.

(** C5 fails on the code for container components: the archive C1 of the
    example has an empty version and an empty description, and its container
    component carries both empty strings, whereas the file component made
    from F3, which has the same empty strings, carries [None]. *)
Theorem container_keeps_empty_strings :
  map (fun c => (Component.type c, Component.version c, Component.description c))
      (projected_components graph_children
         (SBOM.graph Examples.blank_archive_sbom) Examples.blank_archive)
  = [(CONTAINER, Some EmptyString, Some EmptyString)]
  /\ map (fun c => (Component.type c, Component.version c, Component.description c))
         (projected_components graph_children
            (SBOM.graph Examples.blank_file_sbom) Examples.blank_file)
     = [(FILE, None, None)].
Proof. split; vm_compute; reflexivity. Qed.

(** C6, as stated, fails in three ways, on runs that produce their
    documents.  The file F5 has no
    Contains-children and one distinct container path, the bare name
    file.txt, and the document has no component for it.  The archive C3 has
    a name and two distinct file names, and the document has one component
    for it, named pkg.  The file F7 has two distinct container paths,
    A1/x.txt and B1/x.txt, and the document has one component for it, named
    x.txt. *)
Lemma components_not_per_distinct_entry :
  (fst (write_sbom_run graph_children Examples.version Examples.bare_path_sbom)
   = inr (fst (write_sbom graph_children Examples.version Examples.bare_path_sbom))
   /\ fst (write_sbom_run graph_children Examples.version Scenarios.named_archive_sbom)
      = inr (fst (write_sbom graph_children Examples.version
                    Scenarios.named_archive_sbom))
   /\ fst (write_sbom_run graph_children Examples.version Examples.shared_file_sbom)
      = inr (fst (write_sbom graph_children Examples.version Examples.shared_file_sbom)))
  /\ (graph_children (SBOM.graph Examples.bare_path_sbom) "F5" "Contains" = []
   /\ remove_dups (Software.containerPath Examples.bare_path_file) = ["file.txt"]
   /\ made_from graph_children (SBOM.graph Examples.bare_path_sbom)
        Examples.bare_path_file
        (fst (write_sbom graph_children Examples.version Examples.bare_path_sbom)) = [])
  /\ (graph_children (SBOM.graph Scenarios.named_archive_sbom) "C3" "Contains" <> []
      /\ remove_dups (Software.fileName Scenarios.named_archive) = ["a.zip"; "b.zip"]
      /\ map Component.name
           (made_from graph_children (SBOM.graph Scenarios.named_archive_sbom)
              Scenarios.named_archive
              (fst (write_sbom graph_children Examples.version
                      Scenarios.named_archive_sbom)))
         = [Some "pkg"])
  /\ (graph_children (SBOM.graph Examples.shared_file_sbom) "F7" "Contains" = []
      /\ remove_dups (Software.containerPath Examples.shared_file)
         = ["A1/x.txt"; "B1/x.txt"]
      /\ map Component.name
           (made_from graph_children (SBOM.graph Examples.shared_file_sbom)
              Examples.shared_file
              (fst (write_sbom graph_children Examples.version
                      Examples.shared_file_sbom)))
         = [Some "x.txt"]).
Proof.
  split; [|split; [|split]].
  - split; [|split]; by rewrite write_sbom_run_contains.
  - split; [vm_compute; reflexivity|]. split; vm_compute; reflexivity.
  - split; [vm_compute; discriminate|]. split; vm_compute; reflexivity.
  - split; [vm_compute; reflexivity|]. split; vm_compute; reflexivity.
Qed.

(** The archive C2 of the example is listed twice under a.zip: the document
    has one component for it. *)
Lemma components_per_distinct_name_witness :
  In Examples.twice_named_archive (SBOM.software Examples.twice_named_sbom)
  /\ graph_children (SBOM.graph Examples.twice_named_sbom) "C2" "Contains" <> []
  /\ Software.fileName Examples.twice_named_archive = ["a.zip"; "a.zip"]
  /\ Permutation
       (map Component.name
          (made_from graph_children (SBOM.graph Examples.twice_named_sbom)
             Examples.twice_named_archive
             (fst (write_sbom graph_children Examples.version
                     Examples.twice_named_sbom))))
       [Some "a.zip"].
Proof.
  assert (Hs : In Examples.twice_named_archive
                  (SBOM.software Examples.twice_named_sbom)) by (left; reflexivity).
  assert (Hc : graph_children (SBOM.graph Examples.twice_named_sbom) "C2" "Contains"
               <> []) by (vm_compute; discriminate).
  split; [exact Hs|]. split; [exact Hc|]. split; [reflexivity|].
  destruct (components_per_distinct_name graph_children Examples.version
              Examples.twice_named_sbom Examples.twice_named_archive Hs)
    as (_ & _ & Hcont & _).
  destruct (Hcont Hc) as (_ & _ & Hunnamed & _).
  exact (Hunnamed eq_refl).
Defined.

(** The list that the container converter returns has one component for
    each of the two entries of the archive listed twice under a.zip. *)
Example container_converter_on_repeated_name :
  length (snd (convert_software_to_cyclonedx_container_components
                 Examples.twice_named_archive)) = 2.
Proof. reflexivity. Qed.

(** The file component made from libfoo.so, whose only hash is SHA-256. *)
Lemma hash_list_of_component_witness :
  let c := file_component Examples.libfoo "libfoo.so" in
  In c (projected_components graph_children
          (SBOM.graph Examples.widget_sbom) Examples.libfoo)
  /\ exists l, Component.hashes c = Some l
       /\ (forall a, count_alg a l = if truthy (hash_field a Examples.libfoo) then 1 else 0)
       /\ (forall e, In e l -> hash_field (alg e) Examples.libfoo = Some (content e)).
Proof.
  intros c.
  assert (H : In c (projected_components graph_children
                      (SBOM.graph Examples.widget_sbom) Examples.libfoo))
    by (vm_compute; tauto).
  split; [exact H|].
  destruct (hash_list_of_component graph_children
              (SBOM.graph Examples.widget_sbom) Examples.libfoo c H) as (_ & Hsome).
  apply Hsome. reflexivity.
Defined.

(** The file F5 of the example yields no component. *)
Lemma single_segment_paths_yield_nothing_witness :
  graph_children (SBOM.graph Examples.bare_path_sbom) "F5" "Contains" = []
  /\ Forall (fun cpathstr => length (parts cpathstr) = 1)
            (Software.containerPath Examples.bare_path_file)
  /\ projected_components graph_children
       (SBOM.graph Examples.bare_path_sbom) Examples.bare_path_file = [].
Proof.
  assert (Hone : Forall (fun cpathstr => length (parts cpathstr) = 1)
                        (Software.containerPath Examples.bare_path_file))
    by (repeat constructor).
  split; [reflexivity|]. split; [exact Hone|].
  apply (single_segment_paths_yield_nothing graph_children
           (SBOM.graph Examples.bare_path_sbom) Examples.bare_path_file);
    [reflexivity | discriminate | exact Hone].
Defined.

(** The file F7 of the example lies in A1 and in B1: the table keeps B1,
    and the Contains edge from A1 leaves no entry. *)
Lemma last_container_path_wins_witness :
  In Examples.shared_file (SBOM.software Examples.shared_file_sbom)
  /\ List.NoDup (map Software.UUID (SBOM.software Examples.shared_file_sbom))
  /\ last_path_parent Examples.shared_file = Some "B1"
  /\ container_path_table graph_children Examples.shared_file_sbom !! "F7" = Some "B1"
  /\ ~ In ("F7", None)
          (dependency_entries
             (fst (write_sbom graph_children Examples.version Examples.shared_file_sbom))
             "A1").
Proof.
  assert (Hin : In Examples.shared_file (SBOM.software Examples.shared_file_sbom))
    by (cbn; tauto).
  assert (Hnd : List.NoDup (map Software.UUID (SBOM.software Examples.shared_file_sbom)))
    by (repeat constructor; cbn; intuition discriminate).
  split; [exact Hin|]. split; [exact Hnd|]. split; [reflexivity|].
  destruct (last_container_path_wins graph_children Examples.version
              Examples.shared_file_sbom Examples.shared_file "B1" Hin Hnd)
    as [Hfile _].
  destruct (Hfile eq_refl eq_refl) as (Htbl & _ & Hno & _).
  split; [exact Htbl|]. apply Hno. discriminate.
Defined.

(** C10, as stated, fails for a node with Contains-children: the archive Z
    of the example has the container paths A1/z.zip and B1/z.zip, yet no
    parent is recorded for it and the Contains edge from A1 is kept. *)
Lemma container_paths_of_archive_not_recorded :
  last_path_parent Examples.shared_archive = Some "B1"
  /\ container_path_table graph_children Examples.shared_archive_sbom !! "Z" = None
  /\ In ("Z", None)
        (dependency_entries
           (fst (write_sbom graph_children Examples.version Examples.shared_archive_sbom))
           "A1").
Proof.
  split; [reflexivity|]. split; [vm_compute; reflexivity|]. vm_compute. tauto.
Qed.

(** ** Further properties on the example inputs *)

(** The file component of F9 takes the copyright of the second record; the
    component of F10 has none, because its first record holds the empty
    string. *)
Lemma component_copyright_witness :
  let c := file_component Scenarios.licensed_file "a.dll" in
  In c (projected_components graph_children
          (SBOM.graph Scenarios.licensed_sbom) Scenarios.licensed_file)
  /\ Component.copyright c = Some "(c) Acme".
Proof.
  intros c.
  assert (H : In c (projected_components graph_children
                      (SBOM.graph Scenarios.licensed_sbom) Scenarios.licensed_file))
    by (vm_compute; tauto).
  split; [exact H|].
  destruct (component_copyright graph_children _ _ c H) as (_ & Hfile).
  destruct (Hfile eq_refl) as (_ & Hfirst & _).
  apply (Hfirst [{["Signature" := {["Signer" := "Acme"]}]}]
                {["FileInfo" := {["LegalCopyright" := "(c) Acme"]}]} []
                {["LegalCopyright" := "(c) Acme"]} "(c) Acme").
  - reflexivity.
  - repeat constructor.
  - reflexivity.
  - reflexivity.
Defined.

Example blank_copyright_shadows_later_records :
  map Component.copyright
      (projected_components graph_children
         (SBOM.graph Scenarios.licensed_sbom) Scenarios.blank_copyright_file)
  = [None].
Proof. vm_compute. reflexivity. Qed.

(** The component of the system S1 has the supplier Acme, the first and
    only vendor of S1. *)
Lemma supplier_is_first_vendor_witness :
  let c := snd (convert_system_to_cyclonedx_component Examples.widget_system) in
  let sbom := Examples.widget_sbom in
  In c (Bom.components (fst (write_sbom graph_children Examples.version sbom)))
  /\ ((exists system, In system (SBOM.systems sbom)
         /\ Component.bom_ref c = System.UUID system
         /\ Component.supplier c = head (System.vendor system))
      \/ (exists s, In s (SBOM.software sbom)
            /\ Component.bom_ref c = Software.UUID s
            /\ Component.supplier c = head (Software.vendor s))).
Proof.
  intros c sbom.
  assert (H : In c (Bom.components
                      (fst (write_sbom graph_children Examples.version sbom))))
    by (vm_compute; tauto).
  split; [exact H|].
  exact (supplier_is_first_vendor graph_children Examples.version sbom c H).
Defined.

(** The entry of the table for F7 comes from the path B1/x.txt. *)
Lemma lookup_table_provenance_witness :
  container_path_table graph_children Examples.shared_file_sbom !! "F7" = Some "B1"
  /\ exists s cpathstr,
       In s (SBOM.software Examples.shared_file_sbom) /\ Software.UUID s = "F7"
       /\ graph_children (SBOM.graph Examples.shared_file_sbom) "F7" "Contains" = []
       /\ In cpathstr (Software.containerPath s)
       /\ multi_segment cpathstr = true
       /\ hd EmptyString (parts cpathstr) = "B1".
Proof.
  assert (H : container_path_table graph_children Examples.shared_file_sbom !! "F7"
              = Some "B1") by (vm_compute; reflexivity).
  split; [exact H|].
  exact (proj2 (lookup_table_provenance graph_children Examples.version
                  Examples.shared_file_sbom "F7" "B1" H)).
Defined.

(** The edge A1 -Contains-> Z into the archive Z is kept, although the
    container paths of Z name two archives. *)
Lemma edges_to_other_nodes_never_skipped_witness :
  (forall s, In s (SBOM.software Examples.shared_archive_sbom) ->
     Software.UUID s = "Z" ->
     graph_children (SBOM.graph Examples.shared_archive_sbom) "Z" "Contains" <> []
     \/ List.filter multi_segment (Software.containerPath s) = [])
  /\ skip_edge (container_path_table graph_children Examples.shared_archive_sbom)
               "A1" "Z" (upper "Contains") = false
  /\ In ("Z", None)
        (dependency_entries
           (fst (write_sbom graph_children Examples.version Examples.shared_archive_sbom))
           "A1").
Proof.
  assert (Hno : forall s, In s (SBOM.software Examples.shared_archive_sbom) ->
            Software.UUID s = "Z" ->
            graph_children (SBOM.graph Examples.shared_archive_sbom) "Z" "Contains" <> []
            \/ List.filter multi_segment (Software.containerPath s) = []).
  { intros s _ _. left. vm_compute. discriminate. }
  split; [exact Hno|].
  destruct (edges_to_other_nodes_never_skipped graph_children Examples.version
              Examples.shared_archive_sbom "A1" "Z" "Contains" Hno) as [Hs Hin].
  split; [exact Hs|].
  apply Hin; [vm_compute; reflexivity | cbn; tauto].
Defined.

(** The file F7 lies in B1 by its path; the only Contains edge comes from
    A1 and is skipped, so F7 is the unscoped child of nobody. *)
Lemma suppressed_without_replacement_witness :
  container_path_table graph_children Scenarios.lost_file_sbom !! "F7" = Some "B1"
  /\ forall p,
       ~ In ("F7", None)
            (dependency_entries
               (fst (write_sbom graph_children Examples.version Scenarios.lost_file_sbom))
               p).
Proof.
  assert (H : container_path_table graph_children Scenarios.lost_file_sbom !! "F7"
              = Some "B1") by (vm_compute; reflexivity).
  split; [exact H|].
  apply (suppressed_without_replacement graph_children Examples.version
           Scenarios.lost_file_sbom "F7" "B1" H).
  intros r Hr. cbn in Hr. destruct Hr as [Hr | []]. discriminate.
Defined.

(** The file F2 of the example lies at parentA/sub/file.txt: its component
    is named sub/file.txt. *)
Lemma file_component_name_normal_form_witness :
  let c := file_component Examples.nested_file "sub/file.txt" in
  graph_children (SBOM.graph Examples.nested_sbom) "F2" "Contains" = []
  /\ In c (projected_components graph_children
             (SBOM.graph Examples.nested_sbom) Examples.nested_file)
  /\ exists cpathstr name,
       In cpathstr (Software.containerPath Examples.nested_file)
       /\ Component.name c = Some name
       /\ parts name = tl (parts cpathstr).
Proof.
  intros c.
  assert (Hc : graph_children (SBOM.graph Examples.nested_sbom) "F2" "Contains" = [])
    by reflexivity.
  assert (Hin : In c (projected_components graph_children
                        (SBOM.graph Examples.nested_sbom) Examples.nested_file))
    by (vm_compute; tauto).
  split; [exact Hc|]. split; [exact Hin|].
  destruct (file_component_name_normal_form graph_children
              (SBOM.graph Examples.nested_sbom) Examples.nested_file c Hc)
    as (cpathstr & name & H1 & _ & H3 & _ & H5 & _); [discriminate | exact Hin |].
  by exists cpathstr, name.
Defined.

(** The file F5, known by the bare path file.txt, yields nothing. *)
Lemma slash_free_paths_yield_nothing_witness :
  Forall (fun cpathstr => slash_free cpathstr = true)
         (Software.containerPath Examples.bare_path_file)
  /\ projected_components graph_children
       (SBOM.graph Examples.bare_path_sbom) Examples.bare_path_file = [].
Proof.
  assert (H : Forall (fun cpathstr => slash_free cpathstr = true)
                     (Software.containerPath Examples.bare_path_file))
    by (repeat constructor).
  split; [exact H|].
  apply (slash_free_paths_yield_nothing graph_children
           (SBOM.graph Examples.bare_path_sbom) Examples.bare_path_file);
    [reflexivity | discriminate | exact H].
Defined.

(** The container component of the archive C1 keeps the empty version. *)
Lemma component_version_description_witness :
  let c := container_component Examples.blank_archive "pkg.zip" in
  In c (projected_components graph_children
          (SBOM.graph Examples.blank_archive_sbom) Examples.blank_archive)
  /\ Component.version c = Software.version Examples.blank_archive
  /\ Component.description c = Software.description Examples.blank_archive.
Proof.
  intros c.
  assert (H : In c (projected_components graph_children
                      (SBOM.graph Examples.blank_archive_sbom) Examples.blank_archive))
    by (vm_compute; tauto).
  split; [exact H|].
  destruct (component_version_description graph_children _ _ c H) as (Hcont & _).
  apply Hcont. vm_compute. discriminate.
Defined.

(** ** The regression script *)

(** *** [show_diff] *)

Lemma slice_to_nonneg {A : Type} (n : Z) (l : list A) :
  (0 <= n)%Z -> Regressions.slice_to n l = firstn (Z.to_nat n) l.
Proof. intros H. unfold Regressions.slice_to. by rewrite (proj2 (Z.leb_le 0 n) H). Qed.

Lemma slice_to_fits {A : Type} (n : Z) (l : list A) :
  (Z.of_nat (length l) <= n)%Z -> Regressions.slice_to n l = l.
Proof.
  intros H. rewrite slice_to_nonneg by lia. apply firstn_all2. lia.
Qed.

(** X14. [show_diff] with a limit that is not negative: when the diff has
    at most [max_lines] lines, all of them are shown, right-stripped, and
    nothing is added; when it has more, the first [max_lines] lines are
    shown, followed by one line that counts the lines left out, so that
    shown and counted lines add up to the length of the diff. Never more
    than [max_lines + 1] lines are joined. *)
Theorem show_diff_truncation (splitlines : string -> list string)
    (unified_diff : list string -> list string -> list string)
    (text1 text2 : string) (max_lines : Z) :
  (0 <= max_lines)%Z ->
  let diff := unified_diff (splitlines text1) (splitlines text2) in
  let n := Z.of_nat (length diff) in
  ((n <= max_lines)%Z ->
   Regressions.show_diff splitlines unified_diff text1 text2 max_lines
   = join Regressions.newline (map Regressions.rstrip diff))
  /\ ((max_lines < n)%Z ->
      Regressions.show_diff splitlines unified_diff text1 text2 max_lines
      = join Regressions.newline
          (map Regressions.rstrip (firstn (Z.to_nat max_lines) diff)
           ++ ["... and " +:+ pretty (n - max_lines)%Z +:+ " more lines"])
      /\ (Z.of_nat (length (firstn (Z.to_nat max_lines) diff)) + (n - max_lines) = n)%Z)
  /\ (Z.of_nat (length (Regressions.shown_lines diff max_lines)) <= max_lines + 1)%Z.
Proof.
  intros Hmax diff n. unfold Regressions.show_diff. fold diff.
  unfold Regressions.shown_lines. fold n. split; [|split].
  - intros Hfit. rewrite (proj2 (Z.ltb_ge _ _) Hfit). rewrite slice_to_fits; [done|].
    subst n. lia.
  - intros Hmore. rewrite (proj2 (Z.ltb_lt _ _) Hmore), slice_to_nonneg by done.
    split; [reflexivity|]. rewrite length_firstn. subst n. lia.
  - destruct (max_lines <? n)%Z.
    + rewrite length_app, length_map, slice_to_nonneg, length_firstn by done. cbn. lia.
    + rewrite length_map, slice_to_nonneg, length_firstn by done. lia.
Qed.

(** X15. [show_diff] with a negative limit: the slice [diff[:max_lines]]
    drops lines from the end of the diff, and the line added after it
    counts [len(diff) - max_lines] lines, which is more than the diff
    has. *)
Theorem show_diff_negative_limit (splitlines : string -> list string)
    (unified_diff : list string -> list string -> list string)
    (text1 text2 : string) (max_lines : Z) :
  (max_lines < 0)%Z ->
  let diff := unified_diff (splitlines text1) (splitlines text2) in
  let n := Z.of_nat (length diff) in
  Regressions.show_diff splitlines unified_diff text1 text2 max_lines
  = join Regressions.newline
      (map Regressions.rstrip (firstn (length diff - Z.to_nat (- max_lines)) diff)
       ++ ["... and " +:+ pretty (n - max_lines)%Z +:+ " more lines"])
  /\ (n < n - max_lines)%Z.
Proof.
  intros Hneg diff n. unfold Regressions.show_diff. fold diff.
  unfold Regressions.shown_lines, Regressions.slice_to. fold n.
  rewrite (proj2 (Z.ltb_lt max_lines n)) by (subst n; lia).
  rewrite (proj2 (Z.leb_gt 0 max_lines)) by lia.
  assert (H1 : Z.to_nat (n + max_lines) = length diff - Z.to_nat (- max_lines))
    by (subst n; lia).
  rewrite H1. split; [reflexivity | lia].
Qed.

(** *** [test_gha] *)

Lemma dict_set_fresh {V : Type} (k : string) (v : V) (d : Regressions.dict V) :
  ~ In k (map fst d) -> Regressions.dict_set k v d = d ++ [(k, v)].
Proof.
  induction d as [|[k' v'] d IH]; cbn [Regressions.dict_set map fst In app]; [done|].
  intros H. destruct (String.eqb_spec k' k) as [-> | Hne]; [tauto|].
  rewrite IH by tauto. done.
Qed.

Lemma dict_set_In {V : Type} (k : string) (v : V) (d : Regressions.dict V)
    (k0 : string) (v0 : V) :
  In (k0, v0) (Regressions.dict_set k v d) -> In (k0, v0) d \/ v0 = v.
Proof.
  induction d as [|[k' v'] d IH]; cbn [Regressions.dict_set In].
  - intros [[= _ ->] | []]. by right.
  - destruct (String.eqb k' k); cbn [In].
    + intros [[= _ ->] | H]; [by right | tauto].
    + intros [H | H]; [tauto|]. apply IH in H. tauto.
Qed.

Lemma dict_get_map {V : Type} (g : Regressions.Folder -> V)
    (l : list Regressions.Folder) (f : Regressions.Folder) :
  List.NoDup (map Regressions.name l) -> In f l ->
  Regressions.dict_get (Regressions.name f)
    (map (fun f => (Regressions.name f, g f)) l) = Some (g f).
Proof.
  induction l as [|a l IH]; [intros _ []|]. cbn [map].
  intros Hnd Hin. apply List.NoDup_cons_iff in Hnd as [Ha Hnd].
  cbn [Regressions.dict_get]. destruct Hin as [-> | Hin].
  - by rewrite String.eqb_refl.
  - destruct (String.eqb_spec (Regressions.name a) (Regressions.name f)) as [E | _].
    + exfalso. apply Ha. rewrite E. by apply in_map.
    + by apply IH.
Qed.

Lemma folder_step_new_folders (generate : string -> string + string)
    (splitlines : string -> list string)
    (unified_diff : list string -> list string -> list string)
    (old_folders : Regressions.dict Regressions.FolderData)
    (new_folders : Regressions.dict Regressions.FolderData)
    (results : Regressions.dict Regressions.Result) (folder : Regressions.Folder) :
  fst (Regressions.folder_step generate splitlines unified_diff old_folders
         (new_folders, results) folder)
  = Regressions.dict_set (Regressions.name folder)
      (Regressions.stored_data generate old_folders folder) new_folders.
Proof.
  unfold Regressions.folder_step, Regressions.stored_data.
  destruct (generate (Regressions.path folder)) as [text | trace];
    destruct (Regressions.dict_get _ old_folders) as [d|]; cbn [Regressions.sbom];
    repeat (match goal with |- context [if ?b then _ else _] => destruct b end);
    reflexivity.
Qed.

Lemma folder_loop_new_folders (generate : string -> string + string)
    (splitlines : string -> list string)
    (unified_diff : list string -> list string -> list string)
    (old_folders : Regressions.dict Regressions.FolderData)
    (l : list Regressions.Folder)
    (new_folders : Regressions.dict Regressions.FolderData)
    (results : Regressions.dict Regressions.Result) :
  List.NoDup (map Regressions.name l) ->
  (forall f, In f l -> ~ In (Regressions.name f) (map fst new_folders)) ->
  fst (fold_left (Regressions.folder_step generate splitlines unified_diff old_folders)
                 l (new_folders, results))
  = new_folders
    ++ map (fun f => (Regressions.name f, Regressions.stored_data generate old_folders f)) l.
Proof.
  revert new_folders results.
  induction l as [|a l IH]; intros new_folders results Hnd Hfresh; cbn [fold_left map].
  - by rewrite app_nil_r.
  - apply List.NoDup_cons_iff in Hnd as [Ha Hnd].
    rewrite (surjective_pairing (Regressions.folder_step _ _ _ _ _ a)).
    rewrite folder_step_new_folders, dict_set_fresh by (apply Hfresh; by left).
    rewrite IH; [by rewrite <- app_assoc | done |].
    intros f Hf. rewrite map_app, in_app_iff. cbn [map fst In].
    intros [H | [H | []]].
    + apply (Hfresh f); [by right | done].
    + apply Ha. rewrite H. by apply in_map.
Qed.

Lemma test_gha_snd (generate : string -> string + string)
    (splitlines : string -> list string)
    (unified_diff : list string -> list string -> list string)
    (data_folders : list Regressions.Folder)
    (old_folders : Regressions.dict Regressions.FolderData) (repo : option string)
    (current_run last_run : option (string * string))
    (requested_last_sha : option string) :
  snd (Regressions.test_gha generate splitlines unified_diff data_folders old_folders
         repo current_run last_run requested_last_sha)
  = fst (Regressions.folder_loop generate splitlines unified_diff data_folders old_folders).
Proof.
  unfold Regressions.test_gha, Regressions.folder_loop.
  destruct data_folders as [|a l]; [reflexivity|].
  by destruct (fold_left _ (a :: l) _).
Qed.

Lemma test_gha_new_folders_map (generate : string -> string + string)
    (splitlines : string -> list string)
    (unified_diff : list string -> list string -> list string)
    (data_folders : list Regressions.Folder)
    (old_folders : Regressions.dict Regressions.FolderData) (repo : option string)
    (current_run last_run : option (string * string))
    (requested_last_sha : option string) :
  List.NoDup (map Regressions.name data_folders) ->
  snd (Regressions.test_gha generate splitlines unified_diff data_folders old_folders
         repo current_run last_run requested_last_sha)
  = map (fun f => (Regressions.name f, Regressions.stored_data generate old_folders f))
        data_folders.
Proof.
  intros Hnd. rewrite test_gha_snd. unfold Regressions.folder_loop.
  rewrite folder_loop_new_folders; [done | done |]. intros f _ [].
Qed.

(** X16. [new_folders] has exactly one record per data folder (folder
    names being distinct), in the order of [data_folders]. The record of a
    folder whose SBOM was generated holds the new text and no stack trace;
    the record of a folder whose generation raised holds the text the folder
    had in [old_folders] (the empty string for a folder that was not there)
    and the traceback. *)
Theorem test_gha_new_folders (generate : string -> string + string)
    (splitlines : string -> list string)
    (unified_diff : list string -> list string -> list string)
    (data_folders : list Regressions.Folder)
    (old_folders : Regressions.dict Regressions.FolderData) (repo : option string)
    (current_run last_run : option (string * string))
    (requested_last_sha : option string) :
  List.NoDup (map Regressions.name data_folders) ->
  let new_folders :=
    snd (Regressions.test_gha generate splitlines unified_diff data_folders old_folders
           repo current_run last_run requested_last_sha) in
  map fst new_folders = map Regressions.name data_folders
  /\ forall folder, In folder data_folders ->
       exists d, Regressions.dict_get (Regressions.name folder) new_folders = Some d
         /\ (forall text, generate (Regressions.path folder) = inl text ->
               d = Regressions.mkFolderData text None)
         /\ (forall trace, generate (Regressions.path folder) = inr trace ->
               Regressions.stacktrace d = Some trace
               /\ Regressions.sbom d
                  = match Regressions.dict_get (Regressions.name folder) old_folders with
                    | Some old => Regressions.sbom old
                    | None => EmptyString
                    end).
Proof.
  intros Hnd new_folders. subst new_folders.
  rewrite test_gha_new_folders_map by done. split.
  - rewrite map_map. by apply map_ext.
  - intros folder Hin.
    exists (Regressions.stored_data generate old_folders folder).
    split; [by apply dict_get_map|]. unfold Regressions.stored_data.
    split; [intros text -> | intros trace ->]; done.
Qed.

Lemma filter_none {A : Type} (f : A -> bool) (l : list A) :
  (forall x, In x l -> f x = false) -> List.filter f l = [].
Proof.
  induction l as [|a l IH]; [done|]. intros H. cbn [List.filter].
  rewrite (H a) by (by left). apply IH. intros x Hx. apply H. by right.
Qed.

Lemma dict_mem_map {V : Type} (g : Regressions.Folder -> V)
    (l : list Regressions.Folder) (k : string) :
  In k (map Regressions.name l) ->
  Regressions.dict_mem k (map (fun f => (Regressions.name f, g f)) l) = true.
Proof.
  unfold Regressions.dict_mem.
  induction l as [|a l IH]; [intros []|]. cbn [map In Regressions.dict_get].
  intros Hin. destruct (String.eqb_spec (Regressions.name a) k) as [E | Hne]; [done|].
  apply IH. tauto.
Qed.

Lemma created_removed_none {V : Type} (g : Regressions.Folder -> V)
    (data_folders : list Regressions.Folder) :
  List.filter
    (fun folder =>
       negb (Regressions.dict_mem folder
               (map (fun f => (Regressions.name f, g f)) data_folders)))
    (map Regressions.name data_folders) = []
  /\ List.filter
       (fun folder =>
          negb (existsb (String.eqb folder) (map Regressions.name data_folders)))
       (map fst (map (fun f => (Regressions.name f, g f)) data_folders)) = [].
Proof.
  split.
  - apply filter_none. intros k Hk. by rewrite dict_mem_map.
  - apply filter_none. intros k Hk. rewrite map_map in Hk. cbn [fst] in Hk.
    apply negb_false_iff, existsb_exists. exists k. split; [done|].
    apply String.eqb_refl.
Qed.

(** X17. Feeding [new_folders] back as [old_folders]: for the same data
    folders (folder names being distinct) the next run finds no new folder
    and no removed folder. *)
Theorem test_gha_round_trip (generate : string -> string + string)
    (splitlines : string -> list string)
    (unified_diff : list string -> list string -> list string)
    (data_folders : list Regressions.Folder)
    (old_folders : Regressions.dict Regressions.FolderData) (repo : option string)
    (current_run last_run : option (string * string))
    (requested_last_sha : option string) :
  List.NoDup (map Regressions.name data_folders) ->
  let new_folders :=
    snd (Regressions.test_gha generate splitlines unified_diff data_folders old_folders
           repo current_run last_run requested_last_sha) in
  Regressions.created_folders data_folders new_folders = []
  /\ Regressions.removed_folders data_folders new_folders = [].
Proof.
  intros Hnd new_folders. subst new_folders.
  rewrite test_gha_new_folders_map by done.
  unfold Regressions.created_folders, Regressions.removed_folders.
  apply created_removed_none.
Qed.

(** *** The regression script on the example inputs *)

(** A diff of two lines shown with a limit of one line. *)
Lemma show_diff_truncation_witness :
  (0 <= 1)%Z
  /\ Regressions.show_diff RegressionScenarios.one_line RegressionScenarios.plain_diff
       "old  " "new" 1
     = join Regressions.newline ["-old"; "... and 1 more lines"].
Proof.
  split; [lia|].
  destruct (show_diff_truncation RegressionScenarios.one_line
              RegressionScenarios.plain_diff "old  " "new" 1 ltac:(lia))
    as (_ & Hmore & _).
  destruct (Hmore ltac:(vm_compute; reflexivity)) as [Heq _].
  rewrite Heq. vm_compute. reflexivity.
Defined.

(** The same diff with the limit -1: one line is shown and three are
    announced. *)
Lemma show_diff_negative_limit_witness :
  (-1 < 0)%Z
  /\ Regressions.show_diff RegressionScenarios.one_line RegressionScenarios.plain_diff
       "old  " "new" (-1)
     = join Regressions.newline ["-old"; "... and 3 more lines"].
Proof.
  split; [lia|].
  destruct (show_diff_negative_limit RegressionScenarios.one_line
              RegressionScenarios.plain_diff "old  " "new" (-1) ltac:(lia))
    as [Heq _].
  rewrite Heq. vm_compute. reflexivity.
Defined.

Lemma scenario_names_distinct :
  List.NoDup (map Regressions.name RegressionScenarios.data_folders).
Proof. repeat constructor; cbn; intuition discriminate. Defined.

(** The example run: a_out is new and generated, broken fails and keeps
    the text of last week. *)
Lemma test_gha_new_folders_witness :
  let new_folders :=
    snd (Regressions.test_gha RegressionScenarios.generate RegressionScenarios.one_line
           RegressionScenarios.plain_diff RegressionScenarios.data_folders
           RegressionScenarios.old_folders None None None None) in
  map fst new_folders = ["a_out"; "broken"]
  /\ Regressions.dict_get "broken" new_folders
     = Some (Regressions.mkFolderData "sbom of last week"
               (Some "RuntimeError: Failed to invoke SBOM generation")).
Proof.
  intros new_folders.
  destruct (test_gha_new_folders RegressionScenarios.generate RegressionScenarios.one_line
              RegressionScenarios.plain_diff RegressionScenarios.data_folders
              RegressionScenarios.old_folders None None None None
              scenario_names_distinct) as [Hkeys _].
  split; [exact Hkeys|]. vm_compute. reflexivity.
Defined.

(** The records of the example run name every data folder and no other. *)
Lemma test_gha_round_trip_witness :
  let new_folders :=
    snd (Regressions.test_gha RegressionScenarios.generate RegressionScenarios.one_line
           RegressionScenarios.plain_diff RegressionScenarios.data_folders
           RegressionScenarios.old_folders None None None None) in
  Regressions.removed_folders RegressionScenarios.data_folders
    RegressionScenarios.old_folders = ["gone"]
  /\ Regressions.created_folders RegressionScenarios.data_folders new_folders = []
  /\ Regressions.removed_folders RegressionScenarios.data_folders new_folders = [].
Proof.
  intros new_folders. split; [reflexivity|].
  exact (test_gha_round_trip RegressionScenarios.generate RegressionScenarios.one_line
           RegressionScenarios.plain_diff RegressionScenarios.data_folders
           RegressionScenarios.old_folders None None None None
           scenario_names_distinct).
Defined.

(** *** What [test_gha] reports *)

Lemma folder_step_eq (generate : string -> string + string)
    (splitlines : string -> list string)
    (unified_diff : list string -> list string -> list string)
    (old_folders : Regressions.dict Regressions.FolderData)
    (new_folders : Regressions.dict Regressions.FolderData)
    (results : Regressions.dict Regressions.Result) (folder : Regressions.Folder) :
  Regressions.folder_step generate splitlines unified_diff old_folders
    (new_folders, results) folder
  = (Regressions.dict_set (Regressions.name folder)
       (Regressions.stored_data generate old_folders folder) new_folders,
     match Regressions.reported generate splitlines unified_diff old_folders folder with
     | Some r => Regressions.dict_set (Regressions.name folder) r results
     | None => results
     end).
Proof.
  unfold Regressions.folder_step, Regressions.stored_data, Regressions.reported,
    Regressions.previous_text.
  destruct (generate (Regressions.path folder)) as [text | trace];
    destruct (Regressions.dict_get _ old_folders) as [d|];
    cbn [Regressions.sbom Regressions.stacktrace];
    rewrite ?String.eqb_refl; cbn [negb andb];
    try (destruct (negb _ && negb _)); try (destruct (truthy (Some trace)));
    reflexivity.
Qed.

Lemma folder_loop_results (generate : string -> string + string)
    (splitlines : string -> list string)
    (unified_diff : list string -> list string -> list string)
    (old_folders : Regressions.dict Regressions.FolderData)
    (l : list Regressions.Folder)
    (new_folders : Regressions.dict Regressions.FolderData)
    (results : Regressions.dict Regressions.Result) :
  List.NoDup (map Regressions.name l) ->
  (forall f, In f l -> ~ In (Regressions.name f) (map fst results)) ->
  snd (fold_left (Regressions.folder_step generate splitlines unified_diff old_folders)
                 l (new_folders, results))
  = results
    ++ flat_map
         (fun f =>
            match Regressions.reported generate splitlines unified_diff old_folders f with
            | Some r => [(Regressions.name f, r)]
            | None => []
            end) l.
Proof.
  revert new_folders results.
  induction l as [|a l IH]; intros new_folders results Hnd Hfresh;
    cbn [fold_left flat_map].
  - by rewrite app_nil_r.
  - apply List.NoDup_cons_iff in Hnd as [Ha Hnd]. rewrite folder_step_eq.
    destruct (Regressions.reported generate splitlines unified_diff old_folders a)
      as [r|].
    + rewrite (dict_set_fresh _ r results) by (apply Hfresh; by left).
      rewrite IH; [by rewrite <- app_assoc | done |].
      intros f Hf. rewrite map_app, in_app_iff. cbn [map fst In].
      intros [H | [H | []]].
      * apply (Hfresh f); [by right | done].
      * apply Ha. rewrite H. by apply in_map.
    + rewrite IH; [done | done |]. intros f Hf. apply Hfresh. by right.
Qed.

Lemma reported_lookup (generate : string -> string + string)
    (splitlines : string -> list string)
    (unified_diff : list string -> list string -> list string)
    (old_folders : Regressions.dict Regressions.FolderData)
    (l : list Regressions.Folder) (f : Regressions.Folder) :
  List.NoDup (map Regressions.name l) -> In f l ->
  Regressions.dict_get (Regressions.name f)
    (flat_map
       (fun f =>
          match Regressions.reported generate splitlines unified_diff old_folders f with
          | Some r => [(Regressions.name f, r)]
          | None => []
          end) l)
  = Regressions.reported generate splitlines unified_diff old_folders f.
Proof.
  induction l as [|a l IH]; [intros _ []|]. cbn [map flat_map].
  intros Hnd Hin. apply List.NoDup_cons_iff in Hnd as [Ha Hnd].
  destruct Hin as [-> | Hin].
  - destruct (Regressions.reported _ _ _ _ f) as [r|] eqn:Hr.
    + cbn [app Regressions.dict_get]. by rewrite String.eqb_refl.
    + cbn [app]. clear IH Hnd Hr.
      induction l as [|b l IHl]; [done|]. cbn [flat_map].
      assert (Hb : Regressions.name b <> Regressions.name f).
      { intros E. apply Ha. rewrite <- E. cbn [map]. by left. }
      assert (Ha' : ~ In (Regressions.name f) (map Regressions.name l)).
      { intros H. apply Ha. cbn [map]. by right. }
      destruct (Regressions.reported _ _ _ _ b); cbn [app Regressions.dict_get].
      * apply String.eqb_neq in Hb. rewrite Hb. by apply IHl.
      * by apply IHl.
  - assert (Hne : Regressions.name a <> Regressions.name f).
    { intros E. apply Ha. rewrite E. by apply in_map. }
    destruct (Regressions.reported _ _ _ _ a); cbn [app Regressions.dict_get].
    + apply String.eqb_neq in Hne. rewrite Hne. by apply IH.
    + by apply IH.
Qed.

(** X18. What [test_gha] puts in [results] for a data folder (folder names
    being distinct). A folder whose SBOM was generated is reported, with
    the diff against its previous text, exactly when the new text is not
    empty and differs from the previous one: a new text that is empty is
    not reported, whatever the previous text was. A folder whose generation
    raised is reported with its traceback and never with a diff. *)
Theorem test_gha_reported (generate : string -> string + string)
    (splitlines : string -> list string)
    (unified_diff : list string -> list string -> list string)
    (data_folders : list Regressions.Folder)
    (old_folders : Regressions.dict Regressions.FolderData)
    (folder : Regressions.Folder) :
  List.NoDup (map Regressions.name data_folders) ->
  In folder data_folders ->
  let results :=
    snd (Regressions.folder_loop generate splitlines unified_diff data_folders
           old_folders) in
  let previous := Regressions.previous_text old_folders folder in
  let entry := Regressions.dict_get (Regressions.name folder) results in
  (generate (Regressions.path folder) = inl EmptyString -> entry = None)
  /\ (generate (Regressions.path folder) = inl previous -> entry = None)
  /\ (forall text, generate (Regressions.path folder) = inl text ->
        text <> EmptyString -> text <> previous ->
        entry = Some (Regressions.DiffResult
                        (Regressions.show_diff splitlines unified_diff previous text 100)))
  /\ (forall trace, generate (Regressions.path folder) = inr trace ->
        trace <> EmptyString ->
        entry = Some (Regressions.StacktraceResult (Some trace))).
Proof.
  intros Hnd Hin results previous entry. subst entry results.
  unfold Regressions.folder_loop.
  rewrite folder_loop_results; [|done|intros f _ []]. cbn [app].
  rewrite reported_lookup by done. unfold Regressions.reported. fold previous.
  split; [|split; [|split]].
  - intros ->. by rewrite andb_false_r.
  - intros ->. by rewrite String.eqb_refl.
  - intros text -> H1 H2.
    apply String.eqb_neq in H1, H2. by rewrite H1, H2.
  - intros trace -> H. by destruct trace.
Qed.

Lemma stored_data_again (generate : string -> string + string)
    (old_folders : Regressions.dict Regressions.FolderData)
    (l : list Regressions.Folder) (f : Regressions.Folder) :
  List.NoDup (map Regressions.name l) -> In f l ->
  let new_folders :=
    map (fun f => (Regressions.name f, Regressions.stored_data generate old_folders f)) l in
  Regressions.previous_text new_folders f
  = Regressions.sbom (Regressions.stored_data generate old_folders f)
  /\ Regressions.stored_data generate new_folders f
     = Regressions.stored_data generate old_folders f.
Proof.
  intros Hnd Hin new_folders.
  assert (Hget : Regressions.dict_get (Regressions.name f) new_folders
                 = Some (Regressions.stored_data generate old_folders f))
    by (by apply dict_get_map).
  unfold Regressions.previous_text. rewrite Hget. split; [done|].
  unfold Regressions.stored_data at 1. rewrite Hget.
  unfold Regressions.stored_data.
  by destruct (generate (Regressions.path f)).
Qed.

Lemma reported_again (generate : string -> string + string)
    (splitlines : string -> list string)
    (unified_diff : list string -> list string -> list string)
    (old_folders : Regressions.dict Regressions.FolderData)
    (l : list Regressions.Folder) (f : Regressions.Folder) :
  List.NoDup (map Regressions.name l) -> In f l ->
  let new_folders :=
    map (fun f => (Regressions.name f, Regressions.stored_data generate old_folders f)) l in
  Regressions.reported generate splitlines unified_diff new_folders f
  = match generate (Regressions.path f) with
    | inl _ => None
    | inr trace =>
        if truthy (Some trace)
        then Some (Regressions.StacktraceResult (Some trace)) else None
    end.
Proof.
  intros Hnd Hin new_folders.
  destruct (stored_data_again generate old_folders l f Hnd Hin) as [Hprev _].
  fold new_folders in Hprev. unfold Regressions.reported. rewrite Hprev.
  unfold Regressions.stored_data.
  destruct (generate (Regressions.path f)) as [text | trace]; [|done].
  cbn [Regressions.sbom]. by rewrite String.eqb_refl.
Qed.

Lemma flat_map_ext_in {A B : Type} (f g : A -> list B) (l : list A) :
  (forall x, In x l -> f x = g x) -> flat_map f l = flat_map g l.
Proof.
  induction l as [|a l IH]; [done|]. intros H. cbn [flat_map].
  rewrite (H a) by (by left). f_equal. apply IH. intros x Hx. apply H. by right.
Qed.

Lemma flat_map_nil {A B : Type} (f : A -> list B) (l : list A) :
  (forall x, In x l -> f x = []) -> flat_map f l = [].
Proof.
  induction l as [|a l IH]; [done|]. intros H. cbn [flat_map].
  rewrite (H a) by (by left). apply IH. intros x Hx. apply H. by right.
Qed.

Lemma test_gha_quiet_summary (generate : string -> string + string)
    (splitlines : string -> list string)
    (unified_diff : list string -> list string -> list string)
    (data_folders : list Regressions.Folder)
    (old_folders : Regressions.dict Regressions.FolderData) (repo : option string)
    (current_run last_run : option (string * string))
    (requested_last_sha : option string) :
  data_folders <> [] ->
  Regressions.created_folders data_folders old_folders = [] ->
  Regressions.removed_folders data_folders old_folders = [] ->
  snd (Regressions.folder_loop generate splitlines unified_diff data_folders old_folders)
  = [] ->
  fst (Regressions.test_gha generate splitlines unified_diff data_folders old_folders
         repo current_run last_run requested_last_sha)
  = Regressions.rstrip
      ("## ✅ No SBOM Changes Detected" +:+ Regressions.newline
       +:+ Regressions.run_footer repo current_run last_run requested_last_sha).
Proof.
  intros Hne Hc Hr Hres. unfold Regressions.test_gha. rewrite Hc, Hr.
  destruct data_folders as [|a l]; [done|].
  unfold Regressions.folder_loop in Hres.
  destruct (fold_left _ (a :: l) _) as [new_folders results].
  cbn [snd] in Hres. subst results. reflexivity.
Qed.

Lemma run_footer_without_repo (current_run last_run : option (string * string))
    (requested_last_sha : option string) :
  Regressions.run_footer None current_run last_run requested_last_sha = EmptyString.
Proof.
  unfold Regressions.run_footer.
  destruct current_run as [[? ?]|], last_run as [[? ?]|]; reflexivity.
Qed.

(** X19. A second run of [test_gha] over the same data folders (folder
    names being distinct), with the records of the first run as
    [old_folders]: it returns the same records, it reports no diff for any
    folder (its results hold tracebacks only), and when every generation
    succeeds and no repository is given, its summary is the single line
    that says that no SBOM changed. *)
Theorem test_gha_second_run (generate : string -> string + string)
    (splitlines : string -> list string)
    (unified_diff : list string -> list string -> list string)
    (data_folders : list Regressions.Folder)
    (old_folders : Regressions.dict Regressions.FolderData)
    (repo repo' : option string)
    (current_run last_run current_run' last_run' : option (string * string))
    (requested_last_sha requested_last_sha' : option string) :
  List.NoDup (map Regressions.name data_folders) ->
  let new_folders :=
    snd (Regressions.test_gha generate splitlines unified_diff data_folders old_folders
           repo current_run last_run requested_last_sha) in
  snd (Regressions.test_gha generate splitlines unified_diff data_folders new_folders
         repo' current_run' last_run' requested_last_sha') = new_folders
  /\ (forall k r,
        In (k, r) (snd (Regressions.folder_loop generate splitlines unified_diff
                          data_folders new_folders)) ->
        exists trace, r = Regressions.StacktraceResult (Some trace))
  /\ (data_folders <> [] ->
      (forall f, In f data_folders -> exists text, generate (Regressions.path f) = inl text) ->
      fst (Regressions.test_gha generate splitlines unified_diff data_folders new_folders
             None current_run' last_run' requested_last_sha')
      = "## ✅ No SBOM Changes Detected").
Proof.
  intros Hnd new_folders. subst new_folders.
  rewrite (test_gha_new_folders_map _ _ _ _ old_folders) by done.
  set (new_folders :=
         map (fun f => (Regressions.name f,
                        Regressions.stored_data generate old_folders f)) data_folders).
  assert (Hres : snd (Regressions.folder_loop generate splitlines unified_diff
                        data_folders new_folders)
                 = flat_map
                     (fun f =>
                        match generate (Regressions.path f) with
                        | inl _ => []
                        | inr trace =>
                            if truthy (Some trace)
                            then [(Regressions.name f,
                                   Regressions.StacktraceResult (Some trace))]
                            else []
                        end) data_folders).
  { unfold Regressions.folder_loop.
    rewrite folder_loop_results; [|done|intros f _ []]. cbn [app].
    apply flat_map_ext_in. intros f Hf. unfold new_folders.
    rewrite (reported_again generate splitlines unified_diff old_folders
               data_folders f Hnd Hf).
    destruct (generate (Regressions.path f)) as [text | trace]; [done|].
    by destruct (truthy (Some trace)). }
  split; [|split].
  - rewrite test_gha_new_folders_map by done. apply map_ext_in. intros f Hf.
    unfold new_folders.
    by rewrite (proj2 (stored_data_again generate old_folders data_folders f Hnd Hf)).
  - intros k r Hin. rewrite Hres in Hin. apply in_flat_map in Hin as (f & Hf & Hin).
    destruct (generate (Regressions.path f)) as [text | trace]; [destruct Hin|].
    destruct (truthy (Some trace)); [|destruct Hin].
    destruct Hin as [[= _ <-] | []]. by exists trace.
  - intros Hne Hok.
    assert (Hnil : snd (Regressions.folder_loop generate splitlines unified_diff
                          data_folders new_folders) = []).
    { rewrite Hres. apply flat_map_nil. intros f Hf.
      by destruct (Hok f Hf) as [text ->]. }
    destruct (created_removed_none (Regressions.stored_data generate old_folders)
                data_folders) as [Hc Hr].
    fold new_folders in Hc, Hr.
    rewrite (test_gha_quiet_summary _ _ _ _ _ _ _ _ _ Hne Hc Hr Hnil).
    rewrite run_footer_without_repo. vm_compute. reflexivity.
Qed.

(** X20. [test_gha] without data folders: no SBOM is generated and no
    record is returned, every folder of [old_folders] counts as removed and
    none as new, and the summary does not depend on the repository and the
    runs given: the lines about the compared runs are left out. With an
    empty [old_folders] the summary is the single line that says that no
    test folders were found. *)
Theorem test_gha_without_folders (generate : string -> string + string)
    (splitlines : string -> list string)
    (unified_diff : list string -> list string -> list string)
    (old_folders : Regressions.dict Regressions.FolderData) (repo : option string)
    (current_run last_run : option (string * string))
    (requested_last_sha : option string) :
  let out :=
    Regressions.test_gha generate splitlines unified_diff [] old_folders
      repo current_run last_run requested_last_sha in
  snd out = []
  /\ out = Regressions.test_gha generate splitlines unified_diff [] old_folders
             None None None None
  /\ Regressions.created_folders [] old_folders = []
  /\ Regressions.removed_folders [] old_folders = map fst old_folders
  /\ (old_folders = [] -> fst out = "## ❓ No Test Folders Found").
Proof.
  cbn zeta. split; [reflexivity|]. split; [reflexivity|]. split; [reflexivity|].
  split.
  - unfold Regressions.removed_folders. cbn [map existsb negb].
    induction (map fst old_folders) as [|k l IH]; [done|].
    cbn [List.filter]. by rewrite IH.
  - intros ->. vm_compute. reflexivity.
Qed.

(** The example run reports the new text of a_out as a diff against the
    empty text. *)
Lemma test_gha_reported_witness :
  let folder := Regressions.mkFolder "a_out" "tests/data/a_out" in
  In folder RegressionScenarios.data_folders
  /\ Regressions.dict_get "a_out"
       (snd (Regressions.folder_loop RegressionScenarios.generate
               RegressionScenarios.one_line RegressionScenarios.plain_diff
               RegressionScenarios.data_folders RegressionScenarios.old_folders))
     = Some (Regressions.DiffResult
               (Regressions.show_diff RegressionScenarios.one_line
                  RegressionScenarios.plain_diff EmptyString
                  "sbom of tests/data/a_out" 100)).
Proof.
  intros folder.
  assert (Hin : In folder RegressionScenarios.data_folders) by (cbn; tauto).
  split; [exact Hin|].
  destruct (test_gha_reported RegressionScenarios.generate RegressionScenarios.one_line
              RegressionScenarios.plain_diff RegressionScenarios.data_folders
              RegressionScenarios.old_folders folder scenario_names_distinct Hin)
    as (_ & _ & Hdiff & _).
  apply (Hdiff "sbom of tests/data/a_out"); [reflexivity | discriminate | discriminate].
Defined.

(** A second run over the example folders returns the records of the
    first. *)
Lemma test_gha_second_run_witness :
  let new_folders :=
    snd (Regressions.test_gha RegressionScenarios.generate RegressionScenarios.one_line
           RegressionScenarios.plain_diff RegressionScenarios.data_folders
           RegressionScenarios.old_folders None None None None) in
  snd (Regressions.test_gha RegressionScenarios.generate RegressionScenarios.one_line
         RegressionScenarios.plain_diff RegressionScenarios.data_folders
         new_folders None None None None) = new_folders.
Proof.
  intros new_folders.
  exact (proj1 (test_gha_second_run RegressionScenarios.generate
                  RegressionScenarios.one_line RegressionScenarios.plain_diff
                  RegressionScenarios.data_folders RegressionScenarios.old_folders
                  None None None None None None None None
                  scenario_names_distinct)).
Defined.

(** The edge from A to C of the example is labelled requires: the run
    raises at the call for it.  The first edge, from A to B with the label
    DependsOn, raises already. *)
Lemma scoped_edge_raises_witness :
  In ("A", "C", "requires") (Graph.edges (SBOM.graph Examples.labelled_sbom))
  /\ upper "requires" <> "CONTAINS"
  /\ fst (write_sbom_run graph_children Examples.version Examples.labelled_sbom)
     = inl (AttributeError "Dependency" "add_scope_dependency").
Proof.
  assert (He : In ("A", "C", "requires")
                  (Graph.edges (SBOM.graph Examples.labelled_sbom)))
    by (right; left; reflexivity).
  assert (Hr : upper "requires" <> "CONTAINS") by (vm_compute; discriminate).
  split; [exact He|]. split; [exact Hr|].
  exact (proj1 (scoped_edge_raises graph_children Examples.version
                  Examples.labelled_sbom "A" "C" "requires" He Hr)).
Defined.

(** The system S1 of the example has the component named Widget OS in the
    document. *)
Lemma system_components_of_document_witness :
  let c := snd (convert_system_to_cyclonedx_component Examples.widget_system) in
  (exists out, fst (write_sbom_run graph_children Examples.version Examples.widget_sbom)
               = inr out
               /\ In c (document_components out))
  /\ Component.name c = Some "Widget OS".
Proof.
  intros c.
  destruct (fst (write_sbom_run graph_children Examples.version Examples.widget_sbom))
    as [raised | out] eqn:Hrun; [vm_compute in Hrun; discriminate|].
  destruct (system_components_of_document graph_children Examples.version
              Examples.widget_sbom out Examples.widget_system Hrun)
    as (Hin & _); [left; reflexivity|].
  split; [by exists out | reflexivity].
Defined.

(** In the document of the example the file F2 is listed under parentA. *)
Lemma contains_children_of_document_witness :
  exists out,
    fst (write_sbom_run graph_children Examples.version Examples.nested_sbom) = inr out
    /\ In ("F2", None) (dependency_entries out "parentA").
Proof.
  destruct (fst (write_sbom_run graph_children Examples.version Examples.nested_sbom))
    as [raised | out] eqn:Hrun; [vm_compute in Hrun; discriminate|].
  exists out. split; [reflexivity|].
  destruct (contains_children_of_document graph_children Examples.version
              Examples.nested_sbom out "parentA" "F2" Hrun) as [_ Hiff].
  apply Hiff. split; [exists "Contains"; left; reflexivity|].
  right. vm_compute. reflexivity.
Defined.

(** The document of the example has one dependency record, that of
    parentA. *)
Lemma dependency_records_of_document_witness :
  exists out,
    fst (write_sbom_run graph_children Examples.version Examples.nested_sbom) = inr out
    /\ List.NoDup (map Dependency.ref (Bom.dependencies out))
    /\ exists d, In d (Bom.dependencies out) /\ Dependency.ref d = "parentA".
Proof.
  destruct (fst (write_sbom_run graph_children Examples.version Examples.nested_sbom))
    as [raised | out] eqn:Hrun; [vm_compute in Hrun; discriminate|].
  exists out. split; [reflexivity|].
  destruct (dependency_records_of_document graph_children Examples.version
              Examples.nested_sbom out Hrun) as (Hnd & Hrec & _).
  split; [exact Hnd|]. apply Hrec. exists "F2", "Contains".
  split; [left; reflexivity | vm_compute; reflexivity].
Defined.
